(** * NSLS-II TES profile collection: a shallow embedding of the startup code

    The development follows the startup files one module per file:
    - [Rois]            startup/10-rois.py
    - [FlyScans]        startup/30-fly_scans.py
    - [AreaDetectors]   startup/26-areadetectors.py
    - [SuitcaseXdi]     startup/28-suitcase-xdi.py

    Python [float]s are IEEE binary64 numbers and are modelled by Rocq's
    primitive floats wherever the code only compares, multiplies, divides
    and floors them.  The energy/linear conversion of [E_fly] uses
    trigonometric functions and is modelled over the real numbers, with
    [None] standing for the NaN that numpy returns outside a function's
    domain. *)

From Stdlib Require Import ZArith QArith Qround Reals Lra Lia List String Ascii.
From Stdlib Require Import DecimalString.
From Stdlib Require Import Floats Uint63.
From stdpp Require Import base option gmap strings.
Import ListNotations.

Set Warnings "-inexact-float,-register-all".
Local Open Scope string_scope.

(** ** Python exceptions and results *)

Inductive py_exn : Type :=
| KeyError (key : string)
| IndexError
| TypeError (msg : string)
| AttributeError (attr : string)
| AssertionError (msg : string)
| LimitError (msg : string)
| ZeroDivisionError
| OverflowError
| ValueError (msg : string)
| Exception (msg : string).

Inductive result (A : Type) : Type :=
| Ok (a : A)
| Raise (e : py_exn).
Arguments Ok {A} a.
Arguments Raise {A} e.

Definition rbind {A B} (r : result A) (f : A -> result B) : result B :=
  match r with
  | Ok a => f a
  | Raise e => Raise e
  end.

(** [str.lower()] on ASCII text: the table keys and element tags are ASCII. *)
Definition lower_ascii (c : ascii) : ascii :=
  let n := nat_of_ascii c in
  if (65 <=? n)%nat && (n <=? 90)%nat then ascii_of_nat (n + 32) else c.

Fixpoint lower (s : string) : string :=
  match s with
  | EmptyString => EmptyString
  | String c rest => String (lower_ascii c) (lower rest)
  end.

(** ** startup/10-rois.py *)
Module Rois.

(** A dict display [{k1: v1, k2: v2, ...}] inserts its items from left to
    right, so a later item with an equal key replaces the earlier one. *)
Definition dict_display {V} (items : list (string * V)) : gmap string V :=
  fold_left (fun d kv => <[kv.1 := kv.2]> d) items ∅.

Definition element_to_roi_items : list (string * (Z * Z)) :=
  [ ("s", (224, 240)%Z);
    ("p", (192, 210)%Z);
    ("pd", (274, 292)%Z);
    ("au", (202, 220)%Z);
    ("cl", (253, 271)%Z);
    ("ru_croft", (240, 280)%Z);
    ("y_croft", (170, 205)%Z);
    ("zr_croft", (190, 225)%Z);
    ("zr_sahiner", (195, 225)%Z);
    ("pd", (275, 295)%Z) ].

Definition element_to_roi : gmap string (Z * Z) :=
  dict_display element_to_roi_items.

(** [def rois(element): return element_to_roi[element.lower()]] *)
Definition rois (element : string) : result (Z * Z) :=
  match element_to_roi !! lower element with
  | Some roi => Ok roi
  | None => Raise (KeyError (lower element))
  end.

(** The nine distinct tags of the table with the range each one maps to. *)
Definition documented_rois : list (string * (Z * Z)) :=
  [ ("s", (224, 240)%Z);
    ("p", (192, 210)%Z);
    ("au", (202, 220)%Z);
    ("cl", (253, 271)%Z);
    ("ru_croft", (240, 280)%Z);
    ("y_croft", (170, 205)%Z);
    ("zr_croft", (190, 225)%Z);
    ("zr_sahiner", (195, 225)%Z);
    ("pd", (275, 295)%Z) ].

Definition documented_tags : list string := map fst documented_rois.

End Rois.

(** ** Python values and builtins *)

(** The values found in documents: a list, tuple or numpy array is a
    [PySeq], a dict with string keys a [PyDict]. *)
Inductive pyval : Type :=
| PyNone
| PyInt (n : Z)
| PyFloat (f : float)
| PyStr (s : string)
| PySeq (items : list pyval)
| PyDict (items : list (string * pyval)).

(** A document of the stream is a dict with string keys, in insertion order. *)
Definition document : Type := list (string * pyval).

(** Python builtins the code calls and this development does not define.
    [float_repr] is the text of a float and [container_repr] the text of a
    list or dict under [str]; [py_format] is [str.format] applied to a
    template with the fields of a document as keyword arguments;
    [fromtimestamp_isoformat] is
    [datetime.datetime.fromtimestamp(t).isoformat()]. *)
Class Builtins : Type := {
  float_repr : float -> string;
  container_repr : pyval -> string;
  py_format : string -> document -> result string;
  fromtimestamp_isoformat : pyval -> result string;
}.

(** ** Binary64 helpers *)
Module Float64.

(** [int(np.floor(x))]: the largest integer not above [x].  A finite float
    is [(-1)^s * m * 2^e]; shifting by a negative [e] is a floored division. *)
Definition floor_int (x : float) : result Z :=
  match Prim2SF x with
  | S754_zero _ => Ok 0%Z
  | S754_infinity _ => Raise OverflowError
  | S754_nan => Raise (ValueError "cannot convert float NaN to integer")
  | S754_finite s m e => Ok (Z.shiftl (if s then Z.neg m else Z.pos m) e)
  end.

(** [float(n)] for a Python int, rounding to nearest even. *)
Definition float_of_int (n : Z) : float :=
  SF2Prim (binary_normalize prec emax n 0 false).

(** Python's [a / b] on floats. *)
Definition py_div (a b : float) : result float :=
  if PrimFloat.eqb b 0 then Raise ZeroDivisionError else Ok (PrimFloat.div a b).

End Float64.

(** ** startup/30-fly_scans.py *)
Module FlyScans.
Import Float64.

(** A motor as far as the plans read it: its soft limits. *)
Record motor : Type := { limits : float * float }.

Section Plans.
Context `{Builtins}.

(** [limits[0] < v < limits[1]] *)
Definition strictly_inside (lim : float * float) (v : float) : bool :=
  PrimFloat.ltb (fst lim) v && PrimFloat.ltb v (snd lim).

Definition _validate_motor_limits (m : motor) (start stop : float) (k : string)
  : result unit :=
  if negb (PrimFloat.ltb start stop) then
    Raise (AssertionError
             ("start (" ++ float_repr start ++ ") must be smaller than "
              ++ "stop (" ++ float_repr stop ++ ") for " ++ k))
  else
    let lim := limits m in
    if existsb (fun v => negb (strictly_inside lim v)) [start; stop] then
      Raise (LimitError
               ("your requested " ++ k ++ " values are out of limits for "
                ++ "the motor "
                ++ float_repr (fst lim) ++ " < (" ++ float_repr start ++ ", "
                ++ float_repr stop ++ ") < " ++ float_repr (snd lim)))
    else Ok tt.

(** [low <= v <= high]: inside the closed interval of the soft limits. *)
Definition within_limits (lim : float * float) (v : float) : bool :=
  PrimFloat.leb (fst lim) v && PrimFloat.leb v (snd lim).

(** The text of the [LimitError]: the label, both bounds and both
    requested values. *)
Definition limit_message (m : motor) (start stop : float) (k : string) : string :=
  "your requested " ++ k ++ " values are out of limits for the motor "
  ++ float_repr (fst (limits m)) ++ " < (" ++ float_repr start ++ ", "
  ++ float_repr stop ++ ") < " ++ float_repr (snd (limits m)).

(** The contract of [_validate_motor_limits] when "outside the soft limits
    [[low, high]]" is read with the closed interval. *)
Definition validates_closed_limits : Prop :=
  forall (m : motor) (start stop : float) (k : string),
    (PrimFloat.leb stop start = true ->
     exists msg, _validate_motor_limits m start stop k = Raise (AssertionError msg)) /\
    (PrimFloat.ltb start stop = true ->
     within_limits (limits m) start && within_limits (limits m) stop = false ->
     _validate_motor_limits m start stop k
     = Raise (LimitError (limit_message m start stop k))) /\
    (PrimFloat.ltb start stop = true ->
     within_limits (limits m) start && within_limits (limits m) stop = true ->
     _validate_motor_limits m start stop k = Ok tt).

(** [assert v > 0, f"{name} ({v}) must be more than 0"] *)
Definition assert_positive (name : string) (v : float) : result unit :=
  if PrimFloat.ltb 0 v then Ok tt
  else Raise (AssertionError
                (name ++ " (" ++ float_repr v ++ ") must be more than 0")).

(** The values [xy_fly] derives before it touches the hardware. *)
Record xy_fly_derived : Type := {
  prescale : Z;
  a_xstep_size : float;
  a_ystep_size : float;
  num_xpixels : Z;
  num_ypixels : Z;
  flyspeed : float;
}.

(** The set-up part of [xy_fly], up to the fly speed.  [xmres_ret] and
    [ymres_ret] are what the two [bps.read] of the motor resolutions gave
    back ([None] when the engine returned nothing). *)
Definition xy_fly (x_motor y_motor : motor)
    (dwell_time xstart xstop xstep_size ystart ystop : float)
    (ystep_size : option float) (xmres_ret ymres_ret : option float)
  : result xy_fly_derived :=
  rbind (_validate_motor_limits x_motor xstart xstop "x") (fun _ =>
  rbind (_validate_motor_limits y_motor ystart ystop "y") (fun _ =>
  let ystep_size := match ystep_size with Some v => v | None => xstep_size end in
  rbind (assert_positive "dwell_time" dwell_time) (fun _ =>
  rbind (assert_positive "xstep_size" xstep_size) (fun _ =>
  rbind (assert_positive "ystep_size" ystep_size) (fun _ =>
  let xmres := match xmres_ret with Some v => v | None => 0.0002%float end in
  let ymres := match ymres_ret with Some v => v | None => 0.0002%float end in
  rbind (py_div xstep_size (5 * xmres)) (fun qx =>
  rbind (floor_int qx) (fun prescale =>
  let a_xstep_size := (float_of_int prescale * (5 * xmres))%float in
  rbind (py_div ystep_size ymres) (fun qy =>
  rbind (floor_int qy) (fun ny =>
  let a_ystep_size := (float_of_int ny * ymres)%float in
  rbind (py_div (xstop - xstart) a_xstep_size) (fun px =>
  rbind (floor_int px) (fun num_xpixels =>
  rbind (py_div (ystop - ystart) a_ystep_size) (fun py =>
  rbind (floor_int py) (fun num_ypixels =>
  rbind (py_div a_xstep_size dwell_time) (fun flyspeed =>
  Ok {| prescale := prescale;
        a_xstep_size := a_xstep_size;
        a_ystep_size := a_ystep_size;
        num_xpixels := num_xpixels;
        num_ypixels := num_ypixels;
        flyspeed := flyspeed |})))))))))))))).

End Plans.

(** *** The energy / linear-drive conversion of [E_fly]

    Real-number model.  [None] is numpy's NaN or infinity: [np.arcsin]
    outside [[-1, 1]], a division by zero, a tangent at a pole. *)

Definition deg2rad (x : R) : R := (x * (PI / 180))%R.

Definition np_arcsin (x : R) : option R :=
  if Rle_dec (-1) x then
    if Rle_dec x 1 then Some (asin x) else None
  else None.

Definition np_divide (a b : R) : option R :=
  if Req_dec_T b 0 then None else Some (a / b)%R.

Definition np_tan (x : R) : option R :=
  if Req_dec_T (cos x) 0 then None else Some (tan x).

Section Conversion.
Variables e_back energy_cal : R.

Definition _linear_to_energy (linear : R) : option R :=
  np_divide e_back
    (sin (deg2rad 45
          + 0.5 * atan ((28.2474 - linear) / 35.02333)
          + deg2rad energy_cal / 2))%R.

Definition _energy_to_linear (energy : R) : option R :=
  q ← np_divide e_back energy;
  a ← np_arcsin q;
  t ← np_tan (PI / 2 - 2 * a + deg2rad energy_cal)%R;
  Some (28.2474 + 35.02333 * t)%R.

(** energy -> linear -> energy *)
Definition energy_round_trip (energy : R) : option R :=
  _energy_to_linear energy ≫= _linear_to_energy.

End Conversion.

(** The defaults [E_fly] uses when the monochromator gives no reading. *)
Definition e_back_dflt : R := 1977.04%R.
Definition energy_cal_dflt : R := 0.40118%R.

(** *** The energy list of [XANES_mapping], in binary64

    [E_sections] and [step_size] are the values of the two arrays as
    binary64 numbers.  For an array of integers below 2^53 in size the
    conversion is exact, and the difference of two of its entries rounds as
    the difference of the two floats does. *)

(** [np.int(x)]: Python's [int] on a float, truncating towards zero. *)
Definition np_int (x : float) : result Z :=
  match Prim2SF x with
  | S754_zero _ => Ok 0%Z
  | S754_infinity _ => Raise OverflowError
  | S754_nan => Raise (ValueError "cannot convert float NaN to integer")
  | S754_finite s m e =>
      let a := Z.shiftl (Z.pos m) e in
      Ok (if s then (- a)%Z else a)
  end.

(** The values of [np.linspace(start, stop, num)] before the end point is
    put in: [arange(0, num)] times the step, plus [start].  [div] is
    [num - 1]; a step that is zero is the case numpy treats apart. *)
Definition linspace_body (start stop : float) (num : Z) : list float :=
  let div := (num - 1)%Z in
  let delta := (stop - start)%float in
  let y := map (fun i => float_of_int (Z.of_nat i)) (seq 0 (Z.to_nat num)) in
  let y :=
    if (0 <? div)%Z then
      let step := (delta / float_of_int div)%float in
      if PrimFloat.eqb step 0 then
        map (fun v => (v / float_of_int div * delta)%float) y
      else map (fun v => (v * step)%float) y
    else map (fun v => (v * delta)%float) y in
  map (fun v => (v + start)%float) y.

(** [np.linspace(start, stop, num)], end point included: with more than
    one point, the last one is [stop] itself. *)
Definition linspace (start stop : float) (num : Z) : result (list float) :=
  if (num <? 0)%Z then
    Raise (ValueError "Number of samples must be non-negative.")
  else
    let y := linspace_body start stop num in
    Ok (if (1 <? num)%Z then (removelast y ++ [stop])%list else y).

(** [a[i]] for a non-negative index. *)
Definition index {A} (a : list A) (i : nat) : result A :=
  match nth_error a i with
  | Some v => Ok v
  | None => Raise IndexError
  end.

(** One turn of the loop body:
    [ept = ept[0:-1]; ept = np.append(ept, np.linspace(...))].  A division
    by a zero step gives an infinity or a NaN, which [np.int] refuses. *)
Definition ept_body (E_sections step_size : list float) (ept : list float) (ii : nat)
  : result (list float) :=
  let ept := removelast ept in
  rbind (index E_sections ii) (fun lo =>
  rbind (index E_sections (ii + 1)) (fun hi =>
  rbind (index step_size ii) (fun step =>
  rbind (np_int ((hi - lo) / step)%float) (fun n =>
  rbind (linspace lo hi (n + 1)) (fun pts =>
  Ok (ept ++ pts)%list))))).

Fixpoint for_range (body : list float -> nat -> result (list float))
    (iis : list nat) (ept : list float) : result (list float) :=
  match iis with
  | [] => Ok ept
  | ii :: rest => rbind (body ept ii) (for_range body rest)
  end.

(** The list [ept] that [XANES_mapping] builds from its sections. *)
Definition XANES_mapping_ept (E_sections step_size : list float)
  : result (list float) :=
  for_range (ept_body E_sections step_size) (seq 0 (length step_size)) [].

(** *** Notions used to state what the list contains *)

(** The distance [d] is the step size to within one part in a hundred. *)
Definition near_step (step d : float) : bool :=
  PrimFloat.leb (abs (d - step)) (step / 100).

(** Consecutive points are a step apart. *)
Fixpoint spaced_by (step : float) (pts : list float) : Prop :=
  match pts with
  | a :: (b :: _) as rest => near_step step (b - a) = true /\ spaced_by step rest
  | _ => True
  end.

(** Every section that [XANES_mapping] is given comes out spaced at its
    step size. *)
Definition sections_spaced_at_step_size : Prop :=
  forall (lo hi step : float) (pts : list float),
    PrimFloat.ltb lo hi = true -> PrimFloat.ltb 0 step = true ->
    XANES_mapping_ept [lo; hi] [step] = Ok pts ->
    spaced_by step pts.

(** The quotient the loop takes the integer part of, for section [ii]. *)
Definition section_quotient (E_sections step_size : list float) (ii : nat) : float :=
  ((nth (ii + 1) E_sections 0 - nth ii E_sections 0) / nth ii step_size 0)%float.

(** There is one boundary more than there are step sizes, and section
    [ii] is cut into [counts[ii]] intervals, at least one: [counts[ii]] is
    the integer part of its quotient. *)
Definition have_intervals (E_sections step_size : list float) (counts : list nat)
  : Prop :=
  length E_sections = S (length step_size) /\
  length counts = length step_size /\
  forall ii, (ii < length step_size)%nat ->
    (1 <= nth ii counts 0)%nat /\
    np_int (section_quotient E_sections step_size ii)
    = Ok (Z.of_nat (nth ii counts 0%nat)).

(** The points of section [ii] short of its upper boundary: what
    [np.linspace] computes for it, less the last point. *)
Definition section_points (E_sections step_size : list float) (counts : list nat)
    (ii : nat) : list float :=
  removelast
    (linspace_body (nth ii E_sections 0%float) (nth (ii + 1) E_sections 0%float)
       (Z.of_nat (nth ii counts 0%nat) + 1)).


(** *** Further notions for the conversion *)

(** linear -> energy -> linear *)
Definition linear_round_trip (e_back energy_cal linear : R) : option R :=
  _linear_to_energy e_back energy_cal linear ≫= _energy_to_linear e_back energy_cal.

End FlyScans.

(** ** startup/26-areadetectors.py *)
Module AreaDetectors.

(** The endpoints [warmup] touches: the plugin's [enable] and six signals
    of the parent camera. *)
Inductive signal : Type :=
| enable
| array_callbacks
| image_mode
| trigger_mode
| acquire_time
| acquire_period
| acquire.

#[global] Instance signal_eq_dec : EqDecision signal.
Proof. solve_decision. Defined.

Inductive pv_value : Type :=
| PvInt (n : Z)
| PvStr (s : string)
| PvFloat (f : float).

(** What the procedure does to the outside, in order. *)
Inductive action : Type :=
| Sleep (seconds : Q)
| SetWait (sig : signal) (val : pv_value).

(** The driver as the procedure sees it: every endpoint holds the value
    last put to it, and [log] records the actions issued so far. *)
Record ioc : Type := {
  values : signal -> pv_value;
  log : list action;
}.

(** [sig.get()] *)
Definition get (sig : signal) (h : ioc) : pv_value := values h sig.

(** [sig.set(val).wait()] *)
Definition set_wait (sig : signal) (val : pv_value) (h : ioc) : ioc :=
  {| values := fun s => if decide (s = sig) then val else values h s;
     log := (log h ++ [SetWait sig val])%list |}.

(** [ttime.sleep(seconds)] *)
Definition sleep (seconds : Q) (h : ioc) : ioc :=
  {| values := values h; log := (log h ++ [Sleep seconds])%list |}.

(** The [OrderedDict] [sigs] of [warmup]. *)
Definition sigs : list (signal * pv_value) :=
  [ (array_callbacks, PvInt 1);
    (image_mode, PvStr "Single");
    (trigger_mode, PvStr "Fixed Rate");
    (acquire_time, PvInt 1);
    (acquire_period, PvInt 1);
    (acquire, PvInt 1) ].

(** [for sig, val in items: ttime.sleep(0.1); sig.set(val).wait()] *)
Definition put_all (items : list (signal * pv_value)) (h : ioc) : ioc :=
  fold_left (fun h sv => set_wait sv.1 sv.2 (sleep 0.1 h)) items h.

(** [HDF5PluginWithFileStoreProsilica.warmup] *)
Definition warmup (h : ioc) : ioc :=
  let h := set_wait enable (PvInt 1) h in
  let original_vals := map (fun sv => (sv.1, get sv.1 h)) sigs in
  let h := put_all sigs h in
  let h := sleep 2 h in
  put_all (rev original_vals) h.

(** The [SetWait] actions of a log, in order. *)
Definition writes (l : list action) : list (signal * pv_value) :=
  flat_map (fun a => match a with SetWait s v => [(s, v)] | Sleep _ => [] end) l.

(** The six camera endpoints, in the order [warmup] drives them. *)
Definition snapshotted : list signal := map fst sigs.

(** A driver whose camera is in continuous, externally triggered mode. *)
Definition continuous_camera : ioc :=
  {| values := fun sig =>
       match sig with
       | enable => PvInt 0
       | array_callbacks => PvInt 0
       | image_mode => PvStr "Continuous"
       | trigger_mode => PvStr "Sync In 1"
       | acquire_time => PvFloat 0.05
       | acquire_period => PvFloat 0.1
       | acquire => PvInt 1
       end;
     log := [] |}.


(** The time a log spends in [ttime.sleep], in seconds. *)
Definition total_sleep (l : list action) : Q :=
  fold_right (fun a t => match a with Sleep s => (s + t)%Q | SetWait _ _ => t end) 0%Q l.

End AreaDetectors.

(** ** Statements that mutate an object and may raise

    [stateful St A] runs on a state [St]; the state it returns is the one
    the exception (if any) leaves behind, as Python's in-place updates do. *)
Definition stateful (St A : Type) : Type := St -> result A * St.

#[global] Instance stateful_ret {St} : MRet (stateful St) :=
  fun A a s => (Ok a, s).

#[global] Instance stateful_bind {St} : MBind (stateful St) :=
  fun A B f m s =>
    match m s with
    | (Ok a, s') => f a s'
    | (Raise e, s') => (Raise e, s')
    end.

Definition raise {St A} (e : py_exn) : stateful St A := fun s => (Raise e, s).
Definition lift {St A} (r : result A) : stateful St A := fun s => (r, s).
Definition gets {St A} (f : St -> A) : stateful St A := fun s => (Ok (f s), s).
Definition modify {St} (f : St -> St) : stateful St unit := fun s => (Ok tt, f s).

(** [for x in xs: body(x)] *)
Fixpoint for_each {St A} (body : A -> stateful St unit) (xs : list A)
  : stateful St unit :=
  match xs with
  | [] => mret tt
  | x :: rest => body x;; for_each body rest
  end.

(** [m] keeps the relation [R] between the state before and after,
    whether or not it raises. *)
Definition preserves {St A} (R : St -> St -> Prop) (m : stateful St A) : Prop :=
  forall s, R s (m s).2.

(** ** Python dicts in insertion order *)
Module ODict.
Section ODict.
Context {V : Type}.

(** [d[k]], [None] for a missing key *)
Fixpoint get (k : string) (d : list (string * V)) : option V :=
  match d with
  | [] => None
  | (k', v) :: rest => if String.eqb k k' then Some v else get k rest
  end.

(** [k in d] *)
Definition mem (k : string) (d : list (string * V)) : bool :=
  match get k d with Some _ => true | None => false end.

(** [d[k] = v]: an existing key keeps its place, a new key goes last. *)
Fixpoint set (k : string) (v : V) (d : list (string * V)) : list (string * V) :=
  match d with
  | [] => [(k, v)]
  | (k', v') :: rest =>
      if String.eqb k k' then (k, v) :: rest else (k', v') :: set k v rest
  end.

Definition keys (d : list (string * V)) : list string := map fst d.
Definition values (d : list (string * V)) : list V := map snd d.

End ODict.
End ODict.

(** ** startup/28-suitcase-xdi.py *)
Module SuitcaseXdi.

Definition tab : string := String (ascii_of_nat 9) EmptyString.
Definition newline : string := String (ascii_of_nat 10) EmptyString.

(** *** The XDI template, as [toml.loads] returns it

    Each section is a table whose keys are unique and kept in the order of
    the file. *)
Record column_template : Type := {
  data_key : string;
  column_label : string;
  units : option string;
  transform : option string;
}.

Record required_template : Type := {
  required_data : string;
  doc_name_constraint : option string;
}.

Record optional_template : Type := {
  optional_data : string;
}.

Record xdi_template : Type := {
  versions : list (string * string);
  columns_section : list (string * column_template);
  required_headers : list (string * required_template);
  optional_headers : list (string * optional_template);
}.

(** A header-line buffer: field name to [None] or a rendered line. *)
Definition header_lines : Type := list (string * option string).

(** An output file obtained from the manager: its name and the strings
    written to it so far. *)
Definition xdi_file : Type := (string * list string)%type.

(** *** The attributes of a [Serializer] *)
Record Serializer : Type := {
  _xdi_file_template : xdi_template;
  _transforms : gmap string (document -> result pyval);
  _file_prefix : string;
  columns : list column_template;
  _templated_file_prefix : option string;
  _uid_to_descriptor : gmap string document;
  _header_line_buffer : header_lines;
  (* assigned for the first time by [_event_page_begin_row] *)
  _event_page_header_line_buffer : option header_lines;
  _row_end_docs : list document;
  _scan_number : option pyval;
  _column_data : list (string * pyval);
  (* what the manager has handed out: the artifacts *)
  files : list xdi_file;
}.

Definition set_templated_file_prefix (v : option string) (s : Serializer) :=
  {| _xdi_file_template := _xdi_file_template s; _transforms := _transforms s;
     _file_prefix := _file_prefix s; columns := columns s;
     _templated_file_prefix := v;
     _uid_to_descriptor := _uid_to_descriptor s;
     _header_line_buffer := _header_line_buffer s;
     _event_page_header_line_buffer := _event_page_header_line_buffer s;
     _row_end_docs := _row_end_docs s; _scan_number := _scan_number s;
     _column_data := _column_data s; files := files s |}.

Definition set_uid_to_descriptor (v : gmap string document) (s : Serializer) :=
  {| _xdi_file_template := _xdi_file_template s; _transforms := _transforms s;
     _file_prefix := _file_prefix s; columns := columns s;
     _templated_file_prefix := _templated_file_prefix s;
     _uid_to_descriptor := v;
     _header_line_buffer := _header_line_buffer s;
     _event_page_header_line_buffer := _event_page_header_line_buffer s;
     _row_end_docs := _row_end_docs s; _scan_number := _scan_number s;
     _column_data := _column_data s; files := files s |}.

Definition set_header_line_buffer (v : header_lines) (s : Serializer) :=
  {| _xdi_file_template := _xdi_file_template s; _transforms := _transforms s;
     _file_prefix := _file_prefix s; columns := columns s;
     _templated_file_prefix := _templated_file_prefix s;
     _uid_to_descriptor := _uid_to_descriptor s;
     _header_line_buffer := v;
     _event_page_header_line_buffer := _event_page_header_line_buffer s;
     _row_end_docs := _row_end_docs s; _scan_number := _scan_number s;
     _column_data := _column_data s; files := files s |}.

Definition set_event_page_header_line_buffer (v : option header_lines)
    (s : Serializer) :=
  {| _xdi_file_template := _xdi_file_template s; _transforms := _transforms s;
     _file_prefix := _file_prefix s; columns := columns s;
     _templated_file_prefix := _templated_file_prefix s;
     _uid_to_descriptor := _uid_to_descriptor s;
     _header_line_buffer := _header_line_buffer s;
     _event_page_header_line_buffer := v;
     _row_end_docs := _row_end_docs s; _scan_number := _scan_number s;
     _column_data := _column_data s; files := files s |}.

Definition set_row_end_docs (v : list document) (s : Serializer) :=
  {| _xdi_file_template := _xdi_file_template s; _transforms := _transforms s;
     _file_prefix := _file_prefix s; columns := columns s;
     _templated_file_prefix := _templated_file_prefix s;
     _uid_to_descriptor := _uid_to_descriptor s;
     _header_line_buffer := _header_line_buffer s;
     _event_page_header_line_buffer := _event_page_header_line_buffer s;
     _row_end_docs := v; _scan_number := _scan_number s;
     _column_data := _column_data s; files := files s |}.

Definition set_scan_number (v : option pyval) (s : Serializer) :=
  {| _xdi_file_template := _xdi_file_template s; _transforms := _transforms s;
     _file_prefix := _file_prefix s; columns := columns s;
     _templated_file_prefix := _templated_file_prefix s;
     _uid_to_descriptor := _uid_to_descriptor s;
     _header_line_buffer := _header_line_buffer s;
     _event_page_header_line_buffer := _event_page_header_line_buffer s;
     _row_end_docs := _row_end_docs s; _scan_number := v;
     _column_data := _column_data s; files := files s |}.

Definition set_column_data (v : list (string * pyval)) (s : Serializer) :=
  {| _xdi_file_template := _xdi_file_template s; _transforms := _transforms s;
     _file_prefix := _file_prefix s; columns := columns s;
     _templated_file_prefix := _templated_file_prefix s;
     _uid_to_descriptor := _uid_to_descriptor s;
     _header_line_buffer := _header_line_buffer s;
     _event_page_header_line_buffer := _event_page_header_line_buffer s;
     _row_end_docs := _row_end_docs s; _scan_number := _scan_number s;
     _column_data := v; files := files s |}.

Definition set_files (v : list xdi_file) (s : Serializer) :=
  {| _xdi_file_template := _xdi_file_template s; _transforms := _transforms s;
     _file_prefix := _file_prefix s; columns := columns s;
     _templated_file_prefix := _templated_file_prefix s;
     _uid_to_descriptor := _uid_to_descriptor s;
     _header_line_buffer := _header_line_buffer s;
     _event_page_header_line_buffer := _event_page_header_line_buffer s;
     _row_end_docs := _row_end_docs s; _scan_number := _scan_number s;
     _column_data := _column_data s; files := v |}.

(** [Serializer.__init__]: [xdi_file_template] and [transforms] are the
    keyword arguments of those names, [None] when absent or [None]. *)
Definition __init__ (file_prefix : string)
    (xdi_file_template : option xdi_template)
    (transforms : option (gmap string (document -> result pyval)))
  : result Serializer :=
  match xdi_file_template with
  | None =>
      Raise (Exception
        "xdi_file_template must contain configuration information in TOML format")
  | Some template =>
      let cols := ODict.values (columns_section template) in
      if (length cols =? 0)%nat then Raise (ValueError "found no Columns")
      else
        Ok {| _xdi_file_template := template;
              _transforms := default ∅ transforms;
              _file_prefix := file_prefix;
              columns := cols;
              _templated_file_prefix := None;
              _uid_to_descriptor := ∅;
              _header_line_buffer := [];
              _event_page_header_line_buffer := None;
              _row_end_docs := [];
              _scan_number := None;
              _column_data := [];
              files := [] |}
  end.

Section Handlers.
Context `{Builtins}.

(** *** Operations on Python values *)

(** [str(v)] *)
Definition py_str (v : pyval) : string :=
  match v with
  | PyNone => "None"
  | PyInt n => NilZero.string_of_int (Z.to_int n)
  | PyFloat f => float_repr f
  | PyStr s => s
  | PySeq _ | PyDict _ => container_repr v
  end.

(** [doc[k]] on a document *)
Definition getitem (d : document) (k : string) : result pyval :=
  match ODict.get k d with
  | Some v => Ok v
  | None => Raise (KeyError k)
  end.

(** [v[k]] for a string [k] *)
Definition subscript (v : pyval) (k : string) : result pyval :=
  match v with
  | PyDict d => getitem d k
  | PySeq _ | PyStr _ => Raise (TypeError "indices must be integers")
  | _ => Raise (TypeError "object is not subscriptable")
  end.

(** [v[0]] *)
Definition first_item (v : pyval) : result pyval :=
  match v with
  | PySeq (x :: _) => Ok x
  | PySeq [] => Raise IndexError
  | PyStr (String c _) => Ok (PyStr (String c EmptyString))
  | PyStr EmptyString => Raise IndexError
  | PyDict _ => Raise (KeyError "0")
  | _ => Raise (TypeError "object is not subscriptable")
  end.

(** [k in v] for a string [k] *)
Definition contains (v : pyval) (k : string) : result bool :=
  match v with
  | PyDict d => Ok (ODict.mem k d)
  | PySeq l =>
      Ok (existsb (fun x => match x with PyStr s => String.eqb s k | _ => false end) l)
  | PyStr s => Ok (match String.index 0 k s with Some _ => true | None => false end)
  | _ => Raise (TypeError "argument is not iterable")
  end.

(** [iter(v)], run to the end *)
Definition py_iter (v : pyval) : result (list pyval) :=
  match v with
  | PySeq l => Ok l
  | PyStr s => Ok (map (fun c => PyStr (String c EmptyString)) (list_ascii_of_string s))
  | PyDict d => Ok (map (fun kv => PyStr kv.1) d)
  | _ => Raise (TypeError "object is not iterable")
  end.

(** The key under which a uid is filed: uids are strings. *)
Definition uid_key (v : pyval) : result string :=
  match v with
  | PyStr s => Ok s
  | _ => Raise (TypeError "uid is not a string")
  end.

(** [isinstance(v, np.ndarray) or isinstance(v, Sequence)] *)
Definition is_array_or_sequence (v : pyval) : bool :=
  match v with
  | PySeq _ | PyStr _ => true
  | _ => false
  end.

(** [itertools.zip_longest] over the iterables with [fillvalue]: while some
    iterable still has an item, a tuple of the next item of each, with
    [fillvalue] for the ones that have run out.  [rounds] bounds the
    number of tuples. *)
Fixpoint zip_longest_rounds {A} (rounds : nat) (fillvalue : A)
    (iterables : list (list A)) : list (list A) :=
  match rounds with
  | O => []
  | S rounds' =>
      if forallb (fun it => (length it =? 0)%nat) iterables then []
      else map (fun it => hd fillvalue it) iterables
           :: zip_longest_rounds rounds' fillvalue (map (@tl A) iterables)
  end.

Definition zip_longest {A} (fillvalue : A) (iterables : list (list A))
  : list (list A) :=
  zip_longest_rounds (list_max (map (@length A) iterables)) fillvalue iterables.

(** [[f(x) for x in xs]] where [f] may raise *)
Fixpoint map_result {A B} (f : A -> result B) (xs : list A) : result (list B) :=
  match xs with
  | [] => Ok []
  | x :: rest =>
      rbind (f x) (fun y => rbind (map_result f rest) (fun ys => Ok (y :: ys)))
  end.

(** *** Header lines *)

(** One [for header_label, template in _get_empty_header_lines(section)]
    loop.  The generator adds a missing label with value [None] and yields
    the labels whose value is [None]; [body] is the loop body: the line it
    stores, or [None] when it stores nothing. *)
Definition fill_empty_header_lines {T}
    (body : string -> T -> result (option string))
    (section : list (string * T)) : stateful header_lines unit :=
  for_each (fun entry : string * T =>
    let _header_label := entry.1 in
    modify (fun b => if ODict.mem _header_label b then b
                     else ODict.set _header_label None b);;
    current ← gets (ODict.get _header_label);
    match current with
    | Some None =>
        line ← lift (body _header_label entry.2);
        match line with
        | Some l => modify (ODict.set _header_label (Some l))
        | None => mret tt
        end
    | _ => mret tt
    end) section.

Definition column_header_line (doc : document) (header_label : string)
    (column_line_template : column_template) : result (option string) :=
  rbind (py_format (column_label column_line_template) doc) (fun header_value =>
  match units column_line_template with
  | Some u =>
      Ok (Some (("# " ++ header_label ++ " = " ++ header_value ++ " ") ++ u))
  | None => Ok (Some ("# " ++ header_label ++ " = " ++ header_value))
  end).

Definition required_header_line (doc_name : string) (doc : document)
    (header_label : string) (column_line_template : required_template)
  : result (option string) :=
  let doc_name_unconstrained :=
    match doc_name_constraint column_line_template with
    | None => true | Some _ => false
    end in
  let doc_name_constraint_satisfied :=
    match doc_name_constraint column_line_template with
    | Some c => String.eqb doc_name c | None => false
    end in
  if doc_name_unconstrained || doc_name_constraint_satisfied then
    rbind (py_format (required_data column_line_template) doc) (fun header_value =>
    Ok (Some ("# " ++ header_label ++ " = " ++ header_value)))
  else Ok None.

Definition optional_header_line (doc : document) (header_label : string)
    (column_line_template : optional_template) : result (option string) :=
  rbind (py_format (optional_data column_line_template) doc) (fun header_value =>
  Ok (Some (header_label ++ " = " ++ header_value))).

(** [Serializer._update_header_lines_from_doc], on the buffer it is given *)
Definition _update_header_lines_from_doc (template : xdi_template)
    (doc_name : string) (doc : document) : stateful header_lines unit :=
  fill_empty_header_lines (fun _ version => Ok (Some version)) (versions template);;
  fill_empty_header_lines (column_header_line doc) (columns_section template);;
  fill_empty_header_lines (required_header_line doc_name doc)
    (required_headers template);;
  fill_empty_header_lines (optional_header_line doc) (optional_headers template).

(** A statement on [self._header_line_buffer], which both callers pass as
    [header_line_buffer]: the dict is updated in place. *)
Definition on_header_line_buffer {A} (m : stateful header_lines A)
  : stateful Serializer A :=
  fun s =>
    let r := m (_header_line_buffer s) in
    (r.1, set_header_line_buffer r.2 s).

(** *** Column data *)

Definition _initialize_column_data_dict : stateful Serializer unit :=
  template ← gets _xdi_file_template;
  for_each (fun entry : string * column_template =>
    modify (fun s =>
      set_column_data (ODict.set (data_key entry.2) PyNone (_column_data s)) s))
    (columns_section template).

Definition store_column (k : string) (v : pyval) : stateful Serializer unit :=
  modify (fun s => set_column_data (ODict.set k v (_column_data s)) s).

(** The body of the loop over [self.columns]. *)
Definition update_column (doc : document) (column : column_template)
  : stateful Serializer unit :=
  let k := data_key column in
  data ← lift (getitem doc "data");
  present ← lift (contains data k);
  if present : bool then
    match transform column with
    | Some transform_key =>
        ts ← gets _transforms;
        match ts !! transform_key with
        | Some transform_function =>
            v ← lift (transform_function doc);
            store_column k v
        | None => raise (KeyError transform_key)
        end
    | None =>
        values ← lift (subscript data k);
        event_data ← lift (first_item values);
        if is_array_or_sequence event_data then store_column k event_data
        else store_column k (PySeq [event_data])
    end
  else mret tt.

Definition _update_data_columns_from_doc (doc : document)
  : stateful Serializer unit :=
  cols ← gets columns;
  for_each (update_column doc) cols.

(** *** Output *)

(** [self._manager.open("stream_data", filename, "xt")] *)
Definition open_file (filename : string) : stateful Serializer unit :=
  modify (fun s => set_files (files s ++ [(filename, [])])%list s).

Fixpoint append_to_last (chunk : string) (fs : list xdi_file) : list xdi_file :=
  match fs with
  | [] => []
  | [f] => [(f.1, (f.2 ++ [chunk])%list)]
  | f :: rest => f :: append_to_last chunk rest
  end.

(** [output_file.write(chunk)] on the file opened last *)
Definition write (chunk : string) : stateful Serializer unit :=
  modify (fun s => set_files (append_to_last chunk (files s)) s).

(** [output_file.write(v)] for a header value, which is a string or [None] *)
Definition write_value (v : option string) : stateful Serializer unit :=
  match v with
  | Some line => write line
  | None => raise (TypeError "write() argument must be str, not None")
  end.

Definition _write_header (header_line_buffer : header_lines)
  : stateful Serializer unit :=
  for_each (fun entry : string * option string =>
    write_value entry.2;; write newline) header_line_buffer;;
  write ("#----" ++ newline);;
  cols ← gets columns;
  write ("# " ++ String.concat tab (map column_label cols) ++ newline).

(** The loop that merges the event-page header lines into a copy of the
    header-line buffer. *)
Fixpoint combine_header_line_buffers (event_page_lines : header_lines)
    (combined_header_line_buffer : header_lines) : result header_lines :=
  match event_page_lines with
  | [] => Ok combined_header_line_buffer
  | (k, v) :: rest =>
      match ODict.get k combined_header_line_buffer with
      | None => Raise (KeyError k)
      | Some None =>
          combine_header_line_buffers rest (ODict.set k v combined_header_line_buffer)
      | Some (Some _) => combine_header_line_buffers rest combined_header_line_buffer
      end
  end.

(** The rows of the data block: one [write] of the joined row, one of the
    newline. *)
Definition write_rows (rows : list (list pyval)) : stateful Serializer unit :=
  for_each (fun row_data : list pyval =>
    write (String.concat tab (map py_str row_data));; write newline) rows.

(** *** The document handlers *)

(** Store under the event-page buffer, an attribute that exists only once
    [_event_page_begin_row] has run. *)
Definition store_event_page_header (k v : string) : stateful Serializer unit :=
  buffer ← gets _event_page_header_line_buffer;
  match buffer with
  | None => raise (AttributeError "_event_page_header_line_buffer")
  | Some b =>
      modify (set_event_page_header_line_buffer (Some (ODict.set k (Some v) b)))
  end.

Definition is_none {A} (v : option A) : bool :=
  match v with None => true | Some _ => false end.

Definition _event_page_begin_row (doc : document) : stateful Serializer unit :=
  lines ← gets _header_line_buffer;
  modify (set_event_page_header_line_buffer
            (Some (List.filter (fun kv => is_none kv.2) lines)));;
  template ← gets _xdi_file_template;
  if ODict.mem "Scan.start_time" (optional_headers template) then
    t ← lift (getitem doc "time");
    iso ← lift (fromtimestamp_isoformat t);
    store_event_page_header "Scan.start_time" iso
  else mret tt.

Definition _event_page_end_row (doc : document) : stateful Serializer unit :=
  template ← gets _xdi_file_template;
  if ODict.mem "Scan.end_time" (optional_headers template) then
    t ← lift (getitem doc "time");
    iso ← lift (fromtimestamp_isoformat t);
    store_event_page_header "Scan_time.end" iso
  else mret tt.

Definition _event_page_energy_bins (doc : document) : stateful Serializer unit :=
  _update_data_columns_from_doc doc.

(** [now] is the wall-clock time [HH:MM:SS] at the call. *)
Definition _event_page_primary (now : string) (doc : document)
  : stateful Serializer unit :=
  _update_data_columns_from_doc doc;;
  prefix ← gets _templated_file_prefix;
  number ← gets _scan_number;
  first ← lift (match number with
                | Some v => first_item v
                | None => Raise (TypeError "object is not subscriptable")
                end);
  match prefix with
  | None => raise (TypeError "unsupported operand type(s) for +")
  | Some p =>
      let filename := p ++ py_str first ++ "-" ++ now ++ ".xdi" in
      open_file filename;;
      lines ← gets _header_line_buffer;
      event_page_lines ← gets _event_page_header_line_buffer;
      match event_page_lines with
      | None => raise (AttributeError "_event_page_header_line_buffer")
      | Some ev =>
          combined ← lift (combine_header_line_buffers ev lines);
          _write_header combined;;
          column_data ← gets _column_data;
          iterables ← lift (map_result py_iter (ODict.values column_data));
          write_rows (zip_longest (PyStr "NA") iterables)
      end
  end.

Definition start (doc : document) : stateful Serializer unit :=
  _initialize_column_data_dict;;
  template ← gets _xdi_file_template;
  on_header_line_buffer (_update_header_lines_from_doc template "start" doc);;
  file_prefix ← gets _file_prefix;
  prefix ← lift (py_format file_prefix doc);
  modify (set_templated_file_prefix (Some prefix)).

Definition descriptor (doc : document) : stateful Serializer unit :=
  uid ← lift (getitem doc "uid");
  key ← lift (uid_key uid);
  modify (fun s => set_uid_to_descriptor (<[key := doc]> (_uid_to_descriptor s)) s);;
  template ← gets _xdi_file_template;
  on_header_line_buffer (_update_header_lines_from_doc template "descriptor" doc).

Definition is_stream (name : pyval) (expected : string) : bool :=
  match name with
  | PyStr s => String.eqb s expected
  | _ => false
  end.

(** [self._uid_to_descriptor[doc["descriptor"]]["name"]] *)
Definition stream_name_of (doc : document) : stateful Serializer pyval :=
  uid ← lift (getitem doc "descriptor");
  key ← lift (uid_key uid);
  descriptors ← gets _uid_to_descriptor;
  match descriptors !! key with
  | None => raise (KeyError key)
  | Some desc => lift (getitem desc "name")
  end.

Definition event_page (now : string) (doc : document) : stateful Serializer unit :=
  stream_name ← stream_name_of doc;
  if is_stream stream_name "row_ends" then
    row_end_docs ← gets _row_end_docs;
    if (length row_end_docs =? 0)%nat then
      modify (fun s => set_row_end_docs (_row_end_docs s ++ [doc])%list s);;
      _event_page_begin_row doc
    else if (length row_end_docs =? 1)%nat then
      _event_page_end_row doc;;
      modify (set_row_end_docs [])
    else
      raise (Exception
               ("self._row_end_docs should not have length "
                ++ NilZero.string_of_uint (Nat.to_uint (length row_end_docs))))
  else if is_stream stream_name "energy_bins" then
    _event_page_energy_bins doc
  else if is_stream stream_name "primary" then
    seq_num ← lift (getitem doc "seq_num");
    modify (set_scan_number (Some seq_num));;
    _event_page_primary now doc
  else mret tt.

Definition stop (doc : document) : stateful Serializer unit := mret tt.

(** The four kinds of document the serializer handles itself. *)
Inductive doc_kind : Type :=
| StartDoc
| DescriptorDoc
| EventPageDoc
| StopDoc.

(** [serializer(name, doc)]: [DocumentRouter.__call__] hands the document
    to the method of that name. *)
Definition call (name : doc_kind) (now : string) (doc : document)
  : stateful Serializer unit :=
  match name with
  | StartDoc => start doc
  | DescriptorDoc => descriptor doc
  | EventPageDoc => event_page now doc
  | StopDoc => stop doc
  end.

(** Feed a list of documents, stopping at the first exception. *)
Definition feed (docs : list (doc_kind * string * document))
  : stateful Serializer unit :=
  for_each (fun item : doc_kind * string * document =>
    call item.1.1 item.1.2 item.2) docs.

(** *** Notions used to state what the handlers do *)

(** Every rendered line of [b] is a line of [b'], under the same field. *)
Definition lines_kept (b b' : header_lines) : Prop :=
  forall k line, ODict.get k b = Some (Some line) -> ODict.get k b' = Some (Some line).

Definition header_kept (s s' : Serializer) : Prop :=
  lines_kept (_header_line_buffer s) (_header_line_buffer s').

(** The strings [_write_header] writes for rendered [lines]. *)
Definition header_chunks (lines : list string) (cols : list column_template)
  : list string :=
  app (flat_map (fun line => [line; newline]) lines)
      ["#----" ++ newline;
       "# " ++ String.concat tab (map column_label cols) ++ newline].

(** The text of the data rows for the buffered arrays [column_values]. *)
Definition data_rows (column_values : list (list pyval)) : list string :=
  map (fun row_data => String.concat tab (map py_str row_data))
      (zip_longest (PyStr "NA") column_values).

(** Row [i] as the text of its fields: the [i]-th value of each array, or
    ["NA"] where the array is shorter. *)
Definition row_fields (column_values : list (list pyval)) (i : nat) : list string :=
  map (fun values =>
         match nth_error values i with
         | Some v => py_str v
         | None => "NA"
         end) column_values.

(** The files after [chunks] have been written, one by one, to the file
    opened last. *)
Definition append_chunks (chunks : list string) (fs : list xdi_file)
  : list xdi_file :=
  fold_left (fun fs chunk => append_to_last chunk fs) chunks fs.

(** The strings written for the data rows: each row, then a newline. *)
Definition row_chunks (rows : list string) : list string :=
  flat_map (fun row => [row; newline]) rows.

(** Only the column data differ between [s] and [s']. *)
Definition only_column_data (s s' : Serializer) : Prop :=
  s' = set_column_data (_column_data s') s.

(** The column data are the same in [s] and [s']. *)
Definition same_column_data (s s' : Serializer) : Prop :=
  _column_data s' = _column_data s.

(** The column buffer lists the data keys of the template's columns, in
    the order the template declares them. *)
Definition column_order (s : Serializer) : Prop :=
  columns s = ODict.values (columns_section (_xdi_file_template s)) /\
  ODict.keys (_column_data s) = map data_key (columns s).

(** From [s] to [s'] the template and the columns are the same, and a
    column buffer that is in the order of the template keeps its keys. *)
Definition column_order_kept (s s' : Serializer) : Prop :=
  _xdi_file_template s' = _xdi_file_template s /\
  columns s' = columns s /\
  (column_order s -> ODict.keys (_column_data s') = ODict.keys (_column_data s)).

(** The row tracking is the same in [s] and [s']. *)
Definition same_row_end_docs (s s' : Serializer) : Prop :=
  _row_end_docs s' = _row_end_docs s.


(** *** [export]

    [gen] is the stream of documents, each with the wall-clock time at
    which it is handled; the documents are of the four kinds the
    serializer has a method for.  The artifacts are what the manager has
    handed out under its one label, ["stream_data"]; an exception of
    [__init__] or of a handler leaves [export] through the [with] block. *)
Definition export (gen : list (doc_kind * string * document))
    (file_prefix : string) (xdi_file_template : option xdi_template)
    (transforms : option (gmap string (document -> result pyval)))
  : result (list xdi_file) :=
  rbind (__init__ file_prefix xdi_file_template transforms) (fun serializer =>
  match feed gen serializer with
  | (Ok _, s) => Ok (files s)
  | (Raise e, _) => Raise e
  end).

(** *** Notions used to state what happens to the files *)

(** The files are the same in [s] and [s']. *)
Definition same_files (s s' : Serializer) : Prop :=
  files s' = files s.

(** From [s] to [s'] one empty file has been opened. *)
Definition file_opened (s s' : Serializer) : Prop :=
  exists filename, files s' = (files s ++ [(filename, [])])%list.

(** From [s] to [s'] nothing but the file opened last has changed, and it
    has only been written to. *)
Definition last_file_grows (s s' : Serializer) : Prop :=
  forall front filename chunks,
    files s = (front ++ [(filename, chunks)])%list ->
    exists more, files s' = (front ++ [(filename, (chunks ++ more)%list)])%list.

(** From [s] to [s'] the files of [s] are as they were and at most one
    file has been added. *)
Definition opens_at_most_one (s s' : Serializer) : Prop :=
  exists new, files s' = (files s ++ new)%list /\ (length new <= 1)%nat.

Definition is_event_page (item : doc_kind * string * document) : bool :=
  match item.1.1 with
  | EventPageDoc => true
  | _ => false
  end.

(** A file that has its header and its data block: the header lines, the
    separator and the column labels, then the rows. *)
Definition complete_file (cols : list column_template) (f : xdi_file) : Prop :=
  exists lines column_values,
    f.2 = (header_chunks lines cols ++ row_chunks (data_rows column_values))%list.

(** The labels of the three sections of a template whose lines are
    rendered whatever the document is. *)
Definition unconditional_labels (template : xdi_template) : list string :=
  (ODict.keys (versions template) ++ ODict.keys (columns_section template)
   ++ ODict.keys (optional_headers template))%list.

(** The header buffer, the event-page buffer, the templated prefix and the
    template are the same in [s] and [s']. *)
Definition same_headers (s s' : Serializer) : Prop :=
  _header_line_buffer s' = _header_line_buffer s /\
  _templated_file_prefix s' = _templated_file_prefix s /\
  _xdi_file_template s' = _xdi_file_template s.

(** A required header that neither a run-start nor a descriptor may
    supply: every template the section has for the field [k] names another
    document. *)
Definition supplied_by_no_handler (template : xdi_template) (k : string) : Prop :=
  In k (ODict.keys (required_headers template)) /\
  (forall t, In (k, t) (required_headers template) ->
     exists c, doc_name_constraint t = Some c /\ c <> "start" /\ c <> "descriptor") /\
  ~ In k (unconditional_labels template) /\
  k <> "Scan.start_time" /\ k <> "Scan_time.end".

(** What [_update_data_columns_from_doc] stores for a value found in a
    page: the value itself when it is an array or a sequence, else a tuple
    of that one value. *)
Definition as_column (event_data : pyval) : pyval :=
  if is_array_or_sequence event_data then event_data else PySeq [event_data].

(** The event-page buffer is the same in [s] and [s']. *)
Definition same_event_page_buffer (s s' : Serializer) : Prop :=
  _event_page_header_line_buffer s' = _event_page_header_line_buffer s.

(** The registered descriptors are the same in [s] and [s']. *)
Definition same_descriptors (s s' : Serializer) : Prop :=
  _uid_to_descriptor s' = _uid_to_descriptor s.

(** *** Readings of the serializer that the code does not bear out *)

(** A third page of row ends, after a first and a second that were
    handled without exception, fails. *)
Definition third_row_ends_page_fails : Prop :=
  forall (s s1 s2 : Serializer) (now1 now2 now3 : string)
         (doc1 doc2 doc3 : document),
    _row_end_docs s = [] ->
    (stream_name_of doc1 s).1 = Ok (PyStr "row_ends") ->
    (stream_name_of doc2 s1).1 = Ok (PyStr "row_ends") ->
    (stream_name_of doc3 s2).1 = Ok (PyStr "row_ends") ->
    event_page now1 doc1 s = (Ok tt, s1) ->
    event_page now2 doc2 s1 = (Ok tt, s2) ->
    exists msg, (event_page now3 doc3 s2).1 = Raise (Exception msg).

(** Whatever the template, the rows a primary page writes have one field
    for each configured column: there are as many buffered arrays, which
    the rows are zipped from, as the template has columns. *)
Definition rows_cover_configured_columns : Prop :=
  forall (file_prefix : string) (template : xdi_template)
         (transforms : option (gmap string (document -> result pyval)))
         (gen : list (doc_kind * string * document)) (s0 s' : Serializer)
         (now : string) (doc : document),
    __init__ file_prefix (Some template) transforms = Ok s0 ->
    (stream_name_of doc (feed gen s0).2).1 = Ok (PyStr "primary") ->
    event_page now doc (feed gen s0).2 = (Ok tt, s') ->
    exists column_values,
      map_result py_iter (ODict.values (_column_data s')) = Ok column_values /\
      length column_values = length (ODict.values (columns_section template)).

(** *** Notions used to state what follows the end of a row *)

(** The field names of the four sections of a template. *)
Definition template_labels (template : xdi_template) : list string :=
  (ODict.keys (versions template) ++ ODict.keys (columns_section template)
   ++ ODict.keys (required_headers template)
   ++ ODict.keys (optional_headers template))%list.

(** The page [doc] is of the ["row_ends"] stream, by the descriptors that
    [s] has registered. *)
Definition on_row_ends (doc : document) (s : Serializer) : bool :=
  match (stream_name_of doc s).1 with
  | Ok name => is_stream name "row_ends"
  | Raise _ => false
  end.

(** No event-page of [docs] is of the ["row_ends"] stream when it is
    handled, the documents being fed to [s] one after the other. *)
Fixpoint no_row_ends_page (docs : list (doc_kind * string * document))
    (s : Serializer) : Prop :=
  match docs with
  | [] => True
  | item :: rest =>
      (item.1.1 = EventPageDoc -> on_row_ends item.2 s = false) /\
      match call item.1.1 item.1.2 item.2 s with
      | (Ok _, s1) => no_row_ends_page rest s1
      | (Raise _, _) => True
      end
  end.

(** From [s] to [s'], on a serializer made for [template]: the template is
    the same, and so is what the header-line buffer has under the field
    [k]. *)
Definition field_kept (template : xdi_template) (k : string)
    (s s' : Serializer) : Prop :=
  _xdi_file_template s = template ->
  _xdi_file_template s' = template /\
  ODict.get k (_header_line_buffer s') = ODict.get k (_header_line_buffer s).

(** The serializer cannot write a file: the event-page buffer has the
    field [k], and the header-line buffer, made for [template], has not. *)
Definition blocked_by_field (template : xdi_template) (k : string)
    (s : Serializer) : Prop :=
  _xdi_file_template s = template /\
  ODict.get k (_header_line_buffer s) = None /\
  exists ev, _event_page_header_line_buffer s = Some ev /\ In k (ODict.keys ev).
End Handlers.
End SuitcaseXdi.

(** ** Concrete builtins and documents for the worked examples *)
Module Examples.
Import Float64 SuitcaseXdi.

(** A float with an integral value prints as Python prints it; the
    examples use no other float. *)
Definition example_float_repr (f : float) : string :=
  match floor_int f with
  | Ok n =>
      if PrimFloat.eqb (float_of_int n) f
      then NilZero.string_of_int (Z.to_int n) ++ ".0"
      else "<float>"
  | Raise _ => "<float>"
  end.

Definition example_str (v : pyval) : string :=
  match v with
  | PyNone => "None"
  | PyInt n => NilZero.string_of_int (Z.to_int n)
  | PyFloat f => example_float_repr f
  | PyStr s => s
  | PySeq _ => "[...]"
  | PyDict _ => "{...}"
  end.

(** [str.format] for templates whose replacement fields are plain names:
    [field] is the name being read after an opening brace. *)
Fixpoint example_format_from (template : string) (field : option string)
    (doc : document) : result string :=
  match template with
  | EmptyString =>
      match field with
      | None => Ok EmptyString
      | Some _ => Raise (ValueError "expected '}' before end of string")
      end
  | String c rest =>
      match field with
      | None =>
          if Ascii.eqb c "{"%char then example_format_from rest (Some EmptyString) doc
          else rbind (example_format_from rest None doc) (fun r => Ok (String c r))
      | Some name =>
          if Ascii.eqb c "}"%char then
            match ODict.get name doc with
            | Some v =>
                rbind (example_format_from rest None doc) (fun r =>
                Ok (example_str v ++ r))
            | None => Raise (KeyError name)
            end
          else example_format_from rest (Some (name ++ String c EmptyString)) doc
      end
  end.

(** A stage axis with soft limits 0 and 100 mm. *)
Definition stage_axis : FlyScans.motor := {| FlyScans.limits := (0, 100)%float |}.

Definition example_builtins : Builtins :=
  {| float_repr := example_float_repr;
     container_repr := example_str;
     py_format := fun template doc => example_format_from template None doc;
     fromtimestamp_isoformat := fun t =>
       match t with
       | PyInt _ | PyFloat _ => Ok ("T" ++ example_str t)
       | _ => Raise (TypeError "an integer is required")
       end |}.

(** *** An XDI template with three columns *)

Definition energy_column : column_template :=
  {| data_key := "E_centers"; column_label := "energy";
     units := Some "eV"; transform := None |}.
Definition i0_column : column_template :=
  {| data_key := "I0"; column_label := "i0"; units := None; transform := None |}.
Definition if_column : column_template :=
  {| data_key := "If"; column_label := "ifluor"; units := None; transform := None |}.

Definition three_columns : list (string * column_template) :=
  [ ("Column.1", energy_column); ("Column.2", i0_column); ("Column.3", if_column) ].

(** The template's header sections: the element symbol comes from the
    run-start document, the start time is an optional header. *)
Definition xdi_template_start_time : xdi_template :=
  {| versions := [("XDI", "# XDI/1.0 Bluesky")];
     columns_section := three_columns;
     required_headers :=
       [ ("Element.symbol",
          {| required_data := "{element}"; doc_name_constraint := Some "start" |}) ];
     optional_headers :=
       [ ("Scan.start_time", {| optional_data := "{time}" |}) ] |}.

(** The same template with the optional header ["Scan.end_time"] as well. *)
Definition xdi_template_end_time : xdi_template :=
  {| versions := versions xdi_template_start_time;
     columns_section := three_columns;
     required_headers := required_headers xdi_template_start_time;
     optional_headers :=
       [ ("Scan.start_time", {| optional_data := "{time}" |});
         ("Scan.end_time", {| optional_data := "{time}" |}) ] |}.

(** *** The documents of one energy fly scan *)

Definition run_start : document :=
  [ ("uid", PyStr "run-1"); ("time", PyInt 100);
    ("scan_title", PyStr "cu-foil"); ("element", PyStr "K") ].

(** A second run-start with other field values. *)
Definition run_start_again : document :=
  [ ("uid", PyStr "run-2"); ("time", PyInt 900);
    ("scan_title", PyStr "ni-foil"); ("element", PyStr "S") ].

Definition descriptor_of (uid name : string) : document :=
  [ ("uid", PyStr uid); ("name", PyStr name); ("time", PyInt 101) ].

Definition row_ends_page (time : Z) : document :=
  [ ("descriptor", PyStr "d-row"); ("seq_num", PySeq [PyInt 1]);
    ("time", PyInt time); ("data", PyDict []) ].

(** The energy-bins page: five bin centres. *)
Definition energy_bins_page : document :=
  [ ("descriptor", PyStr "d-bins"); ("seq_num", PySeq [PyInt 1]);
    ("time", PyInt 105);
    ("data", PyDict
       [ ("E_centers",
          PySeq [PySeq [PyInt 3551; PyInt 3552; PyInt 3553; PyInt 3554; PyInt 3555]]) ]) ].

(** The primary page: three values of I0, five of If. *)
Definition primary_page : document :=
  [ ("descriptor", PyStr "d-prim"); ("seq_num", PySeq [PyInt 1]);
    ("time", PyInt 130);
    ("data", PyDict
       [ ("I0", PySeq [PySeq [PyInt 10; PyInt 20; PyInt 30]]);
         ("If", PySeq [PySeq [PyInt 7; PyInt 8; PyInt 9; PyInt 10; PyInt 11]]) ]) ].

(** The stream up to the end of the first row. *)
Definition stream_before_primary : list (doc_kind * string * document) :=
  [ (StartDoc, "12:00:00", run_start);
    (DescriptorDoc, "12:00:01", descriptor_of "d-bins" "energy_bins");
    (DescriptorDoc, "12:00:01", descriptor_of "d-row" "row_ends");
    (DescriptorDoc, "12:00:01", descriptor_of "d-prim" "primary");
    (EventPageDoc, "12:00:02", energy_bins_page);
    (EventPageDoc, "12:00:03", row_ends_page 110);
    (EventPageDoc, "12:00:09", row_ends_page 120) ].

(** A serializer as [__init__] leaves it, for a template. *)
Definition fresh_serializer (template : xdi_template) : Serializer :=
  match __init__ "{scan_title}-" (Some template) None with
  | Ok s => s
  | Raise _ =>
      {| _xdi_file_template := template; _transforms := ∅;
         _file_prefix := "{scan_title}-"; columns := [];
         _templated_file_prefix := None; _uid_to_descriptor := ∅;
         _header_line_buffer := []; _event_page_header_line_buffer := None;
         _row_end_docs := []; _scan_number := None; _column_data := [];
         files := [] |}
  end.

(** The serializer after the run-start and the three descriptors. *)
Definition after_descriptors : Serializer :=
  (@feed example_builtins (firstn 4 stream_before_primary)
     (fresh_serializer xdi_template_start_time)).2.

(** The serializer after the first row has ended. *)
Definition after_row (template : xdi_template) : Serializer :=
  (@feed example_builtins stream_before_primary (fresh_serializer template)).2.


(** The documents after the run-start, up to the primary page of the
    first row. *)
Definition later_documents : list (doc_kind * string * document) :=
  (tl stream_before_primary ++ [(EventPageDoc, "12:00:10", primary_page)])%list.

(** The whole stream of the first row. *)
Definition full_stream : list (doc_kind * string * document) :=
  (StartDoc, "12:00:00", run_start) :: later_documents.

(** A template with a required header that only a run-stop may supply. *)
Definition xdi_template_stop_header : xdi_template :=
  {| versions := versions xdi_template_start_time;
     columns_section := three_columns;
     required_headers :=
       [ ("Element.symbol",
          {| required_data := "{element}"; doc_name_constraint := Some "start" |});
         ("Scan.exit_status",
          {| required_data := "{exit_status}"; doc_name_constraint := Some "stop" |}) ];
     optional_headers := optional_headers xdi_template_start_time |}.

(** An event-page of a stream whose descriptor was never sent. *)
Definition stray_page : document :=
  [ ("descriptor", PyStr "d-other"); ("seq_num", PySeq [PyInt 1]);
    ("time", PyInt 140); ("data", PyDict []) ].

(** A page with one reading that is a single number. *)
Definition scalar_page : document :=
  [ ("descriptor", PyStr "d-prim"); ("seq_num", PySeq [PyInt 2]);
    ("time", PyInt 150);
    ("data", PyDict [ ("I0", PySeq [PyInt 42]) ]) ].

(** The serializer, for the template with ["Scan.end_time"], after the
    first page of row ends. *)
Definition after_row_begin : Serializer :=
  (@feed example_builtins (firstn 6 stream_before_primary)
     (fresh_serializer xdi_template_end_time)).2.

(** A template whose second and third column read the same data key. *)
Definition xdi_template_shared_key : xdi_template :=
  {| versions := versions xdi_template_start_time;
     columns_section :=
       [ ("Column.1", energy_column); ("Column.2", i0_column);
         ("Column.3",
          {| data_key := "I0"; column_label := "i0_again";
             units := None; transform := None |}) ];
     required_headers := required_headers xdi_template_start_time;
     optional_headers := optional_headers xdi_template_start_time |}.
End Examples.

(** * Properties *)

(** ** The ROI table *)
Module RoisFacts.
Import Rois.

(** Membership in a list that is written out. *)
Ltac in_list := cbn; repeat first [ left; reflexivity | right ].

Lemma lower_ascii_idempotent c : lower_ascii (lower_ascii c) = lower_ascii c.
Proof.
  destruct c as [[] [] [] [] [] [] [] []]; reflexivity.
Qed.

Lemma lower_idempotent s : lower (lower s) = lower s.
Proof.
  induction s as [|c s IH]; simpl; [reflexivity|].
  now rewrite lower_ascii_idempotent, IH.
Qed.

(** The table holds exactly the documented entries: the second ["pd"] item
    has replaced the first. *)
Lemma element_to_roi_spec (k : string) (roi : Z * Z) :
  element_to_roi !! k = Some roi <-> In (k, roi) documented_rois.
Proof.
  unfold element_to_roi, dict_display, element_to_roi_items, documented_rois.
  cbn [fold_left fst snd In].
  split.
  - intros Hk.
    repeat (rewrite lookup_insert in Hk; case_decide;
            [ first [ congruence | inversion Hk; subst; in_list ] | ]).
    rewrite lookup_empty in Hk. discriminate.
  - intros Hin.
    repeat (destruct Hin as [Hin | Hin]; [ inversion Hin; subst; reflexivity | ]).
    destruct Hin.
Qed.

Lemma element_to_roi_absent (k : string) :
  ~ In k documented_tags -> element_to_roi !! k = None.
Proof.
  intros Hk. destruct (element_to_roi !! k) as [roi|] eqn:E; [|reflexivity].
  exfalso. apply Hk. apply element_to_roi_spec in E.
  unfold documented_tags. apply in_map_iff. now exists (k, roi).
Qed.

Lemma documented_rois_ordered (k : string) (roi : Z * Z) :
  In (k, roi) documented_rois -> (roi.1 < roi.2)%Z.
Proof.
  unfold documented_rois. cbn [In]. intros Hin.
  repeat (destruct Hin as [Hin | Hin]; [ inversion Hin; subst; cbn; lia | ]).
  destruct Hin.
Qed.

(** C7: [rois] looks its argument up in lower case; a tag of the table
    gives the documented pair, whose low bin is below the high bin; ["pd"]
    gives (275, 295), the later of its two items, and not (274, 292); a tag
    that is not in the table raises [KeyError] and no default is returned. *)
Theorem rois_lookup :
  (forall element, rois element = rois (lower element)) /\
  (forall element roi,
      In (lower element, roi) documented_rois ->
      rois element = Ok roi /\ (roi.1 < roi.2)%Z) /\
  (rois "pd" = Ok (275, 295)%Z /\ rois "pd" <> Ok (274, 292)%Z) /\
  (forall element,
      ~ In (lower element) documented_tags ->
      rois element = Raise (KeyError (lower element))).
Proof.
  assert (Hpd : rois "pd" = Ok (275, 295)%Z).
  { unfold rois. change (lower "pd") with "pd".
    assert (Hl : element_to_roi !! "pd" = Some (275, 295)%Z)
      by (apply element_to_roi_spec; in_list).
    now rewrite Hl. }
  split; [| split; [| split]].
  - intros element. unfold rois. now rewrite lower_idempotent.
  - intros element roi Hin. split.
    + unfold rois. apply element_to_roi_spec in Hin. now rewrite Hin.
    + eapply documented_rois_ordered; eassumption.
  - split; [exact Hpd |]. rewrite Hpd. intros Heq. inversion Heq.
  - intros element Habs. unfold rois.
    now rewrite (element_to_roi_absent _ Habs).
Qed.

(** The lookup at ["PD"], ["Zr_Croft"] and the absent ["k"]. *)
Lemma rois_lookup_witness :
  rois "PD" = Ok (275, 295)%Z /\
  rois "Zr_Croft" = Ok (190, 225)%Z /\
  rois "k" = Raise (KeyError "k").
Proof.
  destruct rois_lookup as (_ & Hdoc & _ & Habs).
  split; [| split].
  - apply (Hdoc "PD" (275, 295)%Z). in_list.
  - apply (Hdoc "Zr_Croft" (190, 225)%Z). in_list.
  - apply (Habs "k"). cbn. intros Hin.
    repeat (destruct Hin as [Hin | Hin]; [ discriminate Hin | ]).
    destruct Hin.
Defined.

End RoisFacts.

(** ** The HDF5 warm-up *)
Module AreaDetectorsFacts.
Import AreaDetectors.

Lemma writes_app (l1 l2 : list action) :
  writes (l1 ++ l2) = (writes l1 ++ writes l2)%list.
Proof. unfold writes. apply flat_map_app. Qed.

Lemma log_put_all (items : list (signal * pv_value)) (h : ioc) :
  writes (log (put_all items h)) = (writes (log h) ++ items)%list.
Proof.
  revert h. induction items as [|[sig val] items IH]; intros h.
  - cbn. now rewrite app_nil_r.
  - cbn [put_all fold_left]. unfold put_all in IH. rewrite IH.
    cbn [set_wait sleep log fst snd].
    rewrite !writes_app. cbn. now rewrite app_nil_r, <- app_assoc.
Qed.

Lemma put_all_app (l1 l2 : list (signal * pv_value)) (h : ioc) :
  put_all (l1 ++ l2) h = put_all l2 (put_all l1 h).
Proof. unfold put_all. apply fold_left_app. Qed.

(** Writing back a snapshot [f] of the endpoints of [items], in reverse
    order, leaves each of them at its snapshot value. *)
Lemma put_all_snapshot (f : signal -> pv_value)
    (items : list (signal * pv_value)) (h : ioc) (sig : signal) :
  In sig (map fst items) ->
  values (put_all (rev (map (fun sv => (sv.1, f sv.1)) items)) h) sig = f sig.
Proof.
  induction items as [|[s v] items IH]; intros Hin; [destruct Hin|].
  cbn [map rev fst]. rewrite put_all_app.
  cbn [put_all fold_left set_wait sleep values fst snd].
  destruct (decide (sig = s)) as [->|Hne]; [reflexivity|].
  apply IH. destruct Hin as [Heq|Hin]; [|exact Hin].
  cbn in Heq. congruence.
Qed.

Lemma enable_not_snapshotted : ~ In enable snapshotted.
Proof.
  cbn. intros Hin.
  repeat (destruct Hin as [Hin|Hin]; [discriminate Hin|]). exact Hin.
Qed.

(** C10: after [warmup], each of the six snapshotted endpoints holds the
    value it had before, and the writes of the procedure are: [enable],
    the six warm-up values in order, then the six old values with the
    endpoints in the reverse of that order. *)
Theorem warmup_restores (h : ioc) :
  (forall sig, In sig snapshotted -> get sig (warmup h) = get sig h) /\
  writes (log (warmup h)) =
    (writes (log h) ++ [(enable, PvInt 1)] ++ sigs
     ++ map (fun sig => (sig, get sig h)) (rev snapshotted))%list.
Proof.
  split.
  - intros sig Hin. unfold warmup, get.
    rewrite (put_all_snapshot (fun s => values (set_wait enable (PvInt 1) h) s))
      by exact Hin.
    cbn [set_wait values].
    destruct (decide (sig = enable)) as [->|_]; [|reflexivity].
    now apply enable_not_snapshotted in Hin.
  - unfold warmup. rewrite log_put_all.
    cbn [sleep log]. rewrite writes_app, log_put_all.
    cbn [set_wait log]. rewrite writes_app.
    cbn [writes flat_map app]. rewrite !app_nil_r, <- !app_assoc.
    reflexivity.
Qed.

(** The warm-up of a camera left in continuous mode. *)
Lemma warmup_restores_witness :
  get image_mode (warmup continuous_camera) = PvStr "Continuous" /\
  map fst (writes (log (warmup continuous_camera))) =
    [ enable;
      array_callbacks; image_mode; trigger_mode;
      acquire_time; acquire_period; acquire;
      acquire; acquire_period; acquire_time;
      trigger_mode; image_mode; array_callbacks ].
Proof.
  destruct (warmup_restores continuous_camera) as [Hval Hlog].
  split.
  - rewrite (Hval image_mode); [reflexivity | cbn; tauto].
  - rewrite Hlog. reflexivity.
Defined.

End AreaDetectorsFacts.

(** ** What the warm-up leaves behind *)
Module WarmupFacts.
Import AreaDetectors AreaDetectorsFacts.

Lemma put_all_other (items : list (signal * pv_value)) (h : ioc) (sig : signal) :
  ~ In sig (map fst items) -> values (put_all items h) sig = values h sig.
Proof.
  revert h. induction items as [|[s v] items IH]; intros h Hout; [reflexivity|].
  cbn [put_all fold_left]. unfold put_all in IH. rewrite IH.
  - cbn [set_wait sleep values fst snd].
    destruct (decide (sig = s)) as [->|_]; [|reflexivity].
    destruct Hout. now left.
  - intros Hin. apply Hout. now right.
Qed.

Lemma total_sleep_app (l1 l2 : list action) :
  (total_sleep (l1 ++ l2) == total_sleep l1 + total_sleep l2)%Q.
Proof.
  induction l1 as [|[s|sig v] l1 IH]; cbn [app total_sleep fold_right].
  - now rewrite Qplus_0_l.
  - fold (total_sleep (l1 ++ l2)). fold (total_sleep l1). rewrite IH. ring.
  - exact IH.
Qed.

Lemma total_sleep_put_all (items : list (signal * pv_value)) (h : ioc) :
  (total_sleep (log (put_all items h))
   == total_sleep (log h) + inject_Z (Z.of_nat (length items)) * 0.1)%Q.
Proof.
  revert h. induction items as [|[sig v] items IH]; intros h.
  - cbn. ring.
  - cbn [put_all fold_left]. unfold put_all in IH. rewrite IH.
    cbn [set_wait sleep log fst snd]. rewrite !total_sleep_app.
    cbn [total_sleep fold_right length].
    rewrite Nat2Z.inj_succ. unfold Z.succ. rewrite inject_Z_plus. ring.
Qed.

(** Whatever the driver holds before, the warm-up leaves the plugin
    enabled: [enable] is the one endpoint it writes and does not put back.
    It spends 3.2 seconds asleep: a tenth of a second before each of the
    twelve writes to the camera and two seconds for the acquisition. *)
Theorem warmup_leaves_plugin_enabled (h : ioc) :
  get enable (warmup h) = PvInt 1 /\
  (total_sleep (log (warmup h)) == total_sleep (log h) + 3.2)%Q.
Proof.
  split.
  - unfold warmup, get.
    rewrite put_all_other.
    + cbn [sleep values]. rewrite put_all_other by exact enable_not_snapshotted.
      cbn [set_wait values]. now destruct (decide (enable = enable)).
    + rewrite map_rev, map_map. cbn [fst]. rewrite <- in_rev.
      exact enable_not_snapshotted.
  - unfold warmup. rewrite total_sleep_put_all.
    cbn [sleep log]. rewrite total_sleep_app, total_sleep_put_all.
    cbn [set_wait log]. rewrite total_sleep_app.
    rewrite length_rev, length_map.
    cbn [total_sleep fold_right length sigs]. ring.
Qed.

End WarmupFacts.

(** ** Binary64 comparisons *)
Module Float64Facts.

Lemma SFcompare_swap (x y : spec_float) :
  SFcompare x y = option_map CompOpp (SFcompare y x).
Proof.
  destruct x as [sx|sx| |sx mx ex], y as [sy|sy| |sy my ey]; cbn;
    try reflexivity;
    try (destruct sx; reflexivity);
    try (destruct sy; reflexivity);
    try (destruct sx, sy; reflexivity).
  pose proof (Pos.compare_cont_antisym my mx Eq) as Ha. cbn in Ha.
  destruct sx, sy; cbn; try reflexivity;
    rewrite (Z.compare_antisym ey ex);
    destruct (ey ?= ex)%Z; cbn; try reflexivity;
    f_equal; rewrite Ha; reflexivity.
Qed.

(** [stop <= start] rules out [start < stop]. *)
Lemma leb_not_ltb (x y : float) :
  PrimFloat.leb y x = true -> PrimFloat.ltb x y = false.
Proof.
  rewrite FloatAxioms.leb_spec, FloatAxioms.ltb_spec. unfold SFleb, SFltb.
  rewrite (SFcompare_swap (Prim2SF x) (Prim2SF y)).
  destruct (SFcompare (Prim2SF y) (Prim2SF x)) as [[]|]; cbn; congruence.
Qed.

End Float64Facts.

(** ** The fly-scan plans *)
Module FlyScansFacts.
Import Float64 Float64Facts FlyScans.

Section WithBuiltins.
Context `{Builtins}.

(** C5, amended: [_validate_motor_limits] raises [AssertionError] when
    [stop <= start], and whenever [start < stop] does not hold; when
    [start < stop] it raises [LimitError], with a
    message that carries both bounds and both requested values, unless
    [start] and [stop] are both strictly between the limits, and then it
    returns without an exception. *)
Theorem validate_motor_limits_spec (m : motor) (start stop : float) (k : string) :
  (PrimFloat.leb stop start = true \/ PrimFloat.ltb start stop = false ->
   exists msg, _validate_motor_limits m start stop k = Raise (AssertionError msg)) /\
  (PrimFloat.ltb start stop = true ->
   strictly_inside (limits m) start && strictly_inside (limits m) stop = false ->
   _validate_motor_limits m start stop k
   = Raise (LimitError (limit_message m start stop k))) /\
  (PrimFloat.ltb start stop = true ->
   strictly_inside (limits m) start && strictly_inside (limits m) stop = true ->
   _validate_motor_limits m start stop k = Ok tt).
Proof.
  unfold _validate_motor_limits. split; [| split].
  - intros Hnot.
    assert (Hlt : PrimFloat.ltb start stop = false)
      by (destruct Hnot as [Hle|Hlt]; [now apply leb_not_ltb | exact Hlt]).
    rewrite Hlt. cbn. eauto.
  - intros Hlt Hout. rewrite Hlt. cbn [negb existsb].
    rewrite orb_false_r, <- negb_andb, Hout. cbn.
    unfold limit_message. reflexivity.
  - intros Hlt Hin. rewrite Hlt. cbn [negb existsb].
    now rewrite orb_false_r, <- negb_andb, Hin.
Qed.

(** One [rbind] of a run that ended well: its first part ended well too. *)
Ltac rbind_ok H :=
  match type of H with
  | rbind ?r _ = Ok _ =>
      let E := fresh "E" in
      destruct r eqn:E; cbn [rbind] in H; [| discriminate H]
  end.

(** C6: in [xy_fly] the prescale is the floor of the requested x step over
    five times the x resolution, the actual x step is the prescale times
    five times the resolution, and the pixel count is the floor of the x
    range over the actual step.  In binary64, a resolution of 0.0002 and
    a requested step of 0.01 give prescale 10, the actual step 0.01, and
    100 pixels over a range of 1. *)
Theorem xy_fly_quantization :
  (forall x_motor y_motor dwell_time xstart xstop xstep_size ystart ystop
          ystep_size xmres_ret ymres_ret d,
      xy_fly x_motor y_motor dwell_time xstart xstop xstep_size ystart ystop
             ystep_size xmres_ret ymres_ret = Ok d ->
      let xmres := default 0.0002%float xmres_ret in
      exists q p,
        py_div xstep_size (5 * xmres) = Ok q /\
        floor_int q = Ok (prescale d) /\
        a_xstep_size d = (float_of_int (prescale d) * (5 * xmres))%float /\
        py_div (xstop - xstart) (a_xstep_size d) = Ok p /\
        floor_int p = Ok (num_xpixels d)) /\
  (floor_int (0.01 / (5 * 0.0002)) = Ok 10%Z /\
   (float_of_int 10 * (5 * 0.0002))%float = 0.01%float /\
   floor_int (1 / 0.01) = Ok 100%Z).
Proof.
  split.
  - intros x_motor y_motor dwell_time xstart xstop xstep_size ystart ystop
           ystep_size xmres_ret ymres_ret d Hrun xmres.
    unfold xy_fly in Hrun.
    repeat rbind_ok Hrun.
    inversion Hrun; subst d; clear Hrun. cbn [prescale a_xstep_size num_xpixels].
    subst xmres. unfold default.
    destruct xmres_ret as [xmres|]; eauto 10.
  - repeat split; vm_compute; reflexivity.
Qed.

End WithBuiltins.

(** The checks of the specification's example, on an axis with limits
    (0, 100): an inverted range, a stop beyond the high limit, a range
    inside the limits. *)
Lemma validate_motor_limits_spec_witness :
  (exists msg, @_validate_motor_limits Examples.example_builtins
                 Examples.stage_axis 10 5 "x" = Raise (AssertionError msg)) /\
  @_validate_motor_limits Examples.example_builtins Examples.stage_axis 10 150 "x"
  = Raise (LimitError
      "your requested x values are out of limits for the motor 0.0 < (10.0, 150.0) < 100.0") /\
  @_validate_motor_limits Examples.example_builtins Examples.stage_axis 10 50 "x"
  = Ok tt.
Proof.
  split; [| split].
  - apply (@validate_motor_limits_spec Examples.example_builtins
             Examples.stage_axis 10 5 "x"). left. reflexivity.
  - apply (@validate_motor_limits_spec Examples.example_builtins
             Examples.stage_axis 10 150 "x"); reflexivity.
  - apply (@validate_motor_limits_spec Examples.example_builtins
             Examples.stage_axis 10 50 "x"); reflexivity.
Defined.

(** A start on the low limit itself lies in the closed interval of the
    limits, and is refused. *)
Lemma validate_closed_limits_counterexample :
  ~ @validates_closed_limits Examples.example_builtins.
Proof.
  intros Hclaim.
  destruct (Hclaim Examples.stage_axis 0%float 50%float "x") as (_ & _ & Hok).
  specialize (Hok eq_refl eq_refl).
  vm_compute in Hok. discriminate Hok.
Qed.

(** A scan of x from 42 to 43 in steps of 0.01 at the default resolution. *)
Lemma xy_fly_quantization_witness :
  exists d,
    @xy_fly Examples.example_builtins Examples.stage_axis Examples.stage_axis
      0.01 42 43 0.01 35.5 36 (Some 0.1%float) None None = Ok d /\
    prescale d = 10%Z /\ a_xstep_size d = 0.01%float /\ num_xpixels d = 100%Z.
Proof.
  destruct (@xy_fly_quantization Examples.example_builtins) as [Hgen _].
  destruct (@xy_fly Examples.example_builtins Examples.stage_axis
              Examples.stage_axis 0.01 42 43 0.01 35.5 36 (Some 0.1%float)
              None None) as [d|e] eqn:Hrun.
  - exists d. split; [reflexivity|].
    destruct (Hgen _ _ _ _ _ _ _ _ _ _ _ d Hrun) as (q & p & _ & _ & _ & _ & _).
    vm_compute in Hrun. inversion Hrun; subst d.
    repeat split; vm_compute; reflexivity.
  - vm_compute in Hrun. discriminate Hrun.
Defined.

End FlyScansFacts.

(** ** What [xy_fly] accepts *)
Module XyFlyFacts.
Import Float64 Float64Facts FlyScans.

(** The product of the integer 0, as a float, with any float is a zero or
    not a number; a division by it either raises or is not a number, and
    then has no floor. *)
Lemma zero_step_refused (x b : float) (px : float) (n : Z) :
  py_div x (float_of_int 0 * b) = Ok px -> floor_int px <> Ok n.
Proof.
  unfold py_div.
  destruct (PrimFloat.eqb (float_of_int 0 * b) 0) eqn:Ezero; [discriminate|].
  intros Hpx. inversion Hpx; subst px; clear Hpx.
  rewrite FloatAxioms.eqb_spec, FloatAxioms.mul_spec in Ezero.
  unfold floor_int. rewrite FloatAxioms.div_spec, FloatAxioms.mul_spec.
  change (Prim2SF (float_of_int 0)) with (S754_zero false) in *.
  change (Prim2SF 0) with (S754_zero false) in Ezero.
  destruct (Prim2SF b) as [s|s| |s m e].
  - destruct s; discriminate Ezero.
  - destruct (Prim2SF x); discriminate.
  - destruct (Prim2SF x); discriminate.
  - destruct s; discriminate Ezero.
Qed.

Section WithBuiltins.
Context `{Builtins}.

Ltac rbind_inv H :=
  match type of H with
  | rbind ?r _ = Ok _ =>
      let E := fresh "E" in
      destruct r eqn:E; cbn [rbind] in H; [| discriminate H]
  end.

(** A range that [_validate_motor_limits] lets through. *)
Lemma validate_motor_limits_ok (m : motor) (start stop : float) (k : string) :
  _validate_motor_limits m start stop k = Ok tt ->
  PrimFloat.ltb start stop = true /\
  strictly_inside (limits m) start = true /\
  strictly_inside (limits m) stop = true.
Proof.
  unfold _validate_motor_limits.
  destruct (PrimFloat.ltb start stop); cbn [negb]; [|discriminate].
  cbn [existsb]. rewrite orb_false_r.
  destruct (strictly_inside (limits m) start), (strictly_inside (limits m) stop);
    cbn; try discriminate. auto.
Qed.

Lemma assert_positive_ok (name : string) (v : float) :
  assert_positive name v = Ok tt -> PrimFloat.ltb 0 v = true.
Proof. unfold assert_positive. destruct (PrimFloat.ltb 0 v); [auto | discriminate]. Qed.

Lemma py_div_ok (a b q : float) : py_div a b = Ok q -> PrimFloat.eqb b 0 = false.
Proof. unfold py_div. destruct (PrimFloat.eqb b 0); [discriminate | auto]. Qed.

(** When the set-up of [xy_fly] goes through, both ranges are in order
    and strictly inside the limits of their motor, the dwell time and both
    step sizes are above zero, and the prescale is not zero: a requested x
    step that is less than five steps of the motor is refused, with the
    exception of the division or of the floor, and never gives pixels of
    size zero.  Neither of the two actual step sizes is zero. *)
Theorem xy_fly_accepted (x_motor y_motor : motor)
    (dwell_time xstart xstop xstep_size ystart ystop : float)
    (ystep_size : option float) (xmres_ret ymres_ret : option float)
    (d : xy_fly_derived) :
  xy_fly x_motor y_motor dwell_time xstart xstop xstep_size ystart ystop
         ystep_size xmres_ret ymres_ret = Ok d ->
  (PrimFloat.ltb xstart xstop = true /\
   strictly_inside (limits x_motor) xstart = true /\
   strictly_inside (limits x_motor) xstop = true) /\
  (PrimFloat.ltb ystart ystop = true /\
   strictly_inside (limits y_motor) ystart = true /\
   strictly_inside (limits y_motor) ystop = true) /\
  PrimFloat.ltb 0 dwell_time = true /\
  PrimFloat.ltb 0 xstep_size = true /\
  PrimFloat.ltb 0 (default xstep_size ystep_size) = true /\
  prescale d <> 0%Z /\
  PrimFloat.eqb (a_xstep_size d) 0 = false /\
  PrimFloat.eqb (a_ystep_size d) 0 = false.
Proof.
  intros Hrun. unfold xy_fly in Hrun.
  repeat rbind_inv Hrun.
  inversion Hrun; subst d; clear Hrun.
  cbn [prescale a_xstep_size a_ystep_size].
  repeat match goal with u : unit |- _ => destruct u end.
  split; [eapply validate_motor_limits_ok; eassumption|].
  split; [eapply validate_motor_limits_ok; eassumption|].
  split; [eapply assert_positive_ok; eassumption|].
  split; [eapply assert_positive_ok; eassumption|].
  split.
  { destruct ystep_size; cbn [default]; eapply assert_positive_ok; eassumption. }
  split.
  { intros Hzero.
    match goal with
    | Hd : py_div (xstop - xstart) _ = Ok ?px, Hf : floor_int ?px = Ok _ |- _ =>
        rewrite Hzero in Hd; exact (zero_step_refused _ _ _ _ Hd Hf)
    end. }
  split.
  - match goal with
    | Hd : py_div (xstop - xstart) _ = Ok _ |- _ => exact (py_div_ok _ _ _ Hd)
    end.
  - match goal with
    | Hd : py_div (ystop - ystart) _ = Ok _ |- _ => exact (py_div_ok _ _ _ Hd)
    end.
Qed.

End WithBuiltins.

(** The scan of x from 42 to 43 in steps of 0.01 goes through; the same
    scan with a requested x step of 0.0005, half of five motor steps,
    raises. *)
Lemma xy_fly_accepted_witness :
  (exists d,
     @xy_fly Examples.example_builtins Examples.stage_axis Examples.stage_axis
       0.01 42 43 0.01 35.5 36 (Some 0.1%float) None None = Ok d /\
     prescale d <> 0%Z /\ PrimFloat.eqb (a_xstep_size d) 0 = false) /\
  @xy_fly Examples.example_builtins Examples.stage_axis Examples.stage_axis
    0.01 42 43 0.0005 35.5 36 (Some 0.1%float) None None = Raise ZeroDivisionError.
Proof.
  split; [| vm_compute; reflexivity].
  destruct (@xy_fly Examples.example_builtins Examples.stage_axis
              Examples.stage_axis 0.01 42 43 0.01 35.5 36 (Some 0.1%float)
              None None) as [d|e] eqn:Hrun.
  - exists d. split; [reflexivity|].
    destruct (@xy_fly_accepted Examples.example_builtins _ _ _ _ _ _ _ _ _ _ _ d Hrun)
      as (_ & _ & _ & _ & _ & Hp & Hx & _).
    split; [exact Hp | exact Hx].
  - vm_compute in Hrun. discriminate Hrun.
Defined.

End XyFlyFacts.

(** ** The energy / linear conversion of [E_fly] *)
Module ConversionFacts.
Import FlyScans.
Local Open Scope R_scope.

Lemma deg2rad_45 : deg2rad 45 = PI / 4.
Proof. unfold deg2rad. lra. Qed.

(** In the model no energy below the back energy has a linear position:
    the argument of the arcsine exceeds 1. *)
Lemma energy_to_linear_below_e_back (e_back energy_cal energy : R) :
  0 < energy < e_back -> _energy_to_linear e_back energy_cal energy = None.
Proof.
  intros [Hpos Hlt]. unfold _energy_to_linear, np_divide.
  destruct (Req_dec_T energy 0) as [->|_]; [lra|]. cbn.
  unfold np_arcsin.
  destruct (Rle_dec (-1) (e_back / energy)) as [_|_]; [|reflexivity].
  destruct (Rle_dec (e_back / energy) 1) as [Hle|_]; [|reflexivity].
  exfalso. apply (Rmult_le_compat_r energy) in Hle; [|lra].
  unfold Rdiv in Hle. rewrite Rmult_assoc, Rinv_l in Hle; lra.
Qed.

Section RoundTrip.
Variables e_back energy_cal energy : R.
Hypothesis e_back_pos : 0 < e_back.
Hypothesis cal_range : 0 < deg2rad energy_cal < PI.
Hypothesis above_e_back : e_back <= energy.
Hypothesis below_pole : energy * sin (deg2rad energy_cal / 2) < e_back.

Local Abbreviation x := (e_back / energy).
Local Abbreviation theta := (asin (e_back / energy)).

Lemma ratio_range : 0 < x <= 1.
Proof using e_back_pos above_e_back.
  split.
  - apply Rdiv_lt_0_compat; lra.
  - apply (Rmult_le_reg_r energy); [lra|].
    unfold Rdiv. rewrite Rmult_assoc, Rinv_l; lra.
Qed.

Lemma sin_theta : sin theta = x.
Proof using e_back_pos above_e_back.
  apply sin_asin. pose proof ratio_range. lra.
Qed.

Lemma theta_range : deg2rad energy_cal / 2 < theta <= PI / 2.
Proof using e_back_pos cal_range above_e_back below_pole.
  pose proof ratio_range as Hx. split.
  - destruct (Rlt_le_dec (deg2rad energy_cal / 2) theta) as [Hlt|Hge]; [exact Hlt|].
    exfalso.
    assert (Hsin : sin theta <= sin (deg2rad energy_cal / 2)).
    { pose proof (asin_bound x).
      apply sin_incr_1; lra. }
    rewrite sin_theta in Hsin.
    apply (Rmult_le_compat_r energy) in Hsin; [|lra].
    unfold Rdiv in Hsin. rewrite Rmult_assoc, Rinv_l in Hsin; lra.
  - apply asin_bound.
Qed.

(** The angle whose tangent places the linear drive. *)
Local Abbreviation phi := (PI / 2 - 2 * asin (e_back / energy) + deg2rad energy_cal).

Lemma phi_range : - (PI / 2) < phi < PI / 2.
Proof using e_back_pos cal_range above_e_back below_pole.
  pose proof theta_range. lra.
Qed.

Lemma energy_to_linear_defined :
  _energy_to_linear e_back energy_cal energy = Some (28.2474 + 35.02333 * tan phi).
Proof using e_back_pos cal_range above_e_back below_pole.
  pose proof ratio_range as Hx. pose proof phi_range as Hphi.
  unfold _energy_to_linear, np_divide.
  destruct (Req_dec_T energy 0) as [->|_]; [lra|]. cbn.
  unfold np_arcsin.
  destruct (Rle_dec (-1) x) as [_|Hn]; [|lra].
  destruct (Rle_dec x 1) as [_|Hn]; [|lra]. cbn.
  unfold np_tan.
  destruct (Req_dec_T (cos phi) 0) as [Hc|_]; [|reflexivity].
  pose proof (cos_gt_0 phi). lra.
Qed.

Lemma linear_to_energy_inverts :
  _linear_to_energy e_back energy_cal (28.2474 + 35.02333 * tan phi) = Some energy.
Proof using e_back_pos cal_range above_e_back below_pole.
  pose proof ratio_range as Hx. pose proof phi_range as Hphi.
  unfold _linear_to_energy.
  replace ((28.2474 - (28.2474 + 35.02333 * tan phi)) / 35.02333)
    with (tan (- phi)) by (rewrite tan_neg; field; lra).
  rewrite atan_tan by lra.
  rewrite deg2rad_45.
  replace (PI / 4 + 0.5 * - phi + deg2rad energy_cal / 2) with theta
    by lra.
  rewrite sin_theta. unfold np_divide.
  destruct (Req_dec_T x 0) as [H0|_]; [lra|].
  f_equal. field. lra.
Qed.

Lemma round_trip_exact : energy_round_trip e_back energy_cal energy = Some energy.
Proof using e_back_pos cal_range above_e_back below_pole.
  unfold energy_round_trip. rewrite energy_to_linear_defined. cbn.
  apply linear_to_energy_inverts.
Qed.

End RoundTrip.

Lemma dflt_cal_range : 0 < deg2rad energy_cal_dflt < PI.
Proof.
  unfold deg2rad, energy_cal_dflt. pose proof PI_RGT_0. split; nra.
Qed.

(** C1, amended: with [e_back = 1977.04] and [energy_cal = 0.40118], in
    real arithmetic, converting an energy to the linear position and back
    gives the energy again for every energy from [e_back] upwards and below
    [e_back / sin (deg2rad energy_cal / 2)]; for an energy strictly between
    0 and [e_back] the conversion to the linear position is not a number,
    and neither is the round trip. *)
Theorem energy_round_trip_above_e_back :
  (forall energy,
      e_back_dflt <= energy ->
      energy * sin (deg2rad energy_cal_dflt / 2) < e_back_dflt ->
      energy_round_trip e_back_dflt energy_cal_dflt energy = Some energy) /\
  (forall energy,
      0 < energy < e_back_dflt ->
      _energy_to_linear e_back_dflt energy_cal_dflt energy = None /\
      energy_round_trip e_back_dflt energy_cal_dflt energy = None).
Proof.
  split.
  - intros energy Hlo Hhi. apply round_trip_exact.
    + unfold e_back_dflt. lra.
    + apply dflt_cal_range.
    + exact Hlo.
    + exact Hhi.
  - intros energy Hr.
    pose proof (energy_to_linear_below_e_back _ energy_cal_dflt _ Hr) as Hnan.
    split; [exact Hnan|]. unfold energy_round_trip. now rewrite Hnan.
Qed.

(** The round trip at 2000 eV. *)
Lemma energy_round_trip_above_e_back_witness :
  energy_round_trip e_back_dflt energy_cal_dflt 2000 = Some 2000.
Proof.
  destruct energy_round_trip_above_e_back as [Hround _].
  apply Hround.
  - unfold e_back_dflt. lra.
  - pose proof dflt_cal_range as Hc.
    pose proof (sin_lt_x (deg2rad energy_cal_dflt / 2)) as Hs.
    pose proof PI_4 as Hpi.
    unfold deg2rad, energy_cal_dflt, e_back_dflt in *.
    assert (Hx : 0 < 0.40118 * (PI / 180) / 2) by lra.
    specialize (Hs Hx). nra.
Defined.

(** At 1000 eV, between 0 and [e_back], the quotient [e_back / E] is
    1.97704 and its arcsine is not a number: the round trip does not give
    1000 back. *)
Lemma energy_round_trip_counterexample :
  0 < 1000 < e_back_dflt /\
  energy_round_trip e_back_dflt energy_cal_dflt 1000 <> Some 1000.
Proof.
  assert (Hr : 0 < 1000 < e_back_dflt) by (unfold e_back_dflt; lra).
  split; [exact Hr|].
  unfold energy_round_trip.
  rewrite (energy_to_linear_below_e_back _ _ _ Hr). discriminate.
Qed.

End ConversionFacts.

(** ** The conversion of [E_fly], from the linear drive *)
Module LinearDriveFacts.
Import FlyScans ConversionFacts.
Local Open Scope R_scope.

(** The arcsine grows with its argument. *)
Lemma asin_lt (x y : R) : -1 <= x -> x < y -> y <= 1 -> asin x < asin y.
Proof.
  intros Hx Hxy Hy.
  destruct (Rlt_le_dec (asin x) (asin y)) as [Hlt|Hge]; [exact Hlt|]. exfalso.
  pose proof (asin_bound x). pose proof (asin_bound y).
  assert (Hsin : sin (asin y) <= sin (asin x)) by (apply sin_incr_1; lra).
  rewrite !sin_asin in Hsin; lra.
Qed.

Section FromLinear.
Variables e_back energy_cal linear : R.
Hypothesis e_back_nonzero : e_back <> 0.
Hypothesis cal_range : 0 < deg2rad energy_cal < PI.

Local Abbreviation y := ((28.2474 - linear) / 35.02333).
Local Abbreviation theta :=
  (deg2rad 45 + 0.5 * atan ((28.2474 - linear) / 35.02333) + deg2rad energy_cal / 2).

Hypothesis below_fold : atan y <= PI / 2 - deg2rad energy_cal.

Lemma theta_from_linear_range : 0 < theta <= PI / 2.
Proof using cal_range below_fold.
  pose proof (atan_bound y). rewrite deg2rad_45. lra.
Qed.

Lemma linear_to_energy_defined :
  _linear_to_energy e_back energy_cal linear = Some (e_back / sin theta).
Proof using cal_range below_fold.
  pose proof theta_from_linear_range as Ht.
  unfold _linear_to_energy, np_divide.
  destruct (Req_dec_T (sin theta) 0) as [H0|_]; [|reflexivity].
  pose proof (sin_gt_0 theta). lra.
Qed.

Lemma energy_to_linear_inverts :
  _energy_to_linear e_back energy_cal (e_back / sin theta) = Some linear.
Proof using e_back_nonzero cal_range below_fold.
  pose proof theta_from_linear_range as Ht.
  assert (Hsin : 0 < sin theta) by (apply sin_gt_0; lra).
  assert (Hq : e_back / (e_back / sin theta) = sin theta) by (field; lra).
  unfold _energy_to_linear, np_divide.
  destruct (Req_dec_T (e_back / sin theta) 0) as [H0|_].
  { exfalso. apply (Rmult_eq_compat_r (sin theta)) in H0.
    unfold Rdiv in H0. rewrite Rmult_assoc, Rinv_l in H0; lra. }
  cbn. rewrite Hq. unfold np_arcsin.
  pose proof (SIN_bound theta) as [Hlo Hhi].
  destruct (Rle_dec (-1) (sin theta)) as [_|Hn]; [|lra].
  destruct (Rle_dec (sin theta) 1) as [_|Hn]; [|lra]. cbn.
  rewrite asin_sin by lra.
  replace (PI / 2 - 2 * theta + deg2rad energy_cal) with (- atan y)
    by (rewrite deg2rad_45; lra).
  pose proof (atan_bound y) as Hb.
  unfold np_tan.
  destruct (Req_dec_T (cos (- atan y)) 0) as [Hc|_].
  { pose proof (cos_gt_0 (- atan y)). lra. }
  cbn. rewrite tan_neg, tan_atan. f_equal. lra.
Qed.

Lemma linear_round_trip_exact : linear_round_trip e_back energy_cal linear = Some linear.
Proof using e_back_nonzero cal_range below_fold.
  unfold linear_round_trip. rewrite linear_to_energy_defined. cbn.
  apply energy_to_linear_inverts.
Qed.

End FromLinear.

(** With the default calibration the angle [PI / 2 - deg2rad energy_cal]
    has a tangent above 100. *)
Lemma dflt_fold_tan : 100 < tan (PI / 2 - deg2rad energy_cal_dflt).
Proof.
  pose proof dflt_cal_range as Hc. pose proof PI_4 as Hpi. pose proof PI2_1 as Hpos.
  set (c := deg2rad energy_cal_dflt) in *.
  assert (Hsmall : c < 0.009) by (unfold c, deg2rad, energy_cal_dflt; lra).
  assert (Hs : sin c < c) by (apply sin_lt_x; lra).
  assert (Hs0 : 0 < sin c) by (apply sin_gt_0; lra).
  assert (Hc0 : 0 < cos c) by (apply cos_gt_0; lra).
  pose proof (COS_bound c) as [_ Hc1].
  pose proof (sin2_cos2 c) as Hsq. unfold Rsqr in Hsq.
  assert (Hcos : 0.99 < cos c) by nra.
  unfold tan. rewrite sin_shift, cos_shift.
  apply (Rmult_lt_reg_r (sin c)); [exact Hs0|].
  unfold Rdiv. rewrite Rmult_assoc, Rinv_l by lra. nra.
Qed.

(** With [e_back = 1977.04] and [energy_cal = 0.40118], in real
    arithmetic, converting a position of the linear drive to the energy and
    back gives the position again, for every position from -1000 upwards:
    the energy it converts to is a number, and so is the position. *)
Theorem linear_round_trip_dflt (linear : R) :
  -1000 <= linear ->
  exists energy,
    _linear_to_energy e_back_dflt energy_cal_dflt linear = Some energy /\
    _energy_to_linear e_back_dflt energy_cal_dflt energy = Some linear.
Proof.
  intros Hlo.
  pose proof dflt_cal_range as Hc. pose proof dflt_fold_tan as Htan.
  assert (Hfold : atan ((28.2474 - linear) / 35.02333)
                  <= PI / 2 - deg2rad energy_cal_dflt).
  { destruct (Rle_lt_dec (atan ((28.2474 - linear) / 35.02333))
                (PI / 2 - deg2rad energy_cal_dflt)) as [Hle|Hgt]; [exact Hle|].
    exfalso.
    pose proof (atan_bound ((28.2474 - linear) / 35.02333)) as Hb.
    assert (Hlt : tan (PI / 2 - deg2rad energy_cal_dflt)
                  < tan (atan ((28.2474 - linear) / 35.02333)))
      by (apply tan_increasing; lra).
    rewrite tan_atan in Hlt.
    assert (Hy : (28.2474 - linear) / 35.02333 <= 100).
    { apply (Rmult_le_reg_r 35.02333); [lra|].
      unfold Rdiv. rewrite Rmult_assoc, Rinv_l; lra. }
    lra. }
  eexists. split.
  - apply linear_to_energy_defined; [exact Hc | exact Hfold].
  - apply energy_to_linear_inverts; [unfold e_back_dflt; lra | exact Hc | exact Hfold].
Qed.

(** The round trip from the position 30. *)
Lemma linear_round_trip_dflt_witness :
  exists energy,
    _linear_to_energy e_back_dflt energy_cal_dflt 30 = Some energy /\
    _energy_to_linear e_back_dflt energy_cal_dflt energy = Some 30.
Proof. apply linear_round_trip_dflt. lra. Defined.

(** With the default calibration, the linear position grows with the
    energy: for two energies from [e_back] upwards and below
    [e_back / sin (deg2rad energy_cal / 2)], the lower energy has the lower
    position, so that the range and the step that [E_fly] derives from
    [start < stop] and [step_size > 0] are positive. *)
Theorem energy_to_linear_increasing (energy1 energy2 : R) :
  e_back_dflt <= energy1 ->
  energy1 < energy2 ->
  energy2 * sin (deg2rad energy_cal_dflt / 2) < e_back_dflt ->
  exists linear1 linear2,
    _energy_to_linear e_back_dflt energy_cal_dflt energy1 = Some linear1 /\
    _energy_to_linear e_back_dflt energy_cal_dflt energy2 = Some linear2 /\
    linear1 < linear2.
Proof.
  intros Hlo Hlt Hhi.
  pose proof dflt_cal_range as Hc.
  assert (Hback : 0 < e_back_dflt) by (unfold e_back_dflt; lra).
  assert (Hs : 0 < sin (deg2rad energy_cal_dflt / 2)) by (apply sin_gt_0; lra).
  assert (Hhi1 : energy1 * sin (deg2rad energy_cal_dflt / 2) < e_back_dflt) by nra.
  assert (Hlo2 : e_back_dflt <= energy2) by lra.
  pose proof (energy_to_linear_defined _ _ _ Hback Hc Hlo Hhi1) as H1.
  pose proof (energy_to_linear_defined _ _ _ Hback Hc Hlo2 Hhi) as H2.
  pose proof (phi_range _ _ _ Hback Hc Hlo Hhi1) as Hp1.
  pose proof (phi_range _ _ _ Hback Hc Hlo2 Hhi) as Hp2.
  pose proof (ratio_range _ _ Hback Hlo) as Hr1.
  pose proof (ratio_range _ _ Hback Hlo2) as Hr2.
  assert (Hratio : e_back_dflt / energy2 < e_back_dflt / energy1).
  { unfold Rdiv. apply Rmult_lt_compat_l; [exact Hback|].
    apply Rinv_lt_contravar; [nra | exact Hlt]. }
  assert (Hasin : asin (e_back_dflt / energy2) < asin (e_back_dflt / energy1))
    by (apply asin_lt; lra).
  do 2 eexists. split; [exact H1|]. split; [exact H2|].
  assert (Htan : tan (PI / 2 - 2 * asin (e_back_dflt / energy1) + deg2rad energy_cal_dflt)
                 < tan (PI / 2 - 2 * asin (e_back_dflt / energy2) + deg2rad energy_cal_dflt))
    by (apply tan_increasing; lra).
  lra.
Qed.

(** The positions of 2000 eV and 2100 eV. *)
Lemma energy_to_linear_increasing_witness :
  exists linear1 linear2,
    _energy_to_linear e_back_dflt energy_cal_dflt 2000 = Some linear1 /\
    _energy_to_linear e_back_dflt energy_cal_dflt 2100 = Some linear2 /\
    linear1 < linear2.
Proof.
  apply energy_to_linear_increasing.
  - unfold e_back_dflt. lra.
  - lra.
  - pose proof dflt_cal_range as Hc.
    pose proof (sin_lt_x (deg2rad energy_cal_dflt / 2)) as Hs.
    pose proof PI_4 as Hpi.
    unfold deg2rad, energy_cal_dflt, e_back_dflt in *.
    assert (Hx : 0 < 0.40118 * (PI / 180) / 2) by lra.
    specialize (Hs Hx). nra.
Defined.

End LinearDriveFacts.

(** ** The energy list of [XANES_mapping] *)
Module XanesFacts.
Import Float64 FlyScans.

Lemma index_nth {A} (l : list A) (ii : nat) (d : A) :
  (ii < length l)%nat -> index l ii = Ok (nth ii l d).
Proof.
  intros Hlt. unfold index.
  now rewrite (nth_error_nth' l d Hlt).
Qed.

Lemma removelast_length {A} (l : list A) : length (removelast l) = pred (length l).
Proof.
  induction l as [|a [|b l] IH]; [reflexivity | reflexivity |].
  change (removelast (a :: b :: l)) with (a :: removelast (b :: l)).
  cbn [length] in *. now rewrite IH.
Qed.

(** [np.linspace] computes as many values as it is asked for. *)
Lemma linspace_body_length (start stop : float) (num : Z) :
  length (linspace_body start stop num) = Z.to_nat num.
Proof.
  unfold linspace_body.
  destruct (0 <? num - 1)%Z;
    [destruct (PrimFloat.eqb _ 0) |]; now rewrite !length_map, length_seq.
Qed.

(** [np.linspace] with two points or more ends on [stop]. *)
Lemma linspace_intervals (lo hi : float) (n : Z) :
  (1 <= n)%Z ->
  linspace lo hi (n + 1)
  = Ok (removelast (linspace_body lo hi (n + 1)) ++ [hi])%list.
Proof.
  intros Hn. unfold linspace.
  replace (n + 1 <? 0)%Z with false by (symmetry; apply Z.ltb_ge; lia).
  replace (1 <? n + 1)%Z with true by (symmetry; apply Z.ltb_lt; lia).
  reflexivity.
Qed.

Section Sections.
Variables (E_sections step_size : list float) (counts : list nat).
Hypothesis Hcut : have_intervals E_sections step_size counts.

Lemma ept_body_intervals (ept : list float) (ii : nat) :
  (ii < length step_size)%nat ->
  ept_body E_sections step_size ept ii
  = Ok (removelast ept ++ section_points E_sections step_size counts ii
        ++ [nth (ii + 1) E_sections 0%float])%list.
Proof using Hcut.
  intros Hii. destruct Hcut as (HlenE & Hlenc & Hsec).
  destruct (Hsec ii Hii) as (Hone & Hcount).
  unfold ept_body.
  rewrite (index_nth E_sections ii 0%float) by lia. cbn [rbind].
  rewrite (index_nth E_sections (ii + 1) 0%float) by lia. cbn [rbind].
  rewrite (index_nth step_size ii 0%float) by lia. cbn [rbind].
  unfold section_quotient in Hcount. rewrite Hcount. cbn [rbind].
  rewrite linspace_intervals by lia. cbn [rbind]. reflexivity.
Qed.

(** The loop from section [i] on, for [m] sections. *)
Lemma for_range_intervals (m i : nat) (ept : list float) :
  (i + m <= length step_size)%nat ->
  for_range (ept_body E_sections step_size) (seq i m) ept
  = Ok (match m with
        | O => ept
        | S _ =>
            removelast ept
            ++ flat_map (section_points E_sections step_size counts) (seq i m)
            ++ [nth (i + m) E_sections 0%float]
        end)%list.
Proof using Hcut.
  revert i ept. induction m as [|m IH]; intros i ept Hle; [reflexivity|].
  cbn [seq for_range].
  rewrite ept_body_intervals by lia. cbn [rbind].
  rewrite IH by lia.
  f_equal. destruct m as [|m].
  - cbn [seq flat_map]. rewrite app_nil_r.
    now replace (i + 1)%nat with (S i) by lia.
  - rewrite (app_assoc (removelast ept) _ [_]), removelast_last.
    cbn [flat_map]. rewrite <- !app_assoc.
    now replace (S i + S m)%nat with (i + S (S m))%nat by lia.
Qed.

Lemma section_points_length (ii : nat) :
  length (section_points E_sections step_size counts ii) = nth ii counts 0%nat.
Proof using Type.
  unfold section_points. rewrite removelast_length, linspace_body_length. lia.
Qed.

End Sections.


Lemma have_intervals_example :
  have_intervals [3550; 3600; 3620]%float [10; 5]%float [5; 4]%nat.
Proof.
  split; [reflexivity|]. split; [reflexivity|].
  intros ii Hii. cbn [length] in Hii.
  destruct ii as [|[|ii]]; [| | lia];
    (split; [cbn; lia | vm_compute; reflexivity]).
Qed.



End XanesFacts.

(** ** Sections and boundaries that do not match *)
Module EptFacts.
Import Float64 FlyScans XanesFacts.

Lemma for_range_raises (body : list float -> nat -> result (list float)) (ii : nat)
    (iis : list nat) (ept : list float) :
  In ii iis ->
  (forall ept, exists e, body ept ii = Raise e) ->
  exists e, for_range body iis ept = Raise e.
Proof.
  intros Hin Hbody. revert ept.
  induction iis as [|i iis IH]; intros ept; [destruct Hin|].
  cbn [for_range].
  destruct (Nat.eq_dec i ii) as [->|Hne].
  - destruct (Hbody ept) as [e He]. rewrite He. cbn. eauto.
  - destruct (body ept i) as [ept'|e]; cbn [rbind]; [| eauto].
    apply IH. destruct Hin as [Heq|Hin]; [congruence | exact Hin].
Qed.

(** With step sizes given, the list is built only if there is a boundary
    more than there are step sizes: with fewer boundaries the loop runs
    off the end of [E_sections] and raises, whatever the values are. *)
Theorem XANES_mapping_ept_needs_boundaries (E_sections step_size pts : list float) :
  XANES_mapping_ept E_sections step_size = Ok pts ->
  step_size = [] /\ pts = [] \/ (length step_size < length E_sections)%nat.
Proof.
  intros Hrun.
  destruct step_size as [|s0 rest] eqn:Hsteps.
  { left. cbn in Hrun. inversion Hrun. auto. }
  right. rewrite <- Hsteps in *.
  destruct (Nat.lt_ge_cases (length step_size) (length E_sections)) as [Hlt|Hge];
    [exact Hlt|].
  exfalso.
  assert (Hlen : (0 < length step_size)%nat) by (rewrite Hsteps; cbn; lia).
  destruct (for_range_raises (ept_body E_sections step_size)
              (length E_sections - 1) (seq 0 (length step_size)) [])
    as [e He].
  - apply in_seq. lia.
  - intros ept. unfold ept_body.
    destruct (index E_sections (length E_sections - 1)) as [lo|e]; [| cbn; eauto].
    cbn [rbind]. unfold index at 1.
    replace (nth_error E_sections (length E_sections - 1 + 1)) with (@None float)
      by (symmetry; apply nth_error_None; lia).
    cbn. eauto.
  - unfold XANES_mapping_ept in Hrun. rewrite He in Hrun. discriminate Hrun.
Qed.

(** Three boundaries and two step sizes give a list; two boundaries and
    two step sizes raise. *)
Lemma XANES_mapping_ept_needs_boundaries_witness :
  (length [10; 5]%float < length [3550; 3600; 3620]%float)%nat /\
  XANES_mapping_ept [3550; 3600]%float [10; 5]%float = Raise IndexError.
Proof.
  split; [| vm_compute; reflexivity].
  destruct (XANES_mapping_ept [3550; 3600; 3620]%float [10; 5]%float)
    as [pts|e] eqn:Hrun.
  - destruct (XANES_mapping_ept_needs_boundaries _ _ _ Hrun) as [[Hnil _]|Hlt];
      [discriminate Hnil | exact Hlt].
  - vm_compute in Hrun. discriminate Hrun.
Defined.

End EptFacts.

(** ** Ordered dicts *)
Module ODictFacts.
Section ODictFacts.
Context {V : Type}.
Implicit Types (d : list (string * V)) (k : string) (v : V).

Lemma get_set_eq d k v : ODict.get k (ODict.set k v d) = Some v.
Proof.
  induction d as [|[k' v'] d IH]; cbn.
  - now rewrite String.eqb_refl.
  - destruct (String.eqb k k') eqn:E; cbn.
    + now rewrite String.eqb_refl.
    + now rewrite E.
Qed.

Lemma get_set_ne d k k' v : k <> k' -> ODict.get k (ODict.set k' v d) = ODict.get k d.
Proof.
  intros Hne. induction d as [|[k0 v0] d IH]; cbn.
  - apply String.eqb_neq in Hne. now rewrite Hne.
  - destruct (String.eqb k' k0) eqn:E; cbn.
    + apply String.eqb_eq in E. subst k0.
      apply String.eqb_neq in Hne. now rewrite Hne.
    + destruct (String.eqb k k0); [reflexivity | exact IH].
Qed.

Lemma mem_get d k : ODict.mem k d = true <-> exists v, ODict.get k d = Some v.
Proof.
  unfold ODict.mem. destruct (ODict.get k d) as [v|].
  - split; [eauto | reflexivity].
  - split; [discriminate | intros [v Hv]; discriminate].
Qed.

Lemma get_in_keys d k v : ODict.get k d = Some v -> In k (ODict.keys d).
Proof.
  induction d as [|[k' v'] d IH]; cbn; [discriminate|].
  destruct (String.eqb k k') eqn:E.
  - apply String.eqb_eq in E. now left.
  - intros Hg. right. now apply IH.
Qed.

Lemma in_keys_mem d k : In k (ODict.keys d) -> ODict.mem k d = true.
Proof.
  unfold ODict.mem.
  induction d as [|[k' v'] d IH]; cbn; [tauto|].
  intros [Heq|Hin].
  - subst k'. now rewrite String.eqb_refl.
  - destruct (String.eqb k k'); [reflexivity | now apply IH].
Qed.

(** Assigning to a key the dict has leaves the order of the keys as it is. *)
Lemma keys_set_present d k v :
  In k (ODict.keys d) -> ODict.keys (ODict.set k v d) = ODict.keys d.
Proof.
  induction d as [|[k' v'] d IH]; cbn; [tauto|].
  intros Hin. destruct (String.eqb k k') eqn:E; cbn.
  - apply String.eqb_eq in E. now subst k'.
  - f_equal. apply IH. destruct Hin as [Heq|Hin]; [|exact Hin].
    subst k'. now rewrite String.eqb_refl in E.
Qed.

(** Assigning to a new key puts it last. *)
Lemma keys_set_absent d k v :
  ~ In k (ODict.keys d) -> ODict.keys (ODict.set k v d) = (ODict.keys d ++ [k])%list.
Proof.
  induction d as [|[k' v'] d IH]; cbn; [reflexivity|].
  intros Hnin. destruct (String.eqb k k') eqn:E; cbn.
  - apply String.eqb_eq in E. subst k'. tauto.
  - f_equal. apply IH. tauto.
Qed.

End ODictFacts.
End ODictFacts.

(** ** Runs of statements *)
Module StatefulFacts.
Section StatefulFacts.
Context {St : Type}.

Lemma bind_run {A B} (m : stateful St A) (f : A -> stateful St B) (s : St) :
  (m ≫= f) s =
  match m s with
  | (Ok a, s') => f a s'
  | (Raise e, s') => (Raise e, s')
  end.
Proof. reflexivity. Qed.

Lemma bind_ok {A B} (m : stateful St A) (f : A -> stateful St B) (s s' : St) (b : B) :
  (m ≫= f) s = (Ok b, s') ->
  exists a s1, m s = (Ok a, s1) /\ f a s1 = (Ok b, s').
Proof.
  rewrite bind_run. destruct (m s) as [[a|e] s1]; [eauto | discriminate].
Qed.

Lemma for_each_app {A} (body : A -> stateful St unit) (xs ys : list A) (s : St) :
  for_each body (xs ++ ys) s = (for_each body xs;; for_each body ys) s.
Proof.
  revert s. induction xs as [|x xs IH]; intros s; cbn [app for_each].
  - reflexivity.
  - rewrite !bind_run. destruct (body x s) as [[[]|e] s1]; [|reflexivity].
    rewrite IH. now rewrite bind_run.
Qed.

(** *** Statements that keep a relation between the state before and after *)
Section Preserves.
Variable R : St -> St -> Prop.
Hypothesis R_refl : forall s, R s s.
Hypothesis R_trans : forall s1 s2 s3, R s1 s2 -> R s2 s3 -> R s1 s3.

Lemma preserves_ret {A} (a : A) : preserves R (mret a : stateful St A).
Proof using R_refl. intros s. apply R_refl. Qed.

Lemma preserves_raise {A} (e : py_exn) : preserves R (raise e : stateful St A).
Proof using R_refl. intros s. apply R_refl. Qed.

Lemma preserves_lift {A} (r : result A) : preserves R (lift r).
Proof using R_refl. intros s. apply R_refl. Qed.

Lemma preserves_gets {A} (f : St -> A) : preserves R (gets f).
Proof using R_refl. intros s. apply R_refl. Qed.

Lemma preserves_modify (f : St -> St) : (forall s, R s (f s)) -> preserves R (modify f).
Proof using Type. intros Hf s. apply Hf. Qed.

Lemma preserves_bind {A B} (m : stateful St A) (f : A -> stateful St B) :
  preserves R m -> (forall a, preserves R (f a)) -> preserves R (m ≫= f).
Proof using R_trans.
  intros Hm Hf s. rewrite bind_run.
  specialize (Hm s). destruct (m s) as [[a|e] s1]; cbn in *; [|exact Hm].
  eapply R_trans; [exact Hm | apply Hf].
Qed.

Lemma preserves_for_each {A} (body : A -> stateful St unit) (xs : list A) :
  (forall x, preserves R (body x)) -> preserves R (for_each body xs).
Proof using R_refl R_trans.
  intros Hbody. induction xs as [|x xs IH]; cbn [for_each].
  - apply preserves_ret.
  - apply preserves_bind; [apply Hbody | intros _; exact IH].
Qed.

End Preserves.
End StatefulFacts.
End StatefulFacts.

(** ** The XDI serializer *)
Module SerializerFacts.
Import SuitcaseXdi ODictFacts StatefulFacts.

(** Unfold the binds and primitive statements of a run. *)
Ltac run_monad :=
  cbv beta iota delta [mbind mret stateful_bind stateful_ret modify gets lift raise].

(** Case analysis on what a run branches on. *)
Ltac case_run :=
  match goal with
  | |- context [match ?x with _ => _ end] => destruct x eqn:?
  end.

Section WithBuiltins.
Context `{Builtins}.

(** *** Rendered header lines are never overwritten *)

Lemma lines_kept_refl (b : header_lines) : lines_kept b b.
Proof. intros k line Hk. exact Hk. Qed.

Lemma lines_kept_trans (b1 b2 b3 : header_lines) :
  lines_kept b1 b2 -> lines_kept b2 b3 -> lines_kept b1 b3.
Proof. intros H12 H23 k line Hk. apply H23, H12, Hk. Qed.

(** Storing under a field that holds no line keeps the lines. *)
Lemma lines_kept_set (b : header_lines) (label : string) (v : option string) :
  (forall line, ODict.get label b <> Some (Some line)) ->
  lines_kept b (ODict.set label v b).
Proof.
  intros Hfree k line Hk.
  destruct (String.eqb_spec k label) as [->|Hne].
  - now apply Hfree in Hk.
  - now rewrite get_set_ne.
Qed.

(** One loop over the labels of a template section, whatever its body. *)
Lemma fill_empty_header_lines_kept {T}
    (body : string -> T -> result (option string)) (section : list (string * T)) :
  preserves lines_kept (fill_empty_header_lines body section).
Proof.
  unfold fill_empty_header_lines.
  apply (preserves_for_each lines_kept lines_kept_refl lines_kept_trans).
  intros [label template] b. cbn [fst snd]. run_monad.
  match goal with |- context [ODict.get label ?x] => set (b1 := x) end.
  assert (Hb1 : lines_kept b b1).
  { subst b1. destruct (ODict.mem label b) eqn:Em; [apply lines_kept_refl|].
    apply lines_kept_set. intros line Hl.
    unfold ODict.mem in Em. now rewrite Hl in Em. }
  destruct (ODict.get label b1) as [[line|]|] eqn:Eg; cbn; try exact Hb1.
  destruct (body label template) as [[l|]|e]; cbn; try exact Hb1.
  eapply lines_kept_trans; [exact Hb1|].
  apply lines_kept_set. intros line Hl. congruence.
Qed.

Lemma update_header_lines_kept (template : xdi_template) (doc_name : string)
    (doc : document) :
  preserves lines_kept (_update_header_lines_from_doc template doc_name doc).
Proof.
  unfold _update_header_lines_from_doc.
  repeat (apply (preserves_bind lines_kept lines_kept_trans);
          [apply fill_empty_header_lines_kept | intros _]).
  apply fill_empty_header_lines_kept.
Qed.

Lemma header_kept_refl (s : Serializer) : header_kept s s.
Proof. apply lines_kept_refl. Qed.

Lemma header_kept_trans (s1 s2 s3 : Serializer) :
  header_kept s1 s2 -> header_kept s2 s3 -> header_kept s1 s3.
Proof. apply lines_kept_trans. Qed.

Lemma on_header_line_buffer_kept {A} (m : stateful header_lines A) :
  preserves lines_kept m -> preserves header_kept (on_header_line_buffer m).
Proof. intros Hm s. apply Hm. Qed.

(** A statement that keeps the header lines, taken apart along its binds,
    loops and branches. *)
Ltac header_kept_step :=
  first
    [ apply (preserves_ret header_kept header_kept_refl)
    | apply (preserves_raise header_kept header_kept_refl)
    | apply (preserves_lift header_kept header_kept_refl)
    | apply (preserves_gets header_kept header_kept_refl)
    | apply (preserves_modify header_kept); intros ?;
      unfold header_kept; cbn; apply lines_kept_refl
    | apply on_header_line_buffer_kept, update_header_lines_kept
    | apply (preserves_bind header_kept header_kept_trans); [| intros ?]
    | apply (preserves_for_each header_kept header_kept_refl header_kept_trans);
      intros ?
    | match goal with
      | |- preserves _ (match ?x with _ => _ end) => destruct x
      end ].

Lemma update_data_columns_kept (doc : document) :
  preserves header_kept (_update_data_columns_from_doc doc).
Proof.
  unfold _update_data_columns_from_doc, update_column, store_column. repeat header_kept_step.
Qed.

Lemma event_page_primary_kept (now : string) (doc : document) :
  preserves header_kept (_event_page_primary now doc).
Proof.
  unfold _event_page_primary, open_file, _write_header, write_rows,
    write_value, write.
  repeat first [ apply update_data_columns_kept | header_kept_step ].
Qed.

Lemma start_kept (doc : document) : preserves header_kept (start doc).
Proof.
  unfold start, _initialize_column_data_dict. repeat header_kept_step.
Qed.

Lemma descriptor_kept (doc : document) : preserves header_kept (descriptor doc).
Proof. unfold descriptor. repeat header_kept_step. Qed.

Lemma event_page_kept (now : string) (doc : document) :
  preserves header_kept (event_page now doc).
Proof.
  unfold event_page, stream_name_of, _event_page_begin_row, _event_page_end_row,
    _event_page_energy_bins, store_event_page_header.
  repeat first
    [ apply update_data_columns_kept | apply event_page_primary_kept
    | header_kept_step ].
Qed.

(** C3: whatever document is processed (run-start, event-descriptor,
    event-page, run-stop), and whether or not its handler raises, a header
    field that holds a rendered line before holds the same line after; so
    a second run-start with other field values changes no line that is
    already there. *)
Theorem header_line_first_writer_wins (name : doc_kind) (now : string)
    (doc : document) (s : Serializer) (k line : string) :
  ODict.get k (_header_line_buffer s) = Some (Some line) ->
  ODict.get k (_header_line_buffer (call name now doc s).2) = Some (Some line).
Proof.
  revert k line. change (header_kept s (call name now doc s).2).
  destruct name; cbn [call].
  - apply start_kept.
  - apply descriptor_kept.
  - apply event_page_kept.
  - apply header_kept_refl.
Qed.

(** *** The row boundaries *)

(** Looking up the stream name changes nothing. *)
Lemma stream_name_of_pure (doc : document) (s : Serializer) :
  (stream_name_of doc s).2 = s.
Proof.
  unfold stream_name_of. run_monad. repeat case_run; reflexivity.
Qed.

Lemma event_page_on_stream (now : string) (doc : document) (s : Serializer)
    (name : pyval) :
  (stream_name_of doc s).1 = Ok name ->
  event_page now doc s =
  (if is_stream name "row_ends" then
     row_end_docs ← gets _row_end_docs;
     if (length row_end_docs =? 0)%nat then
       modify (fun s => set_row_end_docs (_row_end_docs s ++ [doc])%list s);;
       _event_page_begin_row doc
     else if (length row_end_docs =? 1)%nat then
       _event_page_end_row doc;;
       modify (set_row_end_docs [])
     else
       raise (Exception
                ("self._row_end_docs should not have length "
                 ++ NilZero.string_of_uint (Nat.to_uint (length row_end_docs))))
   else if is_stream name "energy_bins" then
     _event_page_energy_bins doc
   else if is_stream name "primary" then
     seq_num ← lift (getitem doc "seq_num");
     modify (set_scan_number (Some seq_num));;
     _event_page_primary now doc
   else mret tt) s.
Proof.
  intros Hname. unfold event_page.
  change ((stream_name_of doc ≫= ?f) s) with
    (match stream_name_of doc s with
     | (Ok a, s') => f a s'
     | (Raise e, s') => (Raise e, s')
     end).
  pose proof (stream_name_of_pure doc s) as Hpure.
  destruct (stream_name_of doc s) as [r s1]. cbn in Hname, Hpure.
  now subst r s1.
Qed.

(** [_event_page_begin_row] leaves the row tracking alone. *)
Lemma begin_row_row_end_docs (doc : document) (s : Serializer) :
  _row_end_docs (_event_page_begin_row doc s).2 = _row_end_docs s.
Proof.
  unfold _event_page_begin_row, store_event_page_header. run_monad.
  repeat case_run; reflexivity.
Qed.

(** What [_event_page_begin_row] leaves in the event-page buffer when the
    template asks for the start time and the page's time converts. *)
Lemma begin_row_start_time (doc : document) (s : Serializer) (t : pyval)
    (iso : string) :
  ODict.mem "Scan.start_time" (optional_headers (_xdi_file_template s)) = true ->
  getitem doc "time" = Ok t ->
  fromtimestamp_isoformat t = Ok iso ->
  exists ev,
    _event_page_begin_row doc s
    = (Ok tt, set_event_page_header_line_buffer (Some ev) s) /\
    ODict.get "Scan.start_time" ev = Some (Some iso).
Proof.
  intros Hmem Ht Hiso.
  unfold _event_page_begin_row, store_event_page_header. run_monad.
  cbn [_xdi_file_template set_event_page_header_line_buffer
       _event_page_header_line_buffer].
  rewrite Hmem, Ht, Hiso.
  eexists. split; [reflexivity | apply get_set_eq].
Qed.

(** *** Statements that leave the row tracking alone *)

Lemma same_row_end_docs_refl (s : Serializer) : same_row_end_docs s s.
Proof. reflexivity. Qed.

Lemma same_row_end_docs_trans (s1 s2 s3 : Serializer) :
  same_row_end_docs s1 s2 -> same_row_end_docs s2 s3 -> same_row_end_docs s1 s3.
Proof. unfold same_row_end_docs. congruence. Qed.

Ltac same_rows_step :=
  first
    [ apply (preserves_ret same_row_end_docs same_row_end_docs_refl)
    | apply (preserves_raise same_row_end_docs same_row_end_docs_refl)
    | apply (preserves_lift same_row_end_docs same_row_end_docs_refl)
    | apply (preserves_gets same_row_end_docs same_row_end_docs_refl)
    | apply (preserves_modify same_row_end_docs); intros ?; reflexivity
    | apply (preserves_bind same_row_end_docs same_row_end_docs_trans); [| intros ?]
    | apply (preserves_for_each same_row_end_docs same_row_end_docs_refl
               same_row_end_docs_trans); intros ?
    | match goal with
      | |- preserves _ (match ?x with _ => _ end) => destruct x
      end ].

Lemma on_header_line_buffer_same_rows {A} (m : stateful header_lines A) :
  preserves same_row_end_docs (on_header_line_buffer m).
Proof. intros s. reflexivity. Qed.

Lemma update_data_columns_same_rows (doc : document) :
  preserves same_row_end_docs (_update_data_columns_from_doc doc).
Proof.
  unfold _update_data_columns_from_doc, update_column, store_column. repeat same_rows_step.
Qed.

Lemma event_page_primary_same_rows (now : string) (doc : document) :
  preserves same_row_end_docs (_event_page_primary now doc).
Proof.
  unfold _event_page_primary, open_file, _write_header, write_rows,
    write_value, write.
  repeat first [ apply update_data_columns_same_rows | same_rows_step ].
Qed.

Lemma end_row_same_rows (doc : document) :
  preserves same_row_end_docs (_event_page_end_row doc).
Proof.
  unfold _event_page_end_row, store_event_page_header. repeat same_rows_step.
Qed.

(** No document leaves more than one page in the row tracking: the
    exception of the third case guards a state that feeding documents
    does not produce. *)
Lemma row_end_docs_at_most_one (name : doc_kind) (now : string) (doc : document)
    (s : Serializer) :
  (length (_row_end_docs s) <= 1)%nat ->
  (length (_row_end_docs (call name now doc s).2) <= 1)%nat.
Proof.
  intros Hle. destruct name; cbn [call].
  - assert (Hs : preserves same_row_end_docs (start doc)).
    { unfold start, _initialize_column_data_dict.
      repeat first [ apply on_header_line_buffer_same_rows | same_rows_step ]. }
    now rewrite (Hs s).
  - assert (Hd : preserves same_row_end_docs (descriptor doc)).
    { unfold descriptor.
      repeat first [ apply on_header_line_buffer_same_rows | same_rows_step ]. }
    now rewrite (Hd s).
  - destruct (stream_name_of doc s) as [[name|e] s1] eqn:Hname.
    2:{ unfold event_page.
        change ((stream_name_of doc ≫= ?f) s) with
          (match stream_name_of doc s with
           | (Ok a, s') => f a s'
           | (Raise e, s') => (Raise e, s')
           end).
        pose proof (stream_name_of_pure doc s) as Hpure.
        rewrite Hname in *. cbn in *. now subst s1. }
    rewrite (event_page_on_stream now doc s name) by now rewrite Hname.
    destruct (is_stream name "row_ends").
    + rewrite bind_run. cbn [gets].
      destruct (_row_end_docs s) as [|d [|d' rest]] eqn:Hdocs; cbn in Hle; [| | lia].
      * cbn [length Nat.eqb]. rewrite bind_run. cbn [modify].
        rewrite begin_row_row_end_docs. cbn. rewrite Hdocs. cbn. lia.
      * cbn [length Nat.eqb]. rewrite bind_run.
        pose proof (end_row_same_rows doc s) as Hend.
        destruct (_event_page_end_row doc s) as [[[]|e] s2]; cbn in *.
        -- lia.
        -- unfold same_row_end_docs in Hend. rewrite Hend, Hdocs. cbn. lia.
    + destruct (is_stream name "energy_bins").
      * unfold _event_page_energy_bins.
        now rewrite (update_data_columns_same_rows doc s).
      * destruct (is_stream name "primary"); [| exact Hle].
        assert (Hp : preserves same_row_end_docs
                       (seq_num ← lift (getitem doc "seq_num");
                        modify (set_scan_number (Some seq_num));;
                        _event_page_primary now doc)).
        { repeat first [ apply event_page_primary_same_rows | same_rows_step ]. }
        now rewrite (Hp s).
  - exact Hle.
Qed.

(** *** Writing to the file opened last *)

Lemma set_files_files (s : Serializer) : set_files (files s) s = s.
Proof. destruct s; reflexivity. Qed.

Lemma append_to_last_snoc (chunk : string) (fs : list xdi_file) (name : string)
    (chunks : list string) :
  append_to_last chunk (fs ++ [(name, chunks)])
  = (fs ++ [(name, (chunks ++ [chunk])%list)])%list.
Proof.
  induction fs as [|f fs IH]; [reflexivity|].
  cbn [app append_to_last]. rewrite IH.
  destruct (fs ++ [(name, chunks)])%list eqn:E; [|reflexivity].
  now destruct fs.
Qed.

Lemma append_chunks_snoc (new : list string) (fs : list xdi_file) (name : string)
    (chunks : list string) :
  append_chunks new (fs ++ [(name, chunks)])
  = (fs ++ [(name, (chunks ++ new)%list)])%list.
Proof.
  revert chunks. induction new as [|c new IH]; intros chunks; cbn.
  - now rewrite app_nil_r.
  - unfold append_chunks in IH. rewrite append_to_last_snoc, IH.
    now rewrite <- app_assoc.
Qed.

Lemma write_rows_run (rows : list (list pyval)) (s : Serializer) :
  write_rows rows s
  = (Ok tt,
     set_files
       (append_chunks
          (row_chunks (map (fun row_data => String.concat tab (map py_str row_data)) rows))
          (files s)) s).
Proof.
  unfold write_rows. revert s. induction rows as [|row rows IH]; intros s.
  - cbn. now rewrite set_files_files.
  - cbn [for_each]. rewrite bind_run.
    change ((write (String.concat tab (map py_str row));; write newline) s)
      with (Ok tt,
            set_files (append_to_last newline
                         (append_to_last (String.concat tab (map py_str row)) (files s)))
                      s).
    cbn iota. rewrite IH. reflexivity.
Qed.

(** The loop of [_write_header] ends well only if every value is a line,
    and then it has written each line and a newline. *)
Lemma write_header_lines_run (buffer : header_lines) (s s' : Serializer) :
  for_each (fun entry : string * option string =>
              write_value entry.2;; write newline) buffer s = (Ok tt, s') ->
  exists lines,
    map snd buffer = map Some lines /\
    s' = set_files (append_chunks (flat_map (fun line => [line; newline]) lines)
                      (files s)) s.
Proof.
  revert s. induction buffer as [|[k [line|]] buffer IH]; intros s Hrun.
  - exists []. cbn in *. inversion Hrun. now rewrite set_files_files.
  - cbn [for_each] in Hrun. rewrite bind_run in Hrun.
    change ((write_value (k, Some line).2;; write newline) s)
      with (Ok tt,
            set_files (append_to_last newline (append_to_last line (files s))) s)
      in Hrun.
    cbn iota in Hrun. apply IH in Hrun as (lines & Hlines & ->).
    exists (line :: lines). split; [cbn; now rewrite Hlines | reflexivity].
  - cbn [for_each] in Hrun. rewrite bind_run in Hrun. discriminate Hrun.
Qed.

Lemma write_header_run (buffer : header_lines) (s s' : Serializer) :
  _write_header buffer s = (Ok tt, s') ->
  exists lines,
    map snd buffer = map Some lines /\
    s' = set_files (append_chunks (header_chunks lines (columns s)) (files s)) s.
Proof.
  unfold _write_header. intros Hrun.
  apply bind_ok in Hrun as ([] & s1 & Hloop & Hrest).
  apply write_header_lines_run in Hloop as (lines & Hlines & ->).
  exists lines. split; [exact Hlines|].
  cbv beta iota delta [mbind stateful_bind write modify gets] in Hrest.
  inversion Hrest. cbn.
  unfold header_chunks, append_chunks. now rewrite fold_left_app.
Qed.

(** *** The column data *)

Lemma only_column_data_refl (s : Serializer) : only_column_data s s.
Proof. unfold only_column_data. now destruct s. Qed.

Lemma only_column_data_trans (s1 s2 s3 : Serializer) :
  only_column_data s1 s2 -> only_column_data s2 s3 -> only_column_data s1 s3.
Proof.
  unfold only_column_data. intros H12 H23.
  etransitivity; [exact H23|]. rewrite H12. reflexivity.
Qed.

(** [_update_data_columns_from_doc] changes nothing but the column data. *)
Lemma update_data_columns_frame (doc : document) :
  preserves only_column_data (_update_data_columns_from_doc doc).
Proof.
  unfold _update_data_columns_from_doc, update_column, store_column.
  repeat first
    [ apply (preserves_ret only_column_data only_column_data_refl)
    | apply (preserves_raise only_column_data only_column_data_refl)
    | apply (preserves_lift only_column_data only_column_data_refl)
    | apply (preserves_gets only_column_data only_column_data_refl)
    | apply (preserves_modify only_column_data); intros ?; reflexivity
    | apply (preserves_bind only_column_data only_column_data_trans); [| intros ?]
    | apply (preserves_for_each only_column_data only_column_data_refl
               only_column_data_trans); intros ?
    | match goal with
      | |- preserves _ (match ?x with _ => _ end) => destruct x
      end ].
Qed.

Lemma update_column_keys (doc : document) (column : column_template)
    (s : Serializer) :
  In (data_key column) (ODict.keys (_column_data s)) ->
  ODict.keys (_column_data (update_column doc column s).2)
  = ODict.keys (_column_data s).
Proof.
  intros Hin. unfold update_column, store_column. run_monad.
  repeat case_run; cbn; try reflexivity; now apply keys_set_present.
Qed.

Lemma for_each_update_column_keys (doc : document) (cols : list column_template)
    (s : Serializer) :
  (forall c, In c cols -> In (data_key c) (ODict.keys (_column_data s))) ->
  ODict.keys (_column_data (for_each (update_column doc) cols s).2)
  = ODict.keys (_column_data s).
Proof.
  revert s. induction cols as [|c cols IH]; intros s Hkeys; [reflexivity|].
  cbn [for_each]. rewrite bind_run.
  pose proof (update_column_keys doc c s (Hkeys c (or_introl eq_refl))) as Hc.
  destruct (update_column doc c s) as [[[]|e] s1]; cbn in Hc |- *; [|exact Hc].
  rewrite IH; [exact Hc|].
  intros c' Hc'. rewrite Hc. apply Hkeys. now right.
Qed.

(** The buffer keeps its keys, in their order, when they are the data
    keys of the configured columns. *)
Lemma update_data_columns_keys (doc : document) (s : Serializer) :
  ODict.keys (_column_data s) = map data_key (columns s) ->
  ODict.keys (_column_data (_update_data_columns_from_doc doc s).2)
  = ODict.keys (_column_data s).
Proof.
  intros Hkeys. unfold _update_data_columns_from_doc.
  rewrite bind_run. cbn [gets].
  apply for_each_update_column_keys.
  intros c Hc. rewrite Hkeys. now apply in_map.
Qed.

(** *** The primary page *)

(** The keys of the merged header lines are those of the header buffer,
    and the event-page buffer has no other key. *)
Lemma combine_header_line_buffers_keys (ev hb combined : header_lines) :
  combine_header_line_buffers ev hb = Ok combined ->
  ODict.keys combined = ODict.keys hb /\
  forall k, In k (ODict.keys ev) -> In k (ODict.keys hb).
Proof.
  revert hb. induction ev as [|[k v] ev IH]; intros hb Hrun; cbn in Hrun.
  - inversion Hrun. split; [reflexivity | intros k []].
  - destruct (ODict.get k hb) as [[line|]|] eqn:Ek; [| | discriminate Hrun].
    + apply IH in Hrun as [Hkeys Hsub]. split; [exact Hkeys|].
      intros k' [<-|Hin]; [eapply get_in_keys; eassumption | now apply Hsub].
    + apply IH in Hrun as [Hkeys Hsub].
      pose proof (get_in_keys _ _ _ Ek) as Hk.
      rewrite keys_set_present in Hkeys, Hsub by exact Hk.
      split; [exact Hkeys|].
      intros k' [<-|Hin]; [exact Hk | now apply Hsub].
Qed.

(** What a primary page that ends well has done. *)
Lemma event_page_primary_run (now : string) (doc : document) (s s' : Serializer) :
  _event_page_primary now doc s = (Ok tt, s') ->
  exists s1 number first prefix ev combined lines column_values,
    _update_data_columns_from_doc doc s = (Ok tt, s1) /\
    _scan_number s1 = Some number /\ first_item number = Ok first /\
    _templated_file_prefix s1 = Some prefix /\
    _event_page_header_line_buffer s1 = Some ev /\
    combine_header_line_buffers ev (_header_line_buffer s1) = Ok combined /\
    map snd combined = map Some lines /\
    map_result py_iter (ODict.values (_column_data s1)) = Ok column_values /\
    s' = set_files
           (app (files s1)
                [(prefix ++ py_str first ++ "-" ++ now ++ ".xdi",
                  app (header_chunks lines (columns s1))
                      (row_chunks (data_rows column_values)))]) s1.
Proof.
  unfold _event_page_primary. intros Hrun.
  apply bind_ok in Hrun as ([] & s1 & Hupd & Hrun).
  apply bind_ok in Hrun as (prefix & s2 & Hp & Hrun).
  cbn [gets] in Hp. inversion Hp; subst prefix s2; clear Hp.
  apply bind_ok in Hrun as (number & s2 & Hn & Hrun).
  cbn [gets] in Hn. inversion Hn; subst number s2; clear Hn.
  apply bind_ok in Hrun as (first & s2 & Hf & Hrun).
  unfold lift in Hf. inversion Hf as [[Hfirst Hs2]]; subst s2; clear Hf.
  destruct (_scan_number s1) as [number|] eqn:En; [|discriminate Hfirst].
  destruct (_templated_file_prefix s1) as [prefix|] eqn:Ep; [|discriminate Hrun].
  apply bind_ok in Hrun as ([] & s2 & Ho & Hrun).
  unfold open_file in Ho. cbn [modify] in Ho. inversion Ho; subst s2; clear Ho.
  apply bind_ok in Hrun as (hb & s2 & Hh & Hrun).
  cbn [gets] in Hh. inversion Hh; subst hb s2; clear Hh.
  apply bind_ok in Hrun as (evo & s2 & He & Hrun).
  cbn [gets] in He. inversion He; subst evo s2; clear He.
  cbn [set_files _event_page_header_line_buffer _header_line_buffer] in Hrun.
  destruct (_event_page_header_line_buffer s1) as [ev|] eqn:Eev; [|discriminate Hrun].
  apply bind_ok in Hrun as (combined & s2 & Hc & Hrun).
  unfold lift in Hc. inversion Hc as [[Hcomb Hs2]]; subst s2; clear Hc.
  apply bind_ok in Hrun as ([] & s2 & Hw & Hrun).
  apply write_header_run in Hw as (lines & Hlines & ->).
  apply bind_ok in Hrun as (cd & s2 & Hcd & Hrun).
  cbn [gets] in Hcd. inversion Hcd; subst cd s2; clear Hcd.
  apply bind_ok in Hrun as (column_values & s2 & Hcv & Hrun).
  unfold lift in Hcv. inversion Hcv as [[Hiter Hs2]]; subst s2; clear Hcv.
  rewrite write_rows_run in Hrun. inversion Hrun as [Hs']; clear Hrun.
  cbn [set_files files columns _column_data] in *.
  exists s1, number, first, prefix, ev, combined, lines, column_values.
  repeat (split; [first [reflexivity | assumption]|]).
  rewrite !append_chunks_snoc. cbn [app]. reflexivity.
Qed.

(** *** Rows of unequal columns *)

Lemma list_max_cons (n : nat) (l : list nat) :
  list_max (n :: l) = Nat.max n (list_max l).
Proof. reflexivity. Qed.

Lemma list_max_tl {A} (iterables : list (list A)) :
  list_max (map (@length A) (map (@tl A) iterables))
  = Nat.pred (list_max (map (@length A) iterables)).
Proof.
  induction iterables as [|it iterables IH]; [reflexivity|].
  cbn [map]. rewrite !list_max_cons, IH.
  destruct it; cbn [tl length]; lia.
Qed.

Lemma all_empty_list_max {A} (iterables : list (list A)) :
  forallb (fun it => (length it =? 0)%nat) iterables = true ->
  list_max (map (@length A) iterables) = 0%nat.
Proof.
  induction iterables as [|it iterables IH]; [reflexivity|].
  cbn [forallb map]. intros Hall.
  apply andb_prop in Hall as [Hit Hrest].
  apply Nat.eqb_eq in Hit. rewrite list_max_cons, Hit, (IH Hrest). reflexivity.
Qed.

(** [zip_longest] by position: tuple [i] holds item [i] of each iterable,
    or the fill value. *)
Lemma zip_longest_rounds_spec {A} (fillvalue : A) (rounds : nat)
    (iterables : list (list A)) :
  list_max (map (@length A) iterables) = rounds ->
  zip_longest_rounds rounds fillvalue iterables
  = map (fun i => map (fun it => nth i it fillvalue) iterables) (seq 0 rounds).
Proof.
  revert iterables. induction rounds as [|rounds IH]; intros iterables Hmax;
    [reflexivity|].
  cbn [zip_longest_rounds].
  destruct (forallb _ iterables) eqn:Hall.
  - apply all_empty_list_max in Hall. lia.
  - cbn [seq map]. f_equal.
    + apply map_ext. intros it. now destruct it.
    + rewrite (IH (map (@tl A) iterables))
        by (rewrite (list_max_tl iterables), Hmax; reflexivity).
      rewrite <- seq_shift, !map_map. apply map_ext. intros i.
      rewrite map_map. apply map_ext. intros it.
      destruct it; [destruct i|]; reflexivity.
Qed.

Lemma zip_longest_spec {A} (fillvalue : A) (iterables : list (list A)) :
  zip_longest fillvalue iterables
  = map (fun i => map (fun it => nth i it fillvalue) iterables)
        (seq 0 (list_max (map (@length A) iterables))).
Proof. unfold zip_longest. now apply zip_longest_rounds_spec. Qed.

Lemma data_rows_length (column_values : list (list pyval)) :
  length (data_rows column_values)
  = list_max (map (@length pyval) column_values).
Proof.
  unfold data_rows. rewrite zip_longest_spec, !length_map. apply length_seq.
Qed.

Lemma field_text (values : list pyval) (i : nat) :
  py_str (nth i values (PyStr "NA"))
  = match nth_error values i with
    | Some v => py_str v
    | None => "NA"
    end.
Proof.
  revert i. induction values as [|v values IH]; intros [|i]; cbn;
    try reflexivity.
  apply IH.
Qed.

Lemma data_rows_nth (column_values : list (list pyval)) (i : nat) :
  (i < list_max (map (@length pyval) column_values))%nat ->
  nth_error (data_rows column_values) i
  = Some (String.concat tab (row_fields column_values i)).
Proof.
  intros Hi. unfold data_rows, row_fields.
  rewrite zip_longest_spec, nth_error_map, nth_error_map.
  rewrite nth_error_seq. destruct (Nat.ltb_spec i (list_max (map (@length pyval) column_values))) as [_|Hge]; [|lia].
  cbn. f_equal. f_equal. rewrite map_map. apply map_ext. intros values.
  apply field_text.
Qed.

(** Three columns of 5, 3 and at most 5 values: five rows, the second
    field of the last two being ["NA"]. *)
Lemma data_rows_five_three (c1 c2 c3 : list pyval) :
  length c1 = 5%nat -> length c2 = 3%nat -> (length c3 <= 5)%nat ->
  length (data_rows [c1; c2; c3]) = 5%nat /\
  forall i, (3 <= i < 5)%nat ->
    exists f1 f3,
      nth_error (data_rows [c1; c2; c3]) i
      = Some (f1 ++ tab ++ "NA" ++ tab ++ f3).
Proof.
  intros H1 H2 H3.
  assert (Hmax : list_max (map (@length pyval) [c1; c2; c3]) = 5%nat)
    by (cbn; lia).
  split; [now rewrite data_rows_length|].
  intros i Hi. rewrite data_rows_nth by lia.
  unfold row_fields. cbn [map String.concat].
  assert (Hnone : nth_error c2 i = None) by (apply nth_error_None; lia).
  rewrite Hnone. eauto.
Qed.

(** On a serializer whose column buffer is in the order of the template,
    a primary event-page that ends well has added one file whose data
    block follows the header; the buffered arrays are those of the
    template's columns, in the order the template declares them; there is
    one row per position up to the length of the longest array, its fields
    joined by tabs, a field being the value at that position or ["NA"]
    where the array is shorter. *)
Lemma primary_page_rows (now : string) (doc : document) (s s' : Serializer) :
  (stream_name_of doc s).1 = Ok (PyStr "primary") ->
  column_order s ->
  event_page now doc s = (Ok tt, s') ->
  exists filename lines column_values,
    ODict.keys (_column_data s')
    = map data_key (ODict.values (columns_section (_xdi_file_template s))) /\
    map_result py_iter (ODict.values (_column_data s')) = Ok column_values /\
    files s'
    = app (files s)
          [(filename,
            app (header_chunks lines (columns s))
                (row_chunks (data_rows column_values)))] /\
    length (data_rows column_values)
    = list_max (map (@length pyval) column_values) /\
    (forall i, (i < list_max (map (@length pyval) column_values))%nat ->
       nth_error (data_rows column_values) i
       = Some (String.concat tab (row_fields column_values i))) /\
    (forall c1 c2 c3,
       column_values = [c1; c2; c3] ->
       length c1 = 5%nat -> length c2 = 3%nat -> (length c3 <= 5)%nat ->
       length (data_rows column_values) = 5%nat /\
       forall i, (3 <= i < 5)%nat ->
         exists f1 f3,
           nth_error (data_rows column_values) i
           = Some (f1 ++ tab ++ "NA" ++ tab ++ f3)).
Proof.
  intros Hname [Hcols Hkeys] Hrun.
  rewrite (event_page_on_stream now doc s _ Hname) in Hrun.
  change (is_stream (PyStr "primary") "row_ends") with false in Hrun.
  change (is_stream (PyStr "primary") "energy_bins") with false in Hrun.
  change (is_stream (PyStr "primary") "primary") with true in Hrun.
  cbn iota in Hrun.
  apply bind_ok in Hrun as (seq_num & s0 & Hseq & Hrun).
  unfold lift in Hseq. inversion Hseq as [[Hs Hs0]]; subst s0; clear Hseq.
  apply bind_ok in Hrun as ([] & s0 & Hset & Hrun).
  cbn [modify] in Hset. inversion Hset; subst s0; clear Hset.
  apply event_page_primary_run in Hrun
    as (s1 & number & first & prefix & ev & combined & lines & column_values
        & Hupd & _ & _ & _ & _ & _ & _ & Hiter & ->).
  pose proof (update_data_columns_frame doc (set_scan_number (Some seq_num) s))
    as Hframe.
  pose proof (update_data_columns_keys doc (set_scan_number (Some seq_num) s) Hkeys)
    as Hkeys1.
  rewrite Hupd in Hframe, Hkeys1. cbn [snd] in Hframe, Hkeys1.
  unfold only_column_data in Hframe.
  assert (Hfiles : files s1 = files s) by (rewrite Hframe; reflexivity).
  assert (Hcols1 : columns s1 = columns s) by (rewrite Hframe; reflexivity).
  exists (prefix ++ py_str first ++ "-" ++ now ++ ".xdi"), lines, column_values.
  cbn [set_files _column_data files].
  split; [| split; [| split; [| split; [| split]]]].
  - rewrite Hkeys1. cbn [set_scan_number _column_data]. now rewrite Hkeys, Hcols.
  - exact Hiter.
  - now rewrite Hfiles, Hcols1.
  - apply data_rows_length.
  - intros i Hi. now apply data_rows_nth.
  - intros c1 c2 c3 -> H1 H2 H3. now apply data_rows_five_three.
Qed.

(** [start], on a serializer with no column data yet, files the data keys
    of the template's columns in the order of the template, when no two
    columns share a data key. *)
Lemma initialize_column_data_keys (entries : list (string * column_template))
    (s : Serializer) :
  NoDup (ODict.keys (_column_data s) ++ map (fun e => data_key e.2) entries) ->
  ODict.keys
    (_column_data
       (for_each (fun entry : string * column_template =>
          modify (fun s =>
            set_column_data (ODict.set (data_key entry.2) PyNone (_column_data s)) s))
          entries s).2)
  = (ODict.keys (_column_data s) ++ map (fun e => data_key e.2) entries)%list.
Proof.
  revert s. induction entries as [|e entries IH]; intros s Hnd.
  - cbn. now rewrite app_nil_r.
  - cbn [for_each]. rewrite bind_run. cbn [modify map].
    assert (Hfresh : ~ In (data_key e.2) (ODict.keys (_column_data s))).
    { intros Hin. apply NoDup_app in Hnd as (_ & Hdisj & _).
      apply (Hdisj (data_key e.2)); apply list_elem_of_In;
        [exact Hin | now left]. }
    rewrite IH; cbn [set_column_data _column_data];
      rewrite keys_set_absent by exact Hfresh.
    + now rewrite <- app_assoc.
    + now rewrite <- app_assoc.
Qed.

(** [start] files the data keys of the template's columns in the order of
    the template, when the buffer was empty and no two columns share a
    data key. *)
Lemma start_orders_columns (doc : document) (s : Serializer) :
  _column_data s = [] ->
  NoDup (map data_key (ODict.values (columns_section (_xdi_file_template s)))) ->
  ODict.keys (_column_data (start doc s).2)
  = map data_key (ODict.values (columns_section (_xdi_file_template s))).
Proof.
  intros Hempty Hnd. unfold start. rewrite bind_run.
  unfold _initialize_column_data_dict at 1. rewrite bind_run. cbn [gets].
  pose proof (initialize_column_data_keys
                (columns_section (_xdi_file_template s)) s) as Hinit.
  rewrite Hempty in Hinit. cbn [ODict.keys map app] in Hinit.
  unfold ODict.values in Hnd |- *. rewrite map_map in Hnd |- *.
  specialize (Hinit Hnd).
  destruct (for_each _ (columns_section (_xdi_file_template s)) s)
    as [[[]|e] s1]; cbn [snd] in Hinit |- *; [|exact Hinit].
  rewrite <- Hinit.
  assert (Hrest : forall (m : stateful Serializer unit),
             preserves same_column_data m -> _column_data (m s1).2 = _column_data s1)
    by (intros m Hm; apply Hm).
  f_equal. apply Hrest.
  assert (Hrefl : forall s, same_column_data s s) by reflexivity.
  assert (Htrans : forall s1 s2 s3,
             same_column_data s1 s2 -> same_column_data s2 s3 -> same_column_data s1 s3)
    by (unfold same_column_data; congruence).
  repeat first
    [ apply (preserves_gets same_column_data Hrefl)
    | apply (preserves_lift same_column_data Hrefl)
    | apply (preserves_modify same_column_data); intros ?; reflexivity
    | apply (preserves_bind same_column_data Htrans); [| intros ?]
    | intros ?; reflexivity ].
Qed.

(** *** The order of the columns is kept by every document *)

Lemma column_order_kept_refl (s : Serializer) : column_order_kept s s.
Proof. repeat split. Qed.

Lemma column_order_kept_trans (s1 s2 s3 : Serializer) :
  column_order_kept s1 s2 -> column_order_kept s2 s3 -> column_order_kept s1 s3.
Proof.
  intros (Ht12 & Hc12 & Hk12) (Ht23 & Hc23 & Hk23).
  split; [congruence | split; [congruence|]].
  intros Hord. pose proof (Hk12 Hord) as Hk.
  rewrite Hk23; [exact Hk|].
  destruct Hord as [Hcols Hkeys]. split; congruence.
Qed.

Lemma update_data_columns_order (doc : document) :
  preserves column_order_kept (_update_data_columns_from_doc doc).
Proof.
  intros s. pose proof (update_data_columns_frame doc s) as Hframe.
  unfold only_column_data in Hframe.
  split; [rewrite Hframe; reflexivity | split; [rewrite Hframe; reflexivity|]].
  intros [_ Hkeys]. now apply update_data_columns_keys.
Qed.

Lemma initialize_column_data_order :
  preserves column_order_kept _initialize_column_data_dict.
Proof.
  intros s. unfold _initialize_column_data_dict. rewrite bind_run. cbn [gets].
  assert (Hloop : forall entries s0,
            let s1 := (for_each (fun entry : string * column_template =>
                         modify (fun s =>
                           set_column_data
                             (ODict.set (data_key entry.2) PyNone (_column_data s)) s))
                         entries s0).2 in
            _xdi_file_template s1 = _xdi_file_template s0 /\
            columns s1 = columns s0 /\
            ((forall e, In e entries ->
                In (data_key e.2) (ODict.keys (_column_data s0))) ->
             ODict.keys (_column_data s1) = ODict.keys (_column_data s0))).
  { induction entries as [|e entries IH]; intros s0; [repeat split|].
    cbn [for_each]. rewrite bind_run. cbn [modify].
    destruct (IH (set_column_data
                    (ODict.set (data_key e.2) PyNone (_column_data s0)) s0))
      as (Ht & Hc & Hk).
    cbn [set_column_data _xdi_file_template columns _column_data] in Ht, Hc, Hk.
    split; [exact Ht | split; [exact Hc|]].
    intros Hin.
    assert (Hset : ODict.keys (ODict.set (data_key e.2) PyNone (_column_data s0))
                   = ODict.keys (_column_data s0))
      by (apply keys_set_present, Hin; now left).
    rewrite Hk; [exact Hset|].
    intros e' He'. rewrite Hset. apply Hin. now right. }
  destruct (Hloop (columns_section (_xdi_file_template s)) s) as (Ht & Hc & Hk).
  split; [exact Ht | split; [exact Hc|]].
  intros [Hcols Hkeys]. apply Hk.
  intros e He. rewrite Hkeys, Hcols. unfold ODict.values. rewrite map_map.
  apply (in_map (fun x : string * column_template => data_key x.2)). exact He.
Qed.

Ltac column_order_step :=
  first
    [ apply update_data_columns_order
    | apply initialize_column_data_order
    | apply (preserves_ret column_order_kept column_order_kept_refl)
    | apply (preserves_raise column_order_kept column_order_kept_refl)
    | apply (preserves_lift column_order_kept column_order_kept_refl)
    | apply (preserves_gets column_order_kept column_order_kept_refl)
    | apply (preserves_modify column_order_kept); intros ?;
      split; [reflexivity | split; [reflexivity | intros _; reflexivity]]
    | apply (preserves_bind column_order_kept column_order_kept_trans); [| intros ?]
    | apply (preserves_for_each column_order_kept column_order_kept_refl
               column_order_kept_trans); intros ?
    | match goal with
      | |- preserves _ (on_header_line_buffer _) =>
          intros ?; split; [reflexivity | split; [reflexivity | intros _; reflexivity]]
      | |- preserves _ (match ?x with _ => _ end) => destruct x
      end ].

Lemma call_column_order_kept (name : doc_kind) (now : string) (doc : document) :
  preserves column_order_kept (call name now doc).
Proof.
  destruct name; cbn [call].
  - unfold start. repeat column_order_step.
  - unfold descriptor. repeat column_order_step.
  - unfold event_page, stream_name_of, _event_page_begin_row, _event_page_end_row,
      _event_page_energy_bins, store_event_page_header, _event_page_primary,
      open_file, _write_header, write_rows, write_value, write.
    repeat column_order_step.
  - apply (preserves_ret column_order_kept column_order_kept_refl).
Qed.

(** Once the column buffer is in the order of the template, it stays so
    whatever document comes. *)
Lemma call_keeps_column_order (name : doc_kind) (now : string) (doc : document)
    (s : Serializer) :
  column_order s -> column_order (call name now doc s).2.
Proof.
  intros Hord. destruct (call_column_order_kept name now doc s) as (Ht & Hc & Hk).
  specialize (Hk Hord). destruct Hord as [Hcols Hkeys].
  split; congruence.
Qed.

(** The first run-start puts the column buffer of a new serializer in the
    order of the template, when no two columns share a data key. *)
Lemma first_start_column_order (file_prefix : string) (template : xdi_template)
    (transforms : option (gmap string (document -> result pyval)))
    (doc : document) (s : Serializer) :
  __init__ file_prefix (Some template) transforms = Ok s ->
  NoDup (map data_key (ODict.values (columns_section template))) ->
  column_order (start doc s).2.
Proof.
  intros Hinit Hnd. unfold __init__ in Hinit.
  destruct (length (ODict.values (columns_section template)) =? 0)%nat;
    [discriminate Hinit|].
  injection Hinit as Hs.
  assert (Hframe : column_order_kept s (start doc s).2)
    by apply (call_column_order_kept StartDoc EmptyString doc s).
  destruct Hframe as (Ht & Hc & _).
  assert (Hkeys : ODict.keys (_column_data (start doc s).2)
                  = map data_key (ODict.values (columns_section template))).
  { rewrite (start_orders_columns doc s); rewrite <- Hs; cbn;
      [reflexivity | reflexivity | exact Hnd]. }
  assert (Htpl : _xdi_file_template s = template) by (rewrite <- Hs; reflexivity).
  assert (Hcols : columns s = ODict.values (columns_section template))
    by (rewrite <- Hs; reflexivity).
  split.
  - now rewrite Hc, Ht, Htpl.
  - now rewrite Hc, Hcols.
Qed.

(** *** The end time of a row *)

(** When the template has the optional header ["Scan.end_time"] and the
    page's time converts, [_event_page_end_row] stores the time under the
    field ["Scan_time.end"]; the field ["Scan.end_time"] of the event-page
    buffer is as it was. *)
Lemma end_row_stores_under_other_field (doc : document) (s : Serializer)
    (ev : header_lines) (t : pyval) (iso : string) :
  ODict.mem "Scan.end_time" (optional_headers (_xdi_file_template s)) = true ->
  _event_page_header_line_buffer s = Some ev ->
  getitem doc "time" = Ok t ->
  fromtimestamp_isoformat t = Ok iso ->
  _event_page_end_row doc s
  = (Ok tt,
     set_event_page_header_line_buffer
       (Some (ODict.set "Scan_time.end" (Some iso) ev)) s) /\
  ODict.get "Scan.end_time" (ODict.set "Scan_time.end" (Some iso) ev)
  = ODict.get "Scan.end_time" ev.
Proof.
  intros Hmem Hev Ht Hiso. split.
  - unfold _event_page_end_row, store_event_page_header. run_monad.
    now rewrite Hmem, Ht, Hiso, Hev.
  - apply get_set_ne. discriminate.
Qed.

(** A primary page cannot end well while the event-page buffer has a field
    that the header-line buffer does not have. *)
Lemma primary_page_raises_on_foreign_field (now : string) (doc : document)
    (s s' : Serializer) (ev : header_lines) (k : string) :
  _event_page_header_line_buffer s = Some ev ->
  In k (ODict.keys ev) ->
  ~ In k (ODict.keys (_header_line_buffer s)) ->
  _event_page_primary now doc s <> (Ok tt, s').
Proof.
  intros Hev Hin Hout Hrun.
  apply event_page_primary_run in Hrun
    as (s1 & number & first & prefix & ev1 & combined & lines & column_values
        & Hupd & _ & _ & _ & Hev1 & Hcomb & _).
  pose proof (update_data_columns_frame doc s) as Hframe.
  rewrite Hupd in Hframe. cbn [snd] in Hframe. unfold only_column_data in Hframe.
  rewrite Hframe in Hev1, Hcomb.
  cbn [set_column_data _event_page_header_line_buffer _header_line_buffer]
    in Hev1, Hcomb.
  rewrite Hev in Hev1. inversion Hev1; subst ev1.
  apply combine_header_line_buffers_keys in Hcomb as [_ Hsub].
  apply Hout, Hsub, Hin.
Qed.


(** *** Invariants of a stream of documents *)

(** What every document keeps, whether or not its handler raises, holds
    after the whole stream. *)
Lemma feed_invariant (P : Serializer -> Prop) :
  (forall name now doc s, P s -> P (call name now doc s).2) ->
  forall docs s, P s -> P (feed docs s).2.
Proof.
  intros Hcall docs. unfold feed.
  induction docs as [|[[name now] doc] docs IH]; intros s Hs; cbn [for_each].
  - exact Hs.
  - rewrite bind_run. cbn [fst snd].
    pose proof (Hcall name now doc s Hs) as H1.
    destruct (call name now doc s) as [[[]|e] s1]; cbn [snd] in *;
      [apply IH; exact H1 | exact H1].
Qed.

(** What every document that is handled without exception keeps, holds
    after a stream that is handled without exception. *)
Lemma feed_ok_invariant (P : Serializer -> Prop) :
  (forall name now doc s s', P s -> call name now doc s = (Ok tt, s') -> P s') ->
  forall docs s s', P s -> feed docs s = (Ok tt, s') -> P s'.
Proof.
  intros Hcall docs. unfold feed.
  induction docs as [|[[name now] doc] docs IH]; intros s s' Hs Hrun;
    cbn [for_each] in Hrun.
  - inversion Hrun. now subst.
  - apply bind_ok in Hrun as ([] & s1 & Hfirst & Hrest). cbn [fst snd] in Hfirst.
    eapply IH; [eapply Hcall; eassumption | exact Hrest].
Qed.

Lemma init_state (file_prefix : string) (template : option xdi_template)
    (transforms : option (gmap string (document -> result pyval))) (s : Serializer) :
  __init__ file_prefix template transforms = Ok s ->
  exists t, template = Some t /\ _xdi_file_template s = t /\
    columns s = ODict.values (columns_section t) /\
    _header_line_buffer s = [] /\ _event_page_header_line_buffer s = None /\
    _row_end_docs s = [] /\ _column_data s = [] /\ files s = [] /\
    _templated_file_prefix s = None /\ _uid_to_descriptor s = ∅.
Proof.
  unfold __init__. destruct template as [t|]; [|discriminate].
  destruct (length (ODict.values (columns_section t)) =? 0)%nat; [discriminate|].
  intros Hs. injection Hs as <-. exists t. cbn. repeat split.
Qed.

(** C2, amended: for an event-page of the ["row_ends"] stream, when the
    row tracking is empty the page is recorded in it and begins the row
    (with the start time captured if the template asks for it); when it
    holds one page, the page ends the row and the row tracking is cleared.
    A page that follows a page that has ended a row finds the row tracking
    empty and begins the next row: it does not fail.  On a serializer that
    has been given documents since it was made, the row tracking is empty
    or holds one page, so that one of the two cases applies and the
    exception for another length is not raised. *)
Theorem row_ends_state_machine (now : string) (doc : document) (s : Serializer) :
  (stream_name_of doc s).1 = Ok (PyStr "row_ends") ->
  (_row_end_docs s = [] ->
   event_page now doc s = _event_page_begin_row doc (set_row_end_docs [doc] s) /\
   _row_end_docs (event_page now doc s).2 = [doc] /\
   (forall t iso,
       ODict.mem "Scan.start_time" (optional_headers (_xdi_file_template s)) = true ->
       getitem doc "time" = Ok t ->
       fromtimestamp_isoformat t = Ok iso ->
       (event_page now doc s).1 = Ok tt /\
       exists ev,
         _event_page_header_line_buffer (event_page now doc s).2 = Some ev /\
         ODict.get "Scan.start_time" ev = Some (Some iso))) /\
  (length (_row_end_docs s) = 1%nat ->
   event_page now doc s
   = (_event_page_end_row doc;; modify (set_row_end_docs [])) s /\
   ((_event_page_end_row doc s).1 = Ok tt ->
    (event_page now doc s).1 = Ok tt /\
    _row_end_docs (event_page now doc s).2 = []) /\
   (forall s2 now3 doc3,
       event_page now doc s = (Ok tt, s2) ->
       (stream_name_of doc3 s2).1 = Ok (PyStr "row_ends") ->
       event_page now3 doc3 s2
       = _event_page_begin_row doc3 (set_row_end_docs [doc3] s2) /\
       _row_end_docs (event_page now3 doc3 s2).2 = [doc3])) /\
  (forall file_prefix template transforms docs s0,
      __init__ file_prefix template transforms = Ok s0 ->
      s = (feed docs s0).2 ->
      _row_end_docs s = [] \/ length (_row_end_docs s) = 1%nat).
Proof.
  assert (Hbegin : forall now doc s,
             (stream_name_of doc s).1 = Ok (PyStr "row_ends") ->
             _row_end_docs s = [] ->
             event_page now doc s
             = _event_page_begin_row doc (set_row_end_docs [doc] s) /\
             _row_end_docs (event_page now doc s).2 = [doc]).
  { clear now doc s. intros now doc s Hname Hempty.
    rewrite (event_page_on_stream now doc s _ Hname).
    change (is_stream (PyStr "row_ends") "row_ends") with true. cbn iota.
    rewrite bind_run. cbn [gets]. rewrite Hempty. cbn [length Nat.eqb].
    rewrite bind_run. cbn [modify]. rewrite Hempty. cbn [app].
    split; [reflexivity|]. rewrite begin_row_row_end_docs. reflexivity. }
  intros Hname. split; [| split].
  - intros Hempty. destruct (Hbegin now doc s Hname Hempty) as [Hrun Hdocs].
    split; [exact Hrun|]. split; [exact Hdocs|].
    intros t iso Hmem Ht Hiso. rewrite Hrun.
    destruct (begin_row_start_time doc (set_row_end_docs [doc] s) t iso Hmem Ht Hiso)
      as (ev & Hrun' & Hget).
    rewrite Hrun'. cbn. eauto.
  - intros Hone.
    assert (Hrun : event_page now doc s
                   = (_event_page_end_row doc;; modify (set_row_end_docs [])) s).
    { rewrite (event_page_on_stream now doc s _ Hname).
      change (is_stream (PyStr "row_ends") "row_ends") with true. cbn iota.
      rewrite bind_run. cbn [gets]. rewrite Hone. reflexivity. }
    split; [exact Hrun|]. split.
    + intros Hend. rewrite Hrun, bind_run.
      destruct (_event_page_end_row doc s) as [[[]|e] s1]; cbn in Hend;
        [| discriminate Hend].
      cbn. split; reflexivity.
    + intros s2 now3 doc3 Hok Hname3. apply Hbegin; [exact Hname3|].
      rewrite Hrun in Hok. apply bind_ok in Hok as ([] & s1 & _ & Hclear).
      cbn [modify] in Hclear. inversion Hclear. reflexivity.
  - intros file_prefix template transforms docs s0 Hinit ->.
    assert (Hle : (length (_row_end_docs (feed docs s0).2) <= 1)%nat).
    { apply (feed_invariant (fun s => (length (_row_end_docs s) <= 1)%nat)).
      - intros name now' doc' s Hs. now apply row_end_docs_at_most_one.
      - apply init_state in Hinit as (t & _ & _ & _ & _ & _ & Hrows & _).
        rewrite Hrows. cbn. lia. }
    destruct (_row_end_docs (feed docs s0).2) as [|d [|d' rest]];
      cbn in Hle |- *; [now left | now right | lia].
Qed.

(** However many documents a new serializer is given, and whatever they
    are, its row tracking never holds more than one page: the exception
    for a row tracking of another length is never raised on a serializer
    that is only driven through its handlers. *)
Theorem row_tracking_at_most_one_page (file_prefix : string)
    (template : option xdi_template)
    (transforms : option (gmap string (document -> result pyval)))
    (docs : list (doc_kind * string * document)) (s0 : Serializer) :
  __init__ file_prefix template transforms = Ok s0 ->
  (length (_row_end_docs (feed docs s0).2) <= 1)%nat.
Proof.
  intros Hinit.
  apply (feed_invariant (fun s => (length (_row_end_docs s) <= 1)%nat)).
  - intros name now doc s Hs. now apply row_end_docs_at_most_one.
  - apply init_state in Hinit as (t & _ & _ & _ & _ & _ & Hrows & _).
    rewrite Hrows. cbn. lia.
Qed.

(** After the first run-start of a new serializer whose columns have
    distinct data keys, and whatever documents follow, the column buffer
    lists the data keys of the template's columns in the order the template
    declares them. *)
Theorem column_order_after_first_start (file_prefix : string)
    (template : xdi_template)
    (transforms : option (gmap string (document -> result pyval)))
    (now : string) (doc : document)
    (docs : list (doc_kind * string * document)) (s0 : Serializer) :
  __init__ file_prefix (Some template) transforms = Ok s0 ->
  NoDup (map data_key (ODict.values (columns_section template))) ->
  column_order (feed ((StartDoc, now, doc) :: docs) s0).2.
Proof.
  intros Hinit Hnd.
  pose proof (first_start_column_order _ _ _ doc _ Hinit Hnd) as Hstart.
  unfold feed. cbn [for_each]. rewrite bind_run. cbn [fst snd call].
  destruct (start doc s0) as [[[]|e] s1]; cbn [snd] in *; [|exact Hstart].
  apply (feed_invariant column_order); [|exact Hstart].
  intros name now' doc' s Hs. now apply call_keeps_column_order.
Qed.


(** *** The files *)

Lemma preserves_weaken {St A} (R1 R2 : St -> St -> Prop) (m : stateful St A) :
  (forall s s', R1 s s' -> R2 s s') -> preserves R1 m -> preserves R2 m.
Proof. intros Hsub Hm s. apply Hsub, Hm. Qed.

(** A statement that keeps [R1], then one that keeps [R2]. *)
Lemma preserves_bind2 {St A B} (R1 R2 R3 : St -> St -> Prop)
    (m : stateful St A) (f : A -> stateful St B) :
  (forall s s', R1 s s' -> R3 s s') ->
  (forall s1 s2 s3, R1 s1 s2 -> R2 s2 s3 -> R3 s1 s3) ->
  preserves R1 m -> (forall a, preserves R2 (f a)) -> preserves R3 (m ≫= f).
Proof.
  intros Hsub Hcomp Hm Hf s. rewrite bind_run.
  specialize (Hm s). destruct (m s) as [[a|e] s1]; cbn [snd] in *.
  - eapply Hcomp; [exact Hm | apply Hf].
  - apply Hsub, Hm.
Qed.

Lemma same_files_refl (s : Serializer) : same_files s s.
Proof. reflexivity. Qed.

Lemma same_files_trans (s1 s2 s3 : Serializer) :
  same_files s1 s2 -> same_files s2 s3 -> same_files s1 s3.
Proof. unfold same_files. congruence. Qed.

Ltac same_files_step :=
  first
    [ apply (preserves_ret same_files same_files_refl)
    | apply (preserves_raise same_files same_files_refl)
    | apply (preserves_lift same_files same_files_refl)
    | apply (preserves_gets same_files same_files_refl)
    | apply (preserves_modify same_files); intros ?; reflexivity
    | apply (preserves_bind same_files same_files_trans); [| intros ?]
    | apply (preserves_for_each same_files same_files_refl same_files_trans);
      intros ?
    | match goal with
      | |- preserves _ (on_header_line_buffer _) => intros ?; reflexivity
      | |- preserves _ (match ?x with _ => _ end) => destruct x
      end ].

Lemma update_data_columns_same_files (doc : document) :
  preserves same_files (_update_data_columns_from_doc doc).
Proof.
  unfold _update_data_columns_from_doc, update_column, store_column.
  repeat same_files_step.
Qed.

Lemma start_same_files (doc : document) : preserves same_files (start doc).
Proof. unfold start, _initialize_column_data_dict. repeat same_files_step. Qed.

Lemma descriptor_same_files (doc : document) : preserves same_files (descriptor doc).
Proof. unfold descriptor. repeat same_files_step. Qed.

Lemma last_file_grows_refl (s : Serializer) : last_file_grows s s.
Proof. intros front filename chunks Hs. exists []. now rewrite app_nil_r. Qed.

Lemma last_file_grows_trans (s1 s2 s3 : Serializer) :
  last_file_grows s1 s2 -> last_file_grows s2 s3 -> last_file_grows s1 s3.
Proof.
  intros H12 H23 front filename chunks Hs.
  destruct (H12 _ _ _ Hs) as [more1 H2]. destruct (H23 _ _ _ H2) as [more2 H3].
  exists (more1 ++ more2)%list. now rewrite app_assoc.
Qed.

Lemma write_last_file_grows (chunk : string) : preserves last_file_grows (write chunk).
Proof.
  intros s front filename chunks Hs. unfold write, modify. cbn [snd set_files files].
  rewrite Hs, append_to_last_snoc. now exists [chunk].
Qed.

Ltac last_file_step :=
  first
    [ apply write_last_file_grows
    | apply (preserves_ret last_file_grows last_file_grows_refl)
    | apply (preserves_raise last_file_grows last_file_grows_refl)
    | apply (preserves_lift last_file_grows last_file_grows_refl)
    | apply (preserves_gets last_file_grows last_file_grows_refl)
    | apply (preserves_bind last_file_grows last_file_grows_trans); [| intros ?]
    | apply (preserves_for_each last_file_grows last_file_grows_refl
               last_file_grows_trans); intros ?
    | match goal with
      | |- preserves _ (match ?x with _ => _ end) => destruct x
      end ].

Lemma same_files_opens (s s' : Serializer) : same_files s s' -> opens_at_most_one s s'.
Proof. intros Hs. exists []. rewrite app_nil_r. split; [exact Hs | cbn; lia]. Qed.

Lemma same_files_then_opens (s1 s2 s3 : Serializer) :
  same_files s1 s2 -> opens_at_most_one s2 s3 -> opens_at_most_one s1 s3.
Proof. unfold same_files. intros H12 (new & H23 & Hlen). exists new. now rewrite <- H12. Qed.

(** A primary page leaves the files it finds as they are and opens at
    most one file. *)
Lemma event_page_primary_opens (now : string) (doc : document) :
  preserves opens_at_most_one (_event_page_primary now doc).
Proof.
  unfold _event_page_primary.
  apply (preserves_bind2 same_files opens_at_most_one opens_at_most_one
           _ _ same_files_opens same_files_then_opens);
    [apply update_data_columns_same_files | intros _].
  apply (preserves_bind2 same_files opens_at_most_one opens_at_most_one
           _ _ same_files_opens same_files_then_opens);
    [same_files_step | intros prefix].
  apply (preserves_bind2 same_files opens_at_most_one opens_at_most_one
           _ _ same_files_opens same_files_then_opens);
    [same_files_step | intros number].
  apply (preserves_bind2 same_files opens_at_most_one opens_at_most_one
           _ _ same_files_opens same_files_then_opens);
    [same_files_step | intros first].
  destruct prefix as [p|].
  2:{ apply (preserves_weaken same_files); [apply same_files_opens | same_files_step]. }
  apply (preserves_bind2 file_opened last_file_grows opens_at_most_one).
  - intros s s' [filename Hs]. exists [(filename, [])]. split; [exact Hs | cbn; lia].
  - intros s1 s2 s3 [filename H12] H23.
    destruct (H23 _ _ _ H12) as [more H3].
    exists [(filename, ([] ++ more)%list)]. split; [exact H3 | cbn; lia].
  - intros s. eexists. reflexivity.
  - intros _. unfold _write_header, write_rows, write_value.
    repeat last_file_step.
Qed.

(** An event-page either leaves the files alone or is a primary page,
    handled by [_event_page_primary] once the scan number is stored. *)
Lemma event_page_cases (now : string) (doc : document) (s : Serializer) :
  same_files s (event_page now doc s).2 \/
  exists seq_num,
    (stream_name_of doc s).1 = Ok (PyStr "primary") /\
    getitem doc "seq_num" = Ok seq_num /\
    event_page now doc s
    = _event_page_primary now doc (set_scan_number (Some seq_num) s).
Proof.
  destruct (stream_name_of doc s) as [[name|e] s1] eqn:Hname.
  2:{ left. unfold event_page.
      change ((stream_name_of doc ≫= ?f) s) with
        (match stream_name_of doc s with
         | (Ok a, s') => f a s'
         | (Raise e, s') => (Raise e, s')
         end).
      pose proof (stream_name_of_pure doc s) as Hpure.
      rewrite Hname in *. cbn in *. now subst s1. }
  rewrite (event_page_on_stream now doc s name) by now rewrite Hname.
  destruct (is_stream name "row_ends") eqn:Erow.
  { left.
    assert (Hrow : forall m : stateful Serializer unit,
               preserves same_files m -> same_files s (m s).2) by (intros m Hm; apply Hm).
    apply Hrow.
    unfold _event_page_begin_row, _event_page_end_row, store_event_page_header.
    repeat same_files_step. }
  destruct (is_stream name "energy_bins") eqn:Ebins.
  { left. apply update_data_columns_same_files. }
  destruct (is_stream name "primary") eqn:Eprim; [| left; reflexivity].
  destruct (getitem doc "seq_num") as [seq_num|e] eqn:Eseq; [| left; reflexivity].
  right. exists seq_num.
  destruct name as [| | |n| |]; try discriminate Eprim.
  cbn [is_stream] in Eprim. apply String.eqb_eq in Eprim. subst n.
  cbn [fst]. repeat split.
Qed.

Lemma event_page_opens (now : string) (doc : document) :
  preserves opens_at_most_one (event_page now doc).
Proof.
  intros s. destruct (event_page_cases now doc s) as [Hsame|(seq_num & _ & _ & ->)].
  - now apply same_files_opens.
  - apply (event_page_primary_opens now doc (set_scan_number (Some seq_num) s)).
Qed.

Lemma call_opens (name : doc_kind) (now : string) (doc : document) (s : Serializer) :
  exists new,
    files (call name now doc s).2 = (files s ++ new)%list /\
    (length new <= if is_event_page (name, now, doc) then 1 else 0)%nat.
Proof.
  destruct name; cbn [call is_event_page fst].
  - exists []. rewrite app_nil_r. split; [apply start_same_files | cbn; lia].
  - exists []. rewrite app_nil_r. split; [apply descriptor_same_files | cbn; lia].
  - apply event_page_opens.
  - exists []. rewrite app_nil_r. split; [reflexivity | cbn; lia].
Qed.

(** However a stream of documents is handled, and wherever it stops, the
    files that were there before are as they were: name and contents.  The
    files that are new come after them, and there is at most one for each
    event-page of the stream. *)
Theorem feed_files_append_only (docs : list (doc_kind * string * document))
    (s : Serializer) :
  exists new,
    files (feed docs s).2 = (files s ++ new)%list /\
    (length new <= length (List.filter is_event_page docs))%nat.
Proof.
  unfold feed. revert s.
  induction docs as [|[[name now] doc] docs IH]; intros s; cbn [for_each].
  - exists []. rewrite app_nil_r. split; [reflexivity | cbn; lia].
  - rewrite bind_run. cbn [fst snd].
    destruct (call_opens name now doc s) as (new1 & H1 & Hlen1).
    cbn [List.filter].
    destruct (call name now doc s) as [[[]|e] s1]; cbn [snd] in *.
    + destruct (IH s1) as (new2 & H2 & Hlen2).
      exists (new1 ++ new2)%list. rewrite H2, H1, app_assoc.
      split; [reflexivity|]. rewrite length_app.
      destruct (is_event_page (name, now, doc)); cbn [length]; lia.
    + exists new1. split; [exact H1|].
      destruct (is_event_page (name, now, doc)); cbn [length]; lia.
Qed.

(** *** The files of a stream that is handled without exception *)

Lemma call_columns (name : doc_kind) (now : string) (doc : document) (s : Serializer) :
  columns (call name now doc s).2 = columns s.
Proof. now destruct (call_column_order_kept name now doc s) as (_ & Hc & _). Qed.

Lemma call_ok_files_complete (cols : list column_template) (name : doc_kind)
    (now : string) (doc : document) (s s' : Serializer) :
  columns s = cols /\ Forall (complete_file cols) (files s) ->
  call name now doc s = (Ok tt, s') ->
  columns s' = cols /\ Forall (complete_file cols) (files s').
Proof.
  intros [Hcols Hfiles] Hrun.
  pose proof (call_columns name now doc s) as Hc. rewrite Hrun in Hc. cbn [snd] in Hc.
  split; [congruence|].
  assert (Hsame : same_files s s' -> Forall (complete_file cols) (files s'))
    by (intros Hs; now rewrite Hs).
  destruct name; cbn [call] in Hrun.
  - apply Hsame. pose proof (start_same_files doc s) as Hs. now rewrite Hrun in Hs.
  - apply Hsame. pose proof (descriptor_same_files doc s) as Hs. now rewrite Hrun in Hs.
  - destruct (event_page_cases now doc s) as [Hs|(seq_num & _ & _ & Hprim)].
    + apply Hsame. now rewrite Hrun in Hs.
    + rewrite Hprim in Hrun.
      apply event_page_primary_run in Hrun
        as (s1 & number & first & prefix & ev & combined & lines & column_values
            & Hupd & _ & _ & _ & _ & _ & _ & _ & ->).
      pose proof (update_data_columns_frame doc (set_scan_number (Some seq_num) s))
        as Hframe.
      rewrite Hupd in Hframe. cbn [snd] in Hframe. unfold only_column_data in Hframe.
      assert (Hfiles1 : files s1 = files s) by (rewrite Hframe; reflexivity).
      assert (Hcols1 : columns s1 = cols) by (rewrite Hframe; exact Hcols).
      cbn [set_files files]. rewrite Hfiles1, Hcols1.
      apply Forall_app. split; [exact Hfiles|].
      constructor; [|constructor]. exists lines, column_values. reflexivity.
  - inversion Hrun. now subst.
Qed.

(** When [export] returns, every artifact is a whole file: header lines,
    the separator, the line of column labels of the template's columns, and
    then data rows. *)
Theorem export_artifacts_complete (gen : list (doc_kind * string * document))
    (file_prefix : string) (template : xdi_template)
    (transforms : option (gmap string (document -> result pyval)))
    (artifacts : list xdi_file) :
  export gen file_prefix (Some template) transforms = Ok artifacts ->
  Forall (complete_file (ODict.values (columns_section template))) artifacts.
Proof.
  unfold export. intros Hrun.
  destruct (__init__ file_prefix (Some template) transforms) as [s0|e] eqn:Hinit;
    [|discriminate Hrun].
  cbn [rbind] in Hrun.
  destruct (feed gen s0) as [[[]|e] s'] eqn:Hfeed; [|discriminate Hrun].
  inversion Hrun; subst artifacts.
  apply init_state in Hinit as (t & Ht & _ & Hcols & _ & _ & _ & _ & Hfiles & _).
  inversion Ht; subst t.
  apply (feed_ok_invariant
           (fun s => columns s = ODict.values (columns_section template) /\
                     Forall (complete_file (ODict.values (columns_section template)))
                            (files s)))
    with (docs := gen) (s := s0) (s' := s').
  - intros name now doc s s1. apply call_ok_files_complete.
  - split; [exact Hcols|]. rewrite Hfiles. constructor.
  - exact Hfeed.
Qed.

Lemma primary_without_event_page_buffer (now : string) (doc : document)
    (s : Serializer) :
  _event_page_header_line_buffer s = None ->
  exists e,
    (_event_page_primary now doc s).1 = Raise e /\
    (files (_event_page_primary now doc s).2 = files s \/
     e = AttributeError "_event_page_header_line_buffer" /\
     exists filename,
       files (_event_page_primary now doc s).2 = (files s ++ [(filename, [])])%list).
Proof.
  intros Hnone. unfold _event_page_primary. rewrite bind_run.
  pose proof (update_data_columns_frame doc s) as Hframe.
  destruct (_update_data_columns_from_doc doc s) as [[[]|e] s1];
    cbn [snd] in Hframe; unfold only_column_data in Hframe.
  2:{ exists e. split; [reflexivity|]. left. cbn [snd]. rewrite Hframe. reflexivity. }
  assert (Hfiles : files s1 = files s) by (rewrite Hframe; reflexivity).
  assert (Hev : _event_page_header_line_buffer s1 = None)
    by (rewrite Hframe; exact Hnone).
  run_monad.
  destruct (match _scan_number s1 with
            | Some v => first_item v
            | None => Raise (TypeError "object is not subscriptable")
            end) as [first|e];
    [| exists e; split; [reflexivity | left; exact Hfiles]].
  destruct (_templated_file_prefix s1) as [p|];
    [| eexists; split; [reflexivity | left; exact Hfiles]].
  unfold open_file. run_monad.
  cbn [set_files _event_page_header_line_buffer _header_line_buffer files].
  rewrite Hev. eexists. split; [reflexivity|]. right.
  split; [reflexivity|]. cbn [snd set_files files]. rewrite Hfiles. eauto.
Qed.

(** A primary page that comes before any page of the ["row_ends"] stream
    never ends well: the event-page buffer is an attribute that the first
    such page creates.  If the handler gets as far as the output, the file
    it has opened is left empty and the exception is [AttributeError]. *)
Theorem primary_page_before_row_ends (now : string) (doc : document)
    (s : Serializer) :
  (stream_name_of doc s).1 = Ok (PyStr "primary") ->
  _event_page_header_line_buffer s = None ->
  exists e,
    (event_page now doc s).1 = Raise e /\
    (files (event_page now doc s).2 = files s \/
     e = AttributeError "_event_page_header_line_buffer" /\
     exists filename,
       files (event_page now doc s).2 = (files s ++ [(filename, [])])%list).
Proof.
  intros Hname Hnone.
  rewrite (event_page_on_stream now doc s _ Hname).
  change (is_stream (PyStr "primary") "row_ends") with false.
  change (is_stream (PyStr "primary") "energy_bins") with false.
  change (is_stream (PyStr "primary") "primary") with true.
  cbn iota.
  destruct (getitem doc "seq_num") as [seq_num|e] eqn:Eseq.
  - change ((lift (Ok seq_num) ≫= _) s)
      with (_event_page_primary now doc (set_scan_number (Some seq_num) s)).
    apply (primary_without_event_page_buffer now doc
             (set_scan_number (Some seq_num) s)).
    exact Hnone.
  - exists e. split; [reflexivity | now left].
Qed.

(** *** What a run-start renders *)

(** One turn of the loop over a template section. *)
Lemma fill_empty_header_lines_cons {T}
    (body : string -> T -> result (option string)) (label : string) (t : T)
    (section : list (string * T)) (b : header_lines) :
  fill_empty_header_lines body ((label, t) :: section) b
  = let b1 := if ODict.mem label b then b else ODict.set label None b in
    match ODict.get label b1 with
    | Some None =>
        match body label t with
        | Ok (Some l) => fill_empty_header_lines body section (ODict.set label (Some l) b1)
        | Ok None => fill_empty_header_lines body section b1
        | Raise e => (Raise e, b1)
        end
    | _ => fill_empty_header_lines body section b1
    end.
Proof.
  unfold fill_empty_header_lines. cbn [for_each fst snd].
  match goal with |- context [for_each ?f section] => set (rest := for_each f section) end.
  run_monad. cbv zeta.
  destruct (ODict.mem label b);
    (destruct (ODict.get label _) as [[l|]|]; [reflexivity | | reflexivity]);
    (destruct (body label t) as [[l|]|e]; reflexivity).
Qed.

(** The field looked at is unresolved once the generator has added it,
    unless it held a line. *)
Lemma get_after_adding (label : string) (b : header_lines) :
  (forall l, ODict.get label b <> Some (Some l)) ->
  ODict.get label (if ODict.mem label b then b else ODict.set label None b)
  = Some None.
Proof.
  intros Hfree. unfold ODict.mem.
  destruct (ODict.get label b) as [[l|]|] eqn:Eg.
  - now destruct (Hfree l).
  - exact Eg.
  - apply get_set_eq.
Qed.

Lemma get_after_adding_other (label k : string) (b : header_lines) :
  k <> label ->
  ODict.get k (if ODict.mem label b then b else ODict.set label None b)
  = ODict.get k b.
Proof.
  intros Hne. destruct (ODict.mem label b); [reflexivity | now apply get_set_ne].
Qed.

(** A loop over a section leaves the fields of other labels alone. *)
Lemma fill_empty_header_lines_other {T}
    (body : string -> T -> result (option string)) (section : list (string * T))
    (k : string) (b : header_lines) :
  ~ In k (ODict.keys section) ->
  ODict.get k (fill_empty_header_lines body section b).2 = ODict.get k b.
Proof.
  revert b. induction section as [|[label t] section IH]; intros b Hout.
  - reflexivity.
  - cbn [ODict.keys map fst In] in Hout.
    assert (Hne : k <> label) by (intros ->; tauto).
    assert (Hrest : ~ In k (ODict.keys section)) by tauto.
    rewrite fill_empty_header_lines_cons. cbv zeta.
    pose proof (get_after_adding_other label k b Hne) as Hb1.
    destruct (ODict.get label _) as [[l|]|]; try (rewrite IH by exact Hrest; exact Hb1).
    destruct (body label t) as [[l|]|e].
    + rewrite IH by exact Hrest. now rewrite get_set_ne.
    + rewrite IH by exact Hrest. exact Hb1.
    + exact Hb1.
Qed.

Lemma fill_empty_header_lines_kept_run {T}
    (body : string -> T -> result (option string)) (section : list (string * T))
    (b b' : header_lines) (r : result unit) :
  fill_empty_header_lines body section b = (r, b') -> lines_kept b b'.
Proof.
  intros Hrun. pose proof (fill_empty_header_lines_kept body section b) as Hk.
  now rewrite Hrun in Hk.
Qed.

Lemma fill_empty_header_lines_other_run {T}
    (body : string -> T -> result (option string)) (section : list (string * T))
    (k : string) (b b' : header_lines) (r : result unit) :
  fill_empty_header_lines body section b = (r, b') ->
  ~ In k (ODict.keys section) -> ODict.get k b' = ODict.get k b.
Proof.
  intros Hrun Hout.
  pose proof (fill_empty_header_lines_other body section k b Hout) as Ho.
  now rewrite Hrun in Ho.
Qed.

(** A loop that ends well has rendered the unresolved field [k] with the
    section's template for it, when the body renders a line for that
    template. *)
Lemma fill_empty_header_lines_renders {T}
    (body : string -> T -> result (option string)) (section : list (string * T))
    (k : string) (t : T) (b b' : header_lines) :
  fill_empty_header_lines body section b = (Ok tt, b') ->
  ODict.get k section = Some t ->
  (forall l, ODict.get k b <> Some (Some l)) ->
  body k t <> Ok None ->
  exists line, body k t = Ok (Some line) /\ ODict.get k b' = Some (Some line).
Proof.
  revert b. induction section as [|[label t0] section IH]; intros b Hrun Hk Hfree Hbody.
  - discriminate Hk.
  - rewrite fill_empty_header_lines_cons in Hrun. cbv zeta in Hrun.
    cbn [ODict.get] in Hk. destruct (String.eqb_spec k label) as [->|Hne].
    + inversion Hk; subst t0.
      match type of Hrun with
      | context [ODict.get label ?x] =>
          assert (Hb1 : ODict.get label x = Some None)
            by exact (get_after_adding label b Hfree);
          rewrite Hb1 in Hrun
      end.
      destruct (body label t) as [[l|]|e]; [| congruence | discriminate Hrun].
      exists l. split; [reflexivity|].
      apply (fill_empty_header_lines_kept_run _ _ _ _ _ Hrun). apply get_set_eq.
    + pose proof (get_after_adding_other label k b Hne) as Hb1.
      assert (Hfree1 : forall l, ODict.get k
                 (if ODict.mem label b then b else ODict.set label None b)
                 <> Some (Some l))
        by (intros l0; rewrite Hb1; apply Hfree).
      destruct (ODict.get label _) as [[l0|]|];
        try (eapply IH; [exact Hrun | exact Hk | exact Hfree1 | exact Hbody]).
      destruct (body label t0) as [[l0|]|e]; [| | discriminate Hrun].
      * eapply IH; [exact Hrun | exact Hk | | exact Hbody].
        intros l1. rewrite get_set_ne by exact Hne. apply Hfree1.
      * eapply IH; [exact Hrun | exact Hk | exact Hfree1 | exact Hbody].
Qed.

(** A loop that ends well, over a section whose body always renders a
    line, leaves every field of the section resolved. *)
Lemma fill_empty_header_lines_resolved {T}
    (body : string -> T -> result (option string)) (section : list (string * T))
    (k : string) (b b' : header_lines) :
  fill_empty_header_lines body section b = (Ok tt, b') ->
  (forall t, body k t <> Ok None) ->
  In k (ODict.keys section) ->
  exists line, ODict.get k b' = Some (Some line).
Proof.
  intros Hrun Hbody Hin.
  destruct (ODict.get k section) as [t|] eqn:Et.
  2:{ apply in_keys_mem in Hin. unfold ODict.mem in Hin. now rewrite Et in Hin. }
  destruct (ODict.get k b) as [[l|]|] eqn:Eb.
  - exists l. now apply (fill_empty_header_lines_kept_run _ _ _ _ _ Hrun).
  - destruct (fill_empty_header_lines_renders body section k t b b' Hrun Et)
      as (line & _ & Hline); [congruence | apply Hbody | eauto].
  - destruct (fill_empty_header_lines_renders body section k t b b' Hrun Et)
      as (line & _ & Hline); [congruence | apply Hbody | eauto].
Qed.

Lemma column_header_line_renders (doc : document) (label : string)
    (t : column_template) :
  column_header_line doc label t <> Ok None.
Proof.
  unfold column_header_line. destruct (py_format _ doc); cbn; [|discriminate].
  destruct (units t); discriminate.
Qed.

Lemma optional_header_line_renders (doc : document) (label : string)
    (t : optional_template) :
  optional_header_line doc label t <> Ok None.
Proof.
  unfold optional_header_line. destruct (py_format _ doc); cbn; discriminate.
Qed.

(** The four loops of [_update_header_lines_from_doc], when it ends well. *)
Lemma update_header_lines_run (template : xdi_template) (doc_name : string)
    (doc : document) (b b' : header_lines) :
  _update_header_lines_from_doc template doc_name doc b = (Ok tt, b') ->
  exists b1 b2 b3,
    fill_empty_header_lines (fun _ version => Ok (Some version)) (versions template) b
    = (Ok tt, b1) /\
    fill_empty_header_lines (column_header_line doc) (columns_section template) b1
    = (Ok tt, b2) /\
    fill_empty_header_lines (required_header_line doc_name doc)
      (required_headers template) b2 = (Ok tt, b3) /\
    fill_empty_header_lines (optional_header_line doc) (optional_headers template) b3
    = (Ok tt, b').
Proof.
  unfold _update_header_lines_from_doc. intros Hrun.
  apply bind_ok in Hrun as ([] & b1 & H1 & Hrun).
  apply bind_ok in Hrun as ([] & b2 & H2 & Hrun).
  apply bind_ok in Hrun as ([] & b3 & H3 & Hrun).
  exists b1, b2, b3. auto.
Qed.

(** An update that ends well leaves the fields of the versions, of the
    columns and of the optional headers resolved. *)
Lemma update_header_lines_resolved (template : xdi_template) (doc_name : string)
    (doc : document) (b b' : header_lines) (k : string) :
  _update_header_lines_from_doc template doc_name doc b = (Ok tt, b') ->
  In k (unconditional_labels template) ->
  exists line, ODict.get k b' = Some (Some line).
Proof.
  intros Hrun Hin.
  apply update_header_lines_run in Hrun as (b1 & b2 & b3 & H1 & H2 & H3 & H4).
  pose proof (fill_empty_header_lines_kept_run _ _ _ _ _ H2) as K1.
  pose proof (fill_empty_header_lines_kept_run _ _ _ _ _ H3) as K2.
  pose proof (fill_empty_header_lines_kept_run _ _ _ _ _ H4) as K3.
  unfold unconditional_labels in Hin. apply in_app_or in Hin as [Hin|Hin];
    [| apply in_app_or in Hin as [Hin|Hin]].
  - destruct (fill_empty_header_lines_resolved _ _ k _ _ H1) as [line Hline];
      [discriminate | exact Hin |].
    exists line. apply K3, K2, K1, Hline.
  - destruct (fill_empty_header_lines_resolved _ _ k _ _ H2) as [line Hline];
      [intros t; apply column_header_line_renders | exact Hin |].
    exists line. apply K3, K2, Hline.
  - apply (fill_empty_header_lines_resolved _ _ k _ _ H4);
      [intros t; apply optional_header_line_renders | exact Hin].
Qed.

(** The line of an optional header that no other section names and that
    was unresolved before. *)
Lemma update_header_lines_optional (template : xdi_template) (doc_name : string)
    (doc : document) (b b' : header_lines) (k : string) (t : optional_template) :
  _update_header_lines_from_doc template doc_name doc b = (Ok tt, b') ->
  ODict.get k (optional_headers template) = Some t ->
  (forall l, ODict.get k b <> Some (Some l)) ->
  ~ In k (ODict.keys (versions template) ++ ODict.keys (columns_section template)
          ++ ODict.keys (required_headers template))%list ->
  exists value,
    py_format (optional_data t) doc = Ok value /\
    ODict.get k b' = Some (Some (k ++ " = " ++ value)).
Proof.
  intros Hrun Ht Hfree Hout.
  apply update_header_lines_run in Hrun as (b1 & b2 & b3 & H1 & H2 & H3 & H4).
  rewrite !in_app_iff in Hout.
  assert (E1 : ODict.get k b1 = ODict.get k b)
    by (apply (fill_empty_header_lines_other_run _ _ _ _ _ _ H1); tauto).
  assert (E2 : ODict.get k b2 = ODict.get k b1)
    by (apply (fill_empty_header_lines_other_run _ _ _ _ _ _ H2); tauto).
  assert (E3 : ODict.get k b3 = ODict.get k b2)
    by (apply (fill_empty_header_lines_other_run _ _ _ _ _ _ H3); tauto).
  destruct (fill_empty_header_lines_renders _ _ k t _ _ H4 Ht) as (line & Hline & Hget).
  - rewrite E3, E2, E1. exact Hfree.
  - apply optional_header_line_renders.
  - unfold optional_header_line in Hline.
    destruct (py_format (optional_data t) doc) as [value|e]; [|discriminate Hline].
    cbn [rbind] in Hline. inversion Hline; subst line.
    exists value. split; [reflexivity | exact Hget].
Qed.

(** What a run-start that ends well has done to the header lines. *)
Lemma start_run (doc : document) (s s' : Serializer) :
  start doc s = (Ok tt, s') ->
  _update_header_lines_from_doc (_xdi_file_template s) "start" doc
    (_header_line_buffer s) = (Ok tt, _header_line_buffer s') /\
  exists prefix, _templated_file_prefix s' = Some prefix.
Proof.
  unfold start. intros Hrun.
  apply bind_ok in Hrun as ([] & s1 & Hinit & Hrun).
  assert (Hframe : only_column_data s s1).
  { assert (Hp : preserves only_column_data _initialize_column_data_dict).
    { unfold _initialize_column_data_dict.
      repeat first
        [ apply (preserves_gets only_column_data only_column_data_refl)
        | apply (preserves_modify only_column_data); intros ?; reflexivity
        | apply (preserves_bind only_column_data only_column_data_trans); [| intros ?]
        | apply (preserves_for_each only_column_data only_column_data_refl
                   only_column_data_trans); intros ? ]. }
    specialize (Hp s). now rewrite Hinit in Hp. }
  unfold only_column_data in Hframe.
  apply bind_ok in Hrun as (template & s2 & Ht & Hrun).
  cbn [gets] in Ht. inversion Ht; subst template s2; clear Ht.
  apply bind_ok in Hrun as ([] & s2 & Hupd & Hrun).
  unfold on_header_line_buffer in Hupd.
  destruct (_update_header_lines_from_doc (_xdi_file_template s1) "start" doc
              (_header_line_buffer s1)) as [r b'] eqn:Erun.
  cbn [fst snd] in Hupd. inversion Hupd; subst r s2; clear Hupd.
  apply bind_ok in Hrun as (fp & s2 & Hfp & Hrun).
  cbn [gets] in Hfp. inversion Hfp; subst fp s2; clear Hfp.
  apply bind_ok in Hrun as (prefix & s2 & Hpre & Hrun).
  unfold lift in Hpre. inversion Hpre as [[Hformat Hs2]]; subst s2; clear Hpre.
  cbn [modify] in Hrun. inversion Hrun; subst s'; clear Hrun.
  cbn [set_templated_file_prefix set_header_line_buffer _header_line_buffer
       _templated_file_prefix].
  split; [| eauto].
  rewrite Hframe in Erun.
  cbn [set_column_data _xdi_file_template _header_line_buffer] in Erun. exact Erun.
Qed.

(** A run-start that is handled without exception leaves a rendered line
    under every field of the template's versions, columns and optional
    headers.  For an optional header that no other section names and that
    was unresolved before, the line is the field name, [" = "] and the
    header's template filled in from the run-start document, with no
    leading ["# "]. *)
Theorem start_renders_unconditional_headers (doc : document) (s s' : Serializer) :
  start doc s = (Ok tt, s') ->
  (forall k, In k (unconditional_labels (_xdi_file_template s)) ->
     exists line, ODict.get k (_header_line_buffer s') = Some (Some line)) /\
  (forall k t,
     ODict.get k (optional_headers (_xdi_file_template s)) = Some t ->
     (forall l, ODict.get k (_header_line_buffer s) <> Some (Some l)) ->
     ~ In k (ODict.keys (versions (_xdi_file_template s))
             ++ ODict.keys (columns_section (_xdi_file_template s))
             ++ ODict.keys (required_headers (_xdi_file_template s)))%list ->
     exists value,
       py_format (optional_data t) doc = Ok value /\
       ODict.get k (_header_line_buffer s') = Some (Some (k ++ " = " ++ value))).
Proof.
  intros Hrun. apply start_run in Hrun as [Hupd _]. split.
  - intros k Hin. eapply update_header_lines_resolved; eassumption.
  - intros k t Ht Hfree Hout. eapply update_header_lines_optional; eassumption.
Qed.

(** *** The header of a file *)

(** Filling an unresolved field changes no entry that holds a line. *)
Lemma set_keeps_rendered (d : header_lines) (k : string) (v : option string)
    (i : nat) (entry : string * option string) :
  ODict.get k d = Some None ->
  (exists line, entry.2 = Some line) ->
  nth_error d i = Some entry ->
  nth_error (ODict.set k v d) i = Some entry.
Proof.
  revert i. induction d as [|[k0 v0] d IH]; intros i Hget [line Hline] Hnth.
  - now destruct i.
  - cbn [ODict.get ODict.set] in *. destruct (String.eqb k k0).
    + destruct i as [|i]; [|exact Hnth].
      cbn in Hnth. inversion Hnth; subst entry. cbn in Hline. congruence.
    + destruct i as [|i]; [exact Hnth|]. cbn [nth_error] in *. apply IH; eauto.
Qed.

Lemma set_length_present (d : header_lines) (k : string) (v v' : option string) :
  ODict.get k d = Some v' -> length (ODict.set k v d) = length d.
Proof.
  induction d as [|[k0 v0] d IH]; cbn [ODict.get ODict.set]; [discriminate|].
  destruct (String.eqb k k0); [reflexivity|]. intros Hg. cbn [length]. now rewrite IH.
Qed.

(** The merged header lines have one entry for each entry of the header
    buffer, and an entry of the buffer that holds a line is as it was. *)
Lemma combine_header_line_buffers_rendered (ev hb combined : header_lines) :
  combine_header_line_buffers ev hb = Ok combined ->
  length combined = length hb /\
  forall i k line,
    nth_error hb i = Some (k, Some line) -> nth_error combined i = Some (k, Some line).
Proof.
  revert hb. induction ev as [|[k v] ev IH]; intros hb Hrun; cbn in Hrun.
  - inversion Hrun. split; [reflexivity | auto].
  - destruct (ODict.get k hb) as [[l|]|] eqn:Ek; [| | discriminate Hrun].
    + now apply IH.
    + apply IH in Hrun as [Hlen Hnth]. split.
      * rewrite Hlen. eapply set_length_present, Ek.
      * intros i k' line Hi. apply Hnth.
        apply set_keeps_rendered; [exact Ek | cbn; eauto | exact Hi].
Qed.

(** A primary page that ends well. *)
Lemma primary_event_page_run (now : string) (doc : document) (s s' : Serializer) :
  (stream_name_of doc s).1 = Ok (PyStr "primary") ->
  event_page now doc s = (Ok tt, s') ->
  exists seq_num,
    getitem doc "seq_num" = Ok seq_num /\
    _event_page_primary now doc (set_scan_number (Some seq_num) s) = (Ok tt, s').
Proof.
  intros Hname Hrun.
  rewrite (event_page_on_stream now doc s _ Hname) in Hrun.
  change (is_stream (PyStr "primary") "row_ends") with false in Hrun.
  change (is_stream (PyStr "primary") "energy_bins") with false in Hrun.
  change (is_stream (PyStr "primary") "primary") with true in Hrun.
  cbn iota in Hrun.
  destruct (getitem doc "seq_num") as [seq_num|e]; [| discriminate Hrun].
  exists seq_num. split; [reflexivity | exact Hrun].
Qed.

Lemma primary_run_header (now : string) (doc : document) (s s' : Serializer) :
  _event_page_primary now doc s = (Ok tt, s') ->
  exists filename lines rows,
    files s' = (files s ++ [(filename, (header_chunks lines (columns s) ++ rows)%list)])%list /\
    length lines = length (_header_line_buffer s) /\
    forall i k line,
      nth_error (_header_line_buffer s) i = Some (k, Some line) ->
      nth_error lines i = Some line.
Proof.
  intros Hrun.
  apply event_page_primary_run in Hrun
    as (s1 & number & first & prefix & ev & combined & lines & column_values
        & Hupd & _ & _ & _ & _ & Hcomb & Hlines & _ & ->).
  pose proof (update_data_columns_frame doc s) as Hframe.
  rewrite Hupd in Hframe. cbn [snd] in Hframe. unfold only_column_data in Hframe.
  assert (Hfiles : files s1 = files s) by (rewrite Hframe; reflexivity).
  assert (Hcols : columns s1 = columns s) by (rewrite Hframe; reflexivity).
  assert (Hhb : _header_line_buffer s1 = _header_line_buffer s)
    by (rewrite Hframe; reflexivity).
  rewrite Hhb in Hcomb.
  apply combine_header_line_buffers_rendered in Hcomb as [Hlen Hnth].
  exists (prefix ++ py_str first ++ "-" ++ now ++ ".xdi"), lines,
    (row_chunks (data_rows column_values)).
  cbn [set_files files]. rewrite Hfiles, Hcols. split; [reflexivity|]. split.
  - rewrite <- Hlen. apply (f_equal (@length _)) in Hlines.
    now rewrite !length_map in Hlines.
  - intros i k line Hi. apply Hnth in Hi.
    apply (f_equal (fun l => nth_error l i)) in Hlines.
    rewrite !nth_error_map, Hi in Hlines. cbn in Hlines.
    destruct (nth_error lines i); cbn in Hlines; congruence.
Qed.

(** The header of the file a primary page writes has one line for each
    field of the header-line buffer, in the order of the buffer, and the
    line of a field that the buffer has resolved is the line of the buffer:
    what the row's pages captured goes only into unresolved fields. *)
Theorem primary_page_keeps_rendered_lines (now : string) (doc : document)
    (s s' : Serializer) :
  (stream_name_of doc s).1 = Ok (PyStr "primary") ->
  event_page now doc s = (Ok tt, s') ->
  exists filename lines rows,
    files s' = (files s ++ [(filename, (header_chunks lines (columns s) ++ rows)%list)])%list /\
    length lines = length (_header_line_buffer s) /\
    forall i k line,
      nth_error (_header_line_buffer s) i = Some (k, Some line) ->
      nth_error lines i = Some line.
Proof.
  intros Hname Hrun.
  apply primary_event_page_run in Hrun as (seq_num & _ & Hrun); [|exact Hname].
  apply primary_run_header in Hrun. exact Hrun.
Qed.

(** *** Optional headers in the files of an export *)

Lemma call_header_kept (name : doc_kind) (now : string) (doc : document) :
  preserves header_kept (call name now doc).
Proof.
  destruct name; cbn [call].
  - apply start_kept.
  - apply descriptor_kept.
  - apply event_page_kept.
  - apply (preserves_ret header_kept header_kept_refl).
Qed.

Lemma get_nth_error {V} (d : list (string * V)) (k : string) (v : V) :
  ODict.get k d = Some v -> exists i, nth_error d i = Some (k, v).
Proof.
  induction d as [|[k0 v0] d IH]; cbn [ODict.get]; [discriminate|].
  destruct (String.eqb_spec k k0) as [->|Hne].
  - intros Hv. inversion Hv; subst v0. now exists 0%nat.
  - intros Hv. destruct (IH Hv) as [i Hi]. now exists (S i).
Qed.

Lemma in_header_chunks (line : string) (lines : list string)
    (cols : list column_template) :
  In line lines -> In line (header_chunks lines cols).
Proof.
  intros Hin. unfold header_chunks. apply in_or_app. left.
  apply in_flat_map. exists line. split; [exact Hin | now left].
Qed.

(** A document that is handled without exception, on a serializer that
    holds [line] under the field [k] and whose files all carry [line]. *)
Lemma call_ok_keeps_line (k line : string) (name : doc_kind) (now : string)
    (doc : document) (s s' : Serializer) :
  ODict.get k (_header_line_buffer s) = Some (Some line) /\
  Forall (fun f : xdi_file => In line f.2) (files s) ->
  call name now doc s = (Ok tt, s') ->
  ODict.get k (_header_line_buffer s') = Some (Some line) /\
  Forall (fun f : xdi_file => In line f.2) (files s').
Proof.
  intros [Hline Hfiles] Hrun. split.
  - pose proof (call_header_kept name now doc s) as Hkept.
    rewrite Hrun in Hkept. now apply Hkept.
  - assert (Hsame : same_files s s' -> Forall (fun f : xdi_file => In line f.2) (files s'))
      by (intros Hs; now rewrite Hs).
    destruct name; cbn [call] in Hrun.
    + apply Hsame. pose proof (start_same_files doc s) as Hs. now rewrite Hrun in Hs.
    + apply Hsame. pose proof (descriptor_same_files doc s) as Hs. now rewrite Hrun in Hs.
    + destruct (event_page_cases now doc s) as [Hs|(seq_num & _ & _ & Hprim)].
      * apply Hsame. now rewrite Hrun in Hs.
      * rewrite Hprim in Hrun.
        apply primary_run_header in Hrun as (filename & lines & rows & Hnew & _ & Hnth).
        cbn [set_scan_number files columns _header_line_buffer] in Hnew, Hnth.
        rewrite Hnew. apply Forall_app. split; [exact Hfiles|].
        constructor; [|constructor]. cbn [snd].
        destruct (get_nth_error _ _ _ Hline) as [i Hi].
        apply in_or_app. left. apply in_header_chunks.
        eapply nth_error_In, Hnth, Hi.
    + inversion Hrun. now subst.
Qed.

(** When [export] returns for a stream that begins with a run-start, every
    artifact carries, for an optional header of the template that no other
    section names, the line made of the field name, [" = "] and the
    header's template filled in from that run-start document. *)
Theorem export_optional_header_from_run_start (now : string) (doc : document)
    (gen : list (doc_kind * string * document)) (file_prefix : string)
    (template : xdi_template)
    (transforms : option (gmap string (document -> result pyval)))
    (artifacts : list xdi_file) (k : string) (t : optional_template) :
  export ((StartDoc, now, doc) :: gen) file_prefix (Some template) transforms
  = Ok artifacts ->
  ODict.get k (optional_headers template) = Some t ->
  ~ In k (ODict.keys (versions template) ++ ODict.keys (columns_section template)
          ++ ODict.keys (required_headers template))%list ->
  exists value,
    py_format (optional_data t) doc = Ok value /\
    Forall (fun f : xdi_file => In (k ++ " = " ++ value) f.2) artifacts.
Proof.
  unfold export. intros Hrun Ht Hout.
  destruct (__init__ file_prefix (Some template) transforms) as [s0|e] eqn:Hinit;
    [|discriminate Hrun].
  cbn [rbind] in Hrun.
  destruct (feed ((StartDoc, now, doc) :: gen) s0) as [[[]|e] s'] eqn:Hfeed;
    [|discriminate Hrun].
  inversion Hrun; subst artifacts.
  apply init_state in Hinit as (t0 & Ht0 & Htpl & _ & Hhb & _ & _ & _ & Hfiles & _).
  injection Ht0 as Ht0. subst t0.
  unfold feed in Hfeed. cbn [for_each] in Hfeed.
  apply bind_ok in Hfeed as ([] & s1 & Hstart & Hrest). cbn [fst snd call] in Hstart.
  pose proof (start_same_files doc s0) as Hfiles1.
  rewrite Hstart in Hfiles1. cbn [snd] in Hfiles1. unfold same_files in Hfiles1.
  apply start_run in Hstart as [Hupd _]. rewrite Htpl in Hupd.
  destruct (update_header_lines_optional _ _ _ _ _ k t Hupd) as (value & Hvalue & Hline);
    [exact Ht | intros l; rewrite Hhb; discriminate | exact Hout |].
  exists value. split; [exact Hvalue|].
  apply (feed_ok_invariant
           (fun s => ODict.get k (_header_line_buffer s) = Some (Some (k ++ " = " ++ value)) /\
                     Forall (fun f : xdi_file => In (k ++ " = " ++ value) f.2) (files s)))
    with (docs := gen) (s := s1) (s' := s').
  - intros name now' doc' s s2. apply call_ok_keeps_line.
  - split; [exact Hline|]. rewrite Hfiles1, Hfiles. constructor.
  - exact Hrest.
Qed.

(** *** A header that no handler resolves *)

(** The merge leaves a field unresolved when the event-page buffer has no
    line for it. *)
Lemma combine_keeps_unresolved (ev hb combined : header_lines) (k : string) :
  combine_header_line_buffers ev hb = Ok combined ->
  ODict.get k hb = Some None ->
  (forall line, ~ In (k, Some line) ev) ->
  ODict.get k combined = Some None.
Proof.
  revert hb. induction ev as [|[k0 v] ev IH]; intros hb Hrun Hk Hev; cbn in Hrun.
  - inversion Hrun. now subst.
  - assert (Hrest : forall line, ~ In (k, Some line) ev)
      by (intros line Hin; apply (Hev line); now right).
    destruct (ODict.get k0 hb) as [[l|]|] eqn:Ek0; [| | discriminate Hrun].
    + now apply (IH hb).
    + apply (IH _ Hrun); [| exact Hrest].
      destruct (String.eqb_spec k k0) as [->|Hne].
      * rewrite get_set_eq. destruct v as [line|]; [|reflexivity].
        destruct (Hev line). now left.
      * now rewrite get_set_ne.
Qed.

Lemma get_in_values {V} (d : list (string * V)) (k : string) (v : V) :
  ODict.get k d = Some v -> In v (map snd d).
Proof.
  intros Hget. destruct (get_nth_error d k v Hget) as [i Hi].
  apply nth_error_In in Hi. now apply (in_map snd) in Hi.
Qed.

(** A primary page cannot end well while the header buffer has an
    unresolved field for which the event-page buffer has no line: the
    header value written is [None]. *)
Lemma primary_page_unresolved_field (now : string) (doc : document)
    (s s' : Serializer) (k : string) :
  ODict.get k (_header_line_buffer s) = Some None ->
  (forall ev line, _event_page_header_line_buffer s = Some ev -> ~ In (k, Some line) ev) ->
  _event_page_primary now doc s <> (Ok tt, s').
Proof.
  intros Hk Hev Hrun.
  apply event_page_primary_run in Hrun
    as (s1 & number & first & prefix & ev & combined & lines & column_values
        & Hupd & _ & _ & _ & Hev1 & Hcomb & Hlines & _).
  pose proof (update_data_columns_frame doc s) as Hframe.
  rewrite Hupd in Hframe. cbn [snd] in Hframe. unfold only_column_data in Hframe.
  rewrite Hframe in Hev1, Hcomb.
  cbn [set_column_data _event_page_header_line_buffer _header_line_buffer]
    in Hev1, Hcomb.
  pose proof (combine_keeps_unresolved _ _ _ k Hcomb Hk (fun line => Hev ev line Hev1))
    as Hnone.
  apply get_in_values in Hnone. rewrite Hlines in Hnone.
  apply in_map_iff in Hnone as (line & Hline & _). discriminate Hline.
Qed.

(** A loop whose body renders nothing for the field [k] leaves it
    unresolved; and the field is there once the loop has ended well. *)
Lemma fill_empty_header_lines_unresolved {T}
    (body : string -> T -> result (option string)) (section : list (string * T))
    (k : string) (b b' : header_lines) :
  fill_empty_header_lines body section b = (Ok tt, b') ->
  (forall t, In (k, t) section -> body k t = Ok None) ->
  (forall line, ODict.get k b <> Some (Some line)) ->
  (forall line, ODict.get k b' <> Some (Some line)) /\
  (In k (ODict.keys section) \/ ODict.get k b = Some None -> ODict.get k b' = Some None).
Proof.
  revert b. induction section as [|[label t0] section IH]; intros b Hrun Hbody Hfree.
  - inversion Hrun; subst b'. split; [exact Hfree|]. intros [[]|Hb]. exact Hb.
  - rewrite fill_empty_header_lines_cons in Hrun. cbv zeta in Hrun.
    assert (Hbody' : forall t, In (k, t) section -> body k t = Ok None)
      by (intros t Ht; apply Hbody; now right).
    destruct (String.eqb_spec k label) as [<-|Hne].
    + pose proof (get_after_adding k b Hfree) as Hb1.
      match type of Hrun with
      | context [ODict.get k ?x] =>
          assert (Hb1' : ODict.get k x = Some None) by exact Hb1;
          rewrite Hb1' in Hrun
      end.
      rewrite (Hbody t0) in Hrun by now left.
      assert (Hf : forall line, ODict.get k
                 (if ODict.mem k b then b else ODict.set k None b) <> Some (Some line))
        by (intros line; rewrite Hb1; discriminate).
      destruct (IH _ Hrun Hbody' Hf) as [Hfree' Hthere].
      split; [exact Hfree'|]. intros _. apply Hthere. right. exact Hb1.
    + pose proof (get_after_adding_other label k b Hne) as Hb1.
      assert (Hfree1 : forall l, ODict.get k
                 (if ODict.mem label b then b else ODict.set label None b)
                 <> Some (Some l))
        by (intros l0; rewrite Hb1; apply Hfree).
      assert (Hkeys : In k (ODict.keys ((label, t0) :: section)) \/ ODict.get k b = Some None ->
                      In k (ODict.keys section) \/ ODict.get k b = Some None).
      { intros [[Heq|Hin]|Hb]; [now destruct Hne | now left | now right]. }
      destruct (ODict.get label _) as [[l0|]|].
      * destruct (IH _ Hrun Hbody' Hfree1) as [Hfree' Hthere].
        split; [exact Hfree'|]. intros Hin. apply Hthere.
        destruct (Hkeys Hin) as [Hs|Hb]; [now left | right; exact (eq_trans Hb1 Hb)].
      * destruct (body label t0) as [[l0|]|e]; [| | discriminate Hrun].
        -- destruct (IH _ Hrun Hbody') as [Hfree' Hthere].
           { intros l1. rewrite get_set_ne by exact Hne. apply Hfree1. }
           split; [exact Hfree'|]. intros Hin. apply Hthere.
           destruct (Hkeys Hin) as [Hs|Hb]; [now left|].
           right. rewrite get_set_ne by exact Hne. exact (eq_trans Hb1 Hb).
        -- destruct (IH _ Hrun Hbody' Hfree1) as [Hfree' Hthere].
           split; [exact Hfree'|]. intros Hin. apply Hthere.
           destruct (Hkeys Hin) as [Hs|Hb]; [now left | right; exact (eq_trans Hb1 Hb)].
      * destruct (IH _ Hrun Hbody' Hfree1) as [Hfree' Hthere].
        split; [exact Hfree'|]. intros Hin. apply Hthere.
        destruct (Hkeys Hin) as [Hs|Hb]; [now left | right; exact (eq_trans Hb1 Hb)].
Qed.

(** An update from a run-start or a descriptor that ends well leaves a
    field that no handler supplies in the buffer, unresolved. *)
Lemma update_header_lines_unresolved (template : xdi_template) (doc_name : string)
    (doc : document) (b b' : header_lines) (k : string) :
  supplied_by_no_handler template k ->
  doc_name = "start" \/ doc_name = "descriptor" ->
  _update_header_lines_from_doc template doc_name doc b = (Ok tt, b') ->
  (forall line, ODict.get k b <> Some (Some line)) ->
  ODict.get k b' = Some None.
Proof.
  intros (Hin & Hcons & Hout & _ & _) Hname Hrun Hfree.
  apply update_header_lines_run in Hrun as (b1 & b2 & b3 & H1 & H2 & H3 & H4).
  unfold unconditional_labels in Hout. rewrite !in_app_iff in Hout.
  assert (E1 : ODict.get k b1 = ODict.get k b)
    by (apply (fill_empty_header_lines_other_run _ _ _ _ _ _ H1); tauto).
  assert (E2 : ODict.get k b2 = ODict.get k b1)
    by (apply (fill_empty_header_lines_other_run _ _ _ _ _ _ H2); tauto).
  assert (E4 : ODict.get k b' = ODict.get k b3)
    by (apply (fill_empty_header_lines_other_run _ _ _ _ _ _ H4); tauto).
  rewrite E4.
  apply (fill_empty_header_lines_unresolved _ _ k _ _ H3).
  - intros t Ht. destruct (Hcons t Ht) as (c & Hc & Hstart & Hdesc).
    unfold required_header_line. rewrite Hc. cbn [orb].
    destruct (String.eqb_spec doc_name c) as [<-|Hne]; [|reflexivity].
    destruct Hname; congruence.
  - intros line. rewrite E2, E1. apply Hfree.
  - now left.
Qed.

Lemma same_headers_refl (s : Serializer) : same_headers s s.
Proof. repeat split. Qed.

Lemma same_headers_trans (s1 s2 s3 : Serializer) :
  same_headers s1 s2 -> same_headers s2 s3 -> same_headers s1 s3.
Proof.
  intros (H1 & H2 & H3) (H4 & H5 & H6). repeat split; congruence.
Qed.

Ltac same_headers_step :=
  first
    [ apply (preserves_ret same_headers same_headers_refl)
    | apply (preserves_raise same_headers same_headers_refl)
    | apply (preserves_lift same_headers same_headers_refl)
    | apply (preserves_gets same_headers same_headers_refl)
    | apply (preserves_modify same_headers); intros ?;
      split; [reflexivity | split; reflexivity]
    | apply (preserves_bind same_headers same_headers_trans); [| intros ?]
    | apply (preserves_for_each same_headers same_headers_refl same_headers_trans);
      intros ?
    | match goal with
      | |- preserves _ (match ?x with _ => _ end) => destruct x
      end ].

(** An event-page changes neither the header lines, nor the templated
    prefix, nor the template. *)
Lemma event_page_same_headers (now : string) (doc : document) :
  preserves same_headers (event_page now doc).
Proof.
  unfold event_page, stream_name_of, _event_page_begin_row, _event_page_end_row,
    _event_page_energy_bins, store_event_page_header, _event_page_primary,
    _update_data_columns_from_doc, update_column, store_column,
    open_file, _write_header, write_rows, write_value, write.
  repeat same_headers_step.
Qed.

Lemma in_set {V} (d : list (string * V)) (k k0 : string) (v v0 : V) :
  In (k, v) (ODict.set k0 v0 d) -> (k, v) = (k0, v0) \/ In (k, v) d.
Proof.
  induction d as [|[k1 v1] d IH]; cbn [ODict.set].
  - intros [Heq|[]]. now left.
  - destruct (String.eqb k0 k1).
    + intros [Heq|Hin]; [now left | right; now right].
    + intros [Heq|Hin]; [right; now left|].
      destruct (IH Hin) as [Heq|Hin']; [now left | right; now right].
Qed.

Lemma event_page_primary_same_event_buffer (now : string) (doc : document) :
  preserves same_event_page_buffer (_event_page_primary now doc).
Proof.
  assert (Hrefl : forall s, same_event_page_buffer s s) by reflexivity.
  assert (Htrans : forall s1 s2 s3, same_event_page_buffer s1 s2 ->
             same_event_page_buffer s2 s3 -> same_event_page_buffer s1 s3)
    by (unfold same_event_page_buffer; congruence).
  unfold _event_page_primary, _update_data_columns_from_doc, update_column,
    store_column, open_file, _write_header, write_rows, write_value, write.
  repeat first
    [ apply (preserves_ret _ Hrefl) | apply (preserves_raise _ Hrefl)
    | apply (preserves_lift _ Hrefl) | apply (preserves_gets _ Hrefl)
    | apply (preserves_modify same_event_page_buffer); intros ?; reflexivity
    | apply (preserves_bind _ Htrans); [| intros ?]
    | apply (preserves_for_each _ Hrefl Htrans); intros ?
    | match goal with
      | |- preserves _ (match ?x with _ => _ end) => destruct x
      end ].
Qed.

(** The event-page buffer has lines only under the two fields the row's
    pages store. *)
Lemma event_page_buffer_lines (now : string) (doc : document) (s : Serializer)
    (k : string) :
  k <> "Scan.start_time" -> k <> "Scan_time.end" ->
  (forall ev line, _event_page_header_line_buffer s = Some ev -> ~ In (k, Some line) ev) ->
  forall ev line,
    _event_page_header_line_buffer (event_page now doc s).2 = Some ev ->
    ~ In (k, Some line) ev.
Proof.
  intros Hstart Hend Hinv.
  assert (Hkeep : forall s1 : Serializer,
             _event_page_header_line_buffer s1 = _event_page_header_line_buffer s ->
             forall ev line, _event_page_header_line_buffer s1 = Some ev ->
                             ~ In (k, Some line) ev).
  { intros s1 Hs1 ev line Hev. apply Hinv. now rewrite <- Hs1. }
  assert (Hstore : forall (field iso : string) (s0 : Serializer),
             field <> k ->
             (forall ev line, _event_page_header_line_buffer s0 = Some ev ->
                              ~ In (k, Some line) ev) ->
             forall ev line,
               _event_page_header_line_buffer (store_event_page_header field iso s0).2
               = Some ev -> ~ In (k, Some line) ev).
  { intros field iso s0 Hfield H0 ev line. unfold store_event_page_header. run_monad.
    destruct (_event_page_header_line_buffer s0) as [b|] eqn:Eb; cbn.
    - intros Hev Hin. inversion Hev; subst ev.
      apply in_set in Hin as [Heq|Hin]; [congruence | exact (H0 b line eq_refl Hin)].
    - rewrite Eb. discriminate. }
  destruct (stream_name_of doc s) as [[name|e] s1] eqn:Hname.
  2:{ unfold event_page.
      change ((stream_name_of doc ≫= ?f) s) with
        (match stream_name_of doc s with
         | (Ok a, s') => f a s'
         | (Raise e, s') => (Raise e, s')
         end).
      pose proof (stream_name_of_pure doc s) as Hpure.
      rewrite Hname in *. cbn in *. subst s1. exact Hinv. }
  rewrite (event_page_on_stream now doc s name) by now rewrite Hname.
  destruct (is_stream name "row_ends").
  - rewrite bind_run. cbn [gets].
    destruct (length (_row_end_docs s) =? 0)%nat.
    + rewrite bind_run. cbn [modify].
      unfold _event_page_begin_row. rewrite bind_run. cbn [gets].
      rewrite bind_run. cbn [modify]. rewrite bind_run. cbn [gets].
      cbn [set_event_page_header_line_buffer set_row_end_docs _xdi_file_template
           _header_line_buffer].
      match goal with
      | |- context [set_event_page_header_line_buffer (Some ?b) ?st] =>
          set (s2 := set_event_page_header_line_buffer (Some b) st);
          assert (H2 : forall ev line, _event_page_header_line_buffer s2 = Some ev ->
                                       ~ In (k, Some line) ev)
      end.
      { intros ev line Hev Hin. cbn in Hev. inversion Hev; subst ev.
        apply filter_In in Hin as [_ Hnone]. discriminate Hnone. }
      destruct (ODict.mem "Scan.start_time" _); [| exact H2].
      rewrite bind_run. unfold lift at 1.
      destruct (getitem doc "time") as [t|e]; [| exact H2].
      rewrite bind_run. unfold lift at 1.
      destruct (fromtimestamp_isoformat t) as [iso|e]; [| exact H2].
      apply Hstore; [congruence | exact H2].
    + destruct (length (_row_end_docs s) =? 1)%nat; [| exact Hinv].
      rewrite bind_run.
      assert (Hend_row : forall ev line,
                 _event_page_header_line_buffer (_event_page_end_row doc s).2 = Some ev ->
                 ~ In (k, Some line) ev).
      { unfold _event_page_end_row. rewrite bind_run. cbn [gets].
        destruct (ODict.mem "Scan.end_time" _); [| exact Hinv].
        rewrite bind_run. unfold lift at 1.
        destruct (getitem doc "time") as [t|e]; [| exact Hinv].
        rewrite bind_run. unfold lift at 1.
        destruct (fromtimestamp_isoformat t) as [iso|e]; [| exact Hinv].
        apply Hstore; [congruence | exact Hinv]. }
      destruct (_event_page_end_row doc s) as [[[]|e] s2]; cbn in *; exact Hend_row.
  - destruct (is_stream name "energy_bins").
    + apply Hkeep. unfold _event_page_energy_bins.
      pose proof (update_data_columns_frame doc s) as Hframe.
      unfold only_column_data in Hframe. rewrite Hframe. reflexivity.
    + destruct (is_stream name "primary"); [| exact Hinv].
      destruct (getitem doc "seq_num") as [seq_num|e]; [| exact Hinv].
      change ((lift (Ok seq_num) ≫= _) s)
        with (_event_page_primary now doc (set_scan_number (Some seq_num) s)).
      apply Hkeep.
      apply (event_page_primary_same_event_buffer now doc
               (set_scan_number (Some seq_num) s)).
Qed.

Lemma start_same_event_buffer (doc : document) :
  preserves same_event_page_buffer (start doc).
Proof.
  assert (Hrefl : forall s, same_event_page_buffer s s) by reflexivity.
  assert (Htrans : forall s1 s2 s3, same_event_page_buffer s1 s2 ->
             same_event_page_buffer s2 s3 -> same_event_page_buffer s1 s3)
    by (unfold same_event_page_buffer; congruence).
  unfold start, _initialize_column_data_dict.
  repeat first
    [ apply (preserves_lift _ Hrefl) | apply (preserves_gets _ Hrefl)
    | apply (preserves_modify same_event_page_buffer); intros ?; reflexivity
    | apply (preserves_bind _ Htrans); [| intros ?]
    | apply (preserves_for_each _ Hrefl Htrans); intros ?
    | match goal with
      | |- preserves _ (on_header_line_buffer _) => intros ?; reflexivity
      end ].
Qed.

(** What a descriptor that ends well has done to the header lines. *)
Lemma descriptor_run (doc : document) (s s' : Serializer) :
  descriptor doc s = (Ok tt, s') ->
  _update_header_lines_from_doc (_xdi_file_template s) "descriptor" doc
    (_header_line_buffer s) = (Ok tt, _header_line_buffer s') /\
  _templated_file_prefix s' = _templated_file_prefix s /\
  _event_page_header_line_buffer s' = _event_page_header_line_buffer s.
Proof.
  unfold descriptor. intros Hrun.
  apply bind_ok in Hrun as (uid & s1 & Huid & Hrun).
  unfold lift in Huid. inversion Huid as [[Hu Hs1]]; subst s1; clear Huid.
  apply bind_ok in Hrun as (key & s1 & Hkey & Hrun).
  unfold lift in Hkey. inversion Hkey as [[Hk Hs1]]; subst s1; clear Hkey.
  apply bind_ok in Hrun as ([] & s1 & Hmod & Hrun).
  cbn [modify] in Hmod. inversion Hmod; subst s1; clear Hmod.
  apply bind_ok in Hrun as (template & s1 & Ht & Hrun).
  cbn [gets] in Ht. inversion Ht; subst template s1; clear Ht.
  unfold on_header_line_buffer in Hrun.
  cbn [set_uid_to_descriptor _xdi_file_template _header_line_buffer] in Hrun.
  destruct (_update_header_lines_from_doc (_xdi_file_template s) "descriptor" doc
              (_header_line_buffer s)) as [r b'] eqn:Erun.
  cbn [fst snd] in Hrun. inversion Hrun; subst r s'. cbn. auto.
Qed.

(** A document that is handled without exception, on a serializer that
    has written no file and whose template has a required header that no
    handler supplies. *)
Lemma call_ok_writes_nothing (template : xdi_template) (k : string)
    (name : doc_kind) (now : string) (doc : document) (s s' : Serializer) :
  supplied_by_no_handler template k ->
  (_xdi_file_template s = template /\
   (forall line, ODict.get k (_header_line_buffer s) <> Some (Some line)) /\
   (forall ev line, _event_page_header_line_buffer s = Some ev -> ~ In (k, Some line) ev) /\
   (_templated_file_prefix s <> None -> ODict.get k (_header_line_buffer s) = Some None) /\
   files s = []) ->
  call name now doc s = (Ok tt, s') ->
  _xdi_file_template s' = template /\
  (forall line, ODict.get k (_header_line_buffer s') <> Some (Some line)) /\
  (forall ev line, _event_page_header_line_buffer s' = Some ev -> ~ In (k, Some line) ev) /\
  (_templated_file_prefix s' <> None -> ODict.get k (_header_line_buffer s') = Some None) /\
  files s' = [].
Proof.
  intros Hk (Htpl & Hfree & Hev & Hpre & Hfiles) Hrun.
  assert (Htpl' : _xdi_file_template s' = template).
  { destruct (call_column_order_kept name now doc s) as (Ht & _).
    rewrite Hrun in Ht. cbn [snd] in Ht. congruence. }
  split; [exact Htpl'|].
  destruct name; cbn [call] in Hrun.
  - pose proof (start_same_files doc s) as Hf.
    pose proof (start_same_event_buffer doc s) as He.
    rewrite Hrun in Hf, He. cbn [snd] in Hf, He.
    apply start_run in Hrun as [Hupd _]. rewrite Htpl in Hupd.
    pose proof (update_header_lines_unresolved _ _ _ _ _ k Hk (or_introl eq_refl)
                  Hupd Hfree) as Hnone.
    split; [intros line; rewrite Hnone; discriminate|].
    split; [intros ev line; rewrite He; apply Hev|].
    split; [intros _; exact Hnone | now rewrite Hf].
  - pose proof (descriptor_same_files doc s) as Hf.
    rewrite Hrun in Hf. cbn [snd] in Hf.
    apply descriptor_run in Hrun as (Hupd & Hp & He). rewrite Htpl in Hupd.
    pose proof (update_header_lines_unresolved _ _ _ _ _ k Hk (or_intror eq_refl)
                  Hupd Hfree) as Hnone.
    split; [intros line; rewrite Hnone; discriminate|].
    split; [intros ev line; rewrite He; apply Hev|].
    split; [intros _; exact Hnone | now rewrite Hf].
  - destruct Hk as (_ & _ & _ & Hstart & Hend).
    pose proof (event_page_same_headers now doc s) as (Hhb & Hp & _).
    pose proof (event_page_buffer_lines now doc s k Hstart Hend Hev) as Hev'.
    rewrite Hrun in Hhb, Hp, Hev'. cbn [snd] in Hhb, Hp, Hev'.
    split; [intros line; rewrite Hhb; apply Hfree|].
    split; [exact Hev'|].
    split; [rewrite Hhb, Hp; exact Hpre|].
    destruct (event_page_cases now doc s) as [Hs|(seq_num & _ & _ & Hprim)].
    + rewrite Hrun in Hs. cbn [snd] in Hs. now rewrite Hs.
    + rewrite Hprim in Hrun. exfalso.
      pose proof Hrun as Hrun'.
      apply event_page_primary_run in Hrun'
        as (s1 & number & first & prefix & ev & combined & lines & column_values
            & Hupd & _ & _ & Hprefix & _).
      pose proof (update_data_columns_frame doc (set_scan_number (Some seq_num) s))
        as Hframe.
      rewrite Hupd in Hframe. cbn [snd] in Hframe. unfold only_column_data in Hframe.
      rewrite Hframe in Hprefix. cbn in Hprefix.
      apply (primary_page_unresolved_field now doc (set_scan_number (Some seq_num) s)
               s' k); [| exact Hev | exact Hrun].
      cbn. apply Hpre. congruence.
  - inversion Hrun; subst s'. auto.
Qed.

(** A template with a required header that only a document other than a
    run-start or a descriptor may supply (a ["stop"], say) never gives a
    file: the field stays unresolved, so every primary page raises, and
    when [export] returns it returns no artifact. *)
Theorem export_blocked_by_unsupplied_header
    (gen : list (doc_kind * string * document)) (file_prefix : string)
    (template : xdi_template)
    (transforms : option (gmap string (document -> result pyval)))
    (artifacts : list xdi_file) (k : string) :
  supplied_by_no_handler template k ->
  export gen file_prefix (Some template) transforms = Ok artifacts ->
  artifacts = [].
Proof.
  unfold export. intros Hk Hrun.
  destruct (__init__ file_prefix (Some template) transforms) as [s0|e] eqn:Hinit;
    [|discriminate Hrun].
  cbn [rbind] in Hrun.
  destruct (feed gen s0) as [[[]|e] s'] eqn:Hfeed; [|discriminate Hrun].
  inversion Hrun; subst artifacts.
  apply init_state in Hinit
    as (t0 & Ht0 & Htpl & _ & Hhb & Hevb & _ & _ & Hfiles & Hprefix & _).
  injection Ht0 as Ht0. subst t0.
  apply (feed_ok_invariant
           (fun s =>
              _xdi_file_template s = template /\
              (forall line, ODict.get k (_header_line_buffer s) <> Some (Some line)) /\
              (forall ev line, _event_page_header_line_buffer s = Some ev ->
                               ~ In (k, Some line) ev) /\
              (_templated_file_prefix s <> None ->
               ODict.get k (_header_line_buffer s) = Some None) /\
              files s = []))
    with (docs := gen) (s := s0) (s' := s').
  - intros name now doc s s1. now apply call_ok_writes_nothing.
  - split; [exact Htpl|]. split; [intros line; rewrite Hhb; discriminate|].
    split; [intros ev line; rewrite Hevb; discriminate|].
    split; [intros Hne; now rewrite Hprefix in Hne | exact Hfiles].
  - exact Hfeed.
Qed.

(** *** What a page stores in the column buffer *)

Lemma update_column_other (doc : document) (data : pyval) (c : column_template)
    (s : Serializer) (k : string) :
  getitem doc "data" = Ok data ->
  k <> data_key c \/ contains data k <> Ok true ->
  ODict.get k (_column_data (update_column doc c s).2) = ODict.get k (_column_data s).
Proof.
  intros Hdata Hk. unfold update_column, store_column. run_monad. rewrite Hdata.
  destruct (contains data (data_key c)) as [[|]|e] eqn:Ec; try reflexivity.
  assert (Hne : k <> data_key c) by (destruct Hk as [Hk|Hk]; [exact Hk | congruence]).
  repeat case_run; cbn; try reflexivity; now apply get_set_ne.
Qed.

Lemma update_column_stores (doc : document) (data : pyval) (c : column_template)
    (s s' : Serializer) :
  getitem doc "data" = Ok data ->
  transform c = None ->
  contains data (data_key c) = Ok true ->
  update_column doc c s = (Ok tt, s') ->
  exists values event_data,
    subscript data (data_key c) = Ok values /\
    first_item values = Ok event_data /\
    ODict.get (data_key c) (_column_data s') = Some (as_column event_data).
Proof.
  intros Hdata Htr Hin. unfold update_column, store_column, as_column. run_monad.
  rewrite Hdata, Hin, Htr.
  destruct (subscript data (data_key c)) as [values|e] eqn:Es; [|discriminate].
  destruct (first_item values) as [event_data|e] eqn:Ef; [|discriminate].
  intros Hrun. exists values, event_data. split; [reflexivity|]. split; [exact Ef|].
  destruct (is_array_or_sequence event_data); inversion Hrun; cbn; apply get_set_eq.
Qed.

Lemma for_each_update_column_other (doc : document) (data : pyval)
    (cols : list column_template) (s : Serializer) (k : string) :
  getitem doc "data" = Ok data ->
  (forall c, In c cols -> k <> data_key c \/ contains data k <> Ok true) ->
  ODict.get k (_column_data (for_each (update_column doc) cols s).2)
  = ODict.get k (_column_data s).
Proof.
  intros Hdata. revert s. induction cols as [|c cols IH]; intros s Hk; [reflexivity|].
  cbn [for_each]. rewrite bind_run.
  pose proof (update_column_other doc data c s k Hdata (Hk c (or_introl eq_refl))) as Hc.
  destruct (update_column doc c s) as [[[]|e] s1]; cbn [snd] in Hc |- *; [|exact Hc].
  rewrite IH; [exact Hc|]. intros c' Hc'. apply Hk. now right.
Qed.

(** A key that the page's data do not have keeps its buffered value. *)
Lemma update_data_columns_other (doc : document) (data : pyval) (s : Serializer)
    (k : string) :
  getitem doc "data" = Ok data ->
  contains data k <> Ok true ->
  ODict.get k (_column_data (_update_data_columns_from_doc doc s).2)
  = ODict.get k (_column_data s).
Proof.
  intros Hdata Hk. unfold _update_data_columns_from_doc. rewrite bind_run. cbn [gets].
  apply (for_each_update_column_other doc data); [exact Hdata|].
  intros c _. now right.
Qed.

Lemma for_each_update_column_stores (doc : document) (data : pyval)
    (cols : list column_template) (s s' : Serializer) :
  getitem doc "data" = Ok data ->
  for_each (update_column doc) cols s = (Ok tt, s') ->
  NoDup (map data_key cols) ->
  forall c, In c cols -> transform c = None ->
    contains data (data_key c) = Ok true ->
    exists values event_data,
      subscript data (data_key c) = Ok values /\
      first_item values = Ok event_data /\
      ODict.get (data_key c) (_column_data s') = Some (as_column event_data).
Proof.
  intros Hdata. revert s.
  induction cols as [|c0 cols IH]; intros s Hrun Hnd c Hin Htr Hhas; [destruct Hin|].
  cbn [for_each] in Hrun. apply bind_ok in Hrun as ([] & s1 & Hfirst & Hrest).
  cbn [map] in Hnd. apply NoDup_cons in Hnd as [Hfresh Hnd].
  rewrite list_elem_of_In in Hfresh.
  destruct (in_dec string_dec (data_key c) (map data_key cols)) as [Hlater|Hnot].
  - destruct Hin as [->|Hin].
    + tauto.
    + eapply IH; eassumption.
  - destruct Hin as [->|Hin]; [| destruct Hnot; now apply in_map].
    destruct (update_column_stores doc data c s s1 Hdata Htr Hhas Hfirst)
      as (values & event_data & Hsub & Hitem & Hget).
    exists values, event_data. split; [exact Hsub|]. split; [exact Hitem|].
    pose proof (for_each_update_column_other doc data cols s1 (data_key c) Hdata)
      as Ho.
    rewrite Hrest in Ho. cbn [snd] in Ho. rewrite Ho; [exact Hget|].
    intros c' Hc'. left. intros Heq. apply Hnot. rewrite Heq. now apply in_map.
Qed.

(** A page that [_update_data_columns_from_doc] handles without exception:
    a key that the page's data do not have keeps what the buffer held for
    it, from whatever earlier page; and, the columns having distinct data
    keys, a column without transform whose key the page has holds the
    first item of the page's value for it, as it is when it is an array or
    a sequence and as a tuple of one value otherwise. *)
Theorem update_data_columns_stores (doc : document) (data : pyval)
    (s s' : Serializer) :
  _update_data_columns_from_doc doc s = (Ok tt, s') ->
  getitem doc "data" = Ok data ->
  (forall k, contains data k <> Ok true ->
     ODict.get k (_column_data s') = ODict.get k (_column_data s)) /\
  (NoDup (map data_key (columns s)) ->
   forall c, In c (columns s) -> transform c = None ->
     contains data (data_key c) = Ok true ->
     exists values event_data,
       subscript data (data_key c) = Ok values /\
       first_item values = Ok event_data /\
       ODict.get (data_key c) (_column_data s') = Some (as_column event_data)).
Proof.
  unfold _update_data_columns_from_doc. intros Hrun Hdata.
  apply bind_ok in Hrun as (cols & s0 & Hcols & Hrun).
  cbn [gets] in Hcols. inversion Hcols; subst cols s0; clear Hcols.
  split.
  - intros k Hk.
    pose proof (for_each_update_column_other doc data (columns s) s k Hdata) as Ho.
    rewrite Hrun in Ho. apply Ho. intros c _. now right.
  - intros Hnd. eapply for_each_update_column_stores; eassumption.
Qed.

(** *** Event-pages and their descriptors *)

Lemma feed_invariant_in (P : Serializer -> Prop)
    (docs : list (doc_kind * string * document)) :
  (forall item s, In item docs -> P s -> P (call item.1.1 item.1.2 item.2 s).2) ->
  forall s, P s -> P (feed docs s).2.
Proof.
  unfold feed. induction docs as [|item docs IH]; intros Hcall s Hs; cbn [for_each].
  - exact Hs.
  - rewrite bind_run.
    pose proof (Hcall item s (or_introl eq_refl) Hs) as H1.
    destruct (call item.1.1 item.1.2 item.2 s) as [[[]|e] s1]; cbn [snd] in *;
      [| exact H1].
    apply IH; [| exact H1]. intros item' s' Hin. apply Hcall. now right.
Qed.

Lemma same_descriptors_refl (s : Serializer) : same_descriptors s s.
Proof. reflexivity. Qed.

Lemma same_descriptors_trans (s1 s2 s3 : Serializer) :
  same_descriptors s1 s2 -> same_descriptors s2 s3 -> same_descriptors s1 s3.
Proof. unfold same_descriptors. congruence. Qed.

Ltac same_descriptors_step :=
  first
    [ apply (preserves_ret same_descriptors same_descriptors_refl)
    | apply (preserves_raise same_descriptors same_descriptors_refl)
    | apply (preserves_lift same_descriptors same_descriptors_refl)
    | apply (preserves_gets same_descriptors same_descriptors_refl)
    | apply (preserves_modify same_descriptors); intros ?; reflexivity
    | apply (preserves_bind same_descriptors same_descriptors_trans); [| intros ?]
    | apply (preserves_for_each same_descriptors same_descriptors_refl
               same_descriptors_trans); intros ?
    | match goal with
      | |- preserves _ (on_header_line_buffer _) => intros ?; reflexivity
      | |- preserves _ (match ?x with _ => _ end) => destruct x
      end ].

(** Only a descriptor registers a descriptor, and under its own uid. *)
Lemma call_registers (name : doc_kind) (now : string) (doc : document)
    (s : Serializer) (key : string) :
  (name = DescriptorDoc -> getitem doc "uid" <> Ok (PyStr key)) ->
  _uid_to_descriptor (call name now doc s).2 !! key = _uid_to_descriptor s !! key.
Proof.
  intros Hother.
  assert (Hsame : forall m : stateful Serializer unit,
             preserves same_descriptors m ->
             _uid_to_descriptor (m s).2 !! key = _uid_to_descriptor s !! key).
  { intros m Hm. now rewrite (Hm s). }
  destruct name; cbn [call].
  - apply Hsame. unfold start, _initialize_column_data_dict.
    repeat same_descriptors_step.
  - specialize (Hother eq_refl). unfold descriptor. rewrite bind_run. unfold lift at 1.
    destruct (getitem doc "uid") as [uid|e]; [| reflexivity].
    rewrite bind_run. unfold lift at 1.
    destruct uid as [| | |uid_text| |]; try reflexivity.
    cbn [uid_key]. rewrite bind_run. cbn [modify]. rewrite bind_run. cbn [gets].
    unfold on_header_line_buffer. cbn.
    apply lookup_insert_ne. congruence.
  - apply Hsame.
    unfold event_page, stream_name_of, _event_page_begin_row, _event_page_end_row,
      _event_page_energy_bins, store_event_page_header, _event_page_primary,
      _update_data_columns_from_doc, update_column, store_column,
      open_file, _write_header, write_rows, write_value, write.
    repeat same_descriptors_step.
  - reflexivity.
Qed.

(** An event-page whose descriptor uid no descriptor of the stream so far
    has carried is refused with [KeyError] on that uid, and the serializer
    is as it was: nothing of the page is kept. *)
Theorem event_page_unknown_descriptor (file_prefix : string)
    (template : option xdi_template)
    (transforms : option (gmap string (document -> result pyval)))
    (docs : list (doc_kind * string * document)) (s0 : Serializer)
    (now : string) (doc : document) (key : string) :
  __init__ file_prefix template transforms = Ok s0 ->
  getitem doc "descriptor" = Ok (PyStr key) ->
  (forall now' d, In (DescriptorDoc, now', d) docs -> getitem d "uid" <> Ok (PyStr key)) ->
  event_page now doc (feed docs s0).2 = (Raise (KeyError key), (feed docs s0).2).
Proof.
  intros Hinit Hdesc Hfresh.
  assert (Hnone : _uid_to_descriptor (feed docs s0).2 !! key = None).
  { apply (feed_invariant_in (fun s => _uid_to_descriptor s !! key = None)).
    - intros [[name now'] d] s Hin Hs. cbn [fst snd].
      rewrite call_registers; [exact Hs|].
      intros ->. now apply (Hfresh now' d).
    - apply init_state in Hinit as (t & _ & _ & _ & _ & _ & _ & _ & _ & _ & Huid).
      rewrite Huid. apply lookup_empty. }
  unfold event_page, stream_name_of. run_monad.
  rewrite Hdesc. cbn [uid_key]. now rewrite Hnone.
Qed.

(** *** Columns that have no data *)

Lemma map_result_ok_in {A B} (f : A -> result B) (xs : list A) (ys : list B) (x : A) :
  map_result f xs = Ok ys -> In x xs -> exists y, f x = Ok y.
Proof.
  revert ys. induction xs as [|x0 xs IH]; intros ys Hrun Hin; [destruct Hin|].
  cbn [map_result] in Hrun.
  destruct (f x0) as [y0|e] eqn:E0; [|discriminate Hrun]. cbn [rbind] in Hrun.
  destruct (map_result f xs) as [ys0|e] eqn:Erest; [|discriminate Hrun].
  destruct Hin as [<-|Hin]; [eauto | eapply IH; eauto].
Qed.

(** A primary page does not end well while a column of the buffer holds
    [None] and the page has no data for it: the rows are zipped from the
    buffered values, and [None] is not iterable. *)
Theorem primary_page_needs_every_column (now : string) (doc : document)
    (data : pyval) (s s' : Serializer) (k : string) :
  (stream_name_of doc s).1 = Ok (PyStr "primary") ->
  getitem doc "data" = Ok data ->
  ODict.get k (_column_data s) = Some PyNone ->
  contains data k <> Ok true ->
  event_page now doc s <> (Ok tt, s').
Proof.
  intros Hname Hdata Hk Hout Hrun.
  apply primary_event_page_run in Hrun as (seq_num & _ & Hrun); [|exact Hname].
  apply event_page_primary_run in Hrun
    as (s1 & number & first & prefix & ev & combined & lines & column_values
        & Hupd & _ & _ & _ & _ & _ & _ & Hiter & _).
  pose proof (update_data_columns_other doc data (set_scan_number (Some seq_num) s)
                k Hdata Hout) as Ho.
  rewrite Hupd in Ho. cbn [snd set_scan_number _column_data] in Ho.
  assert (Hnone : ODict.get k (_column_data s1) = Some PyNone) by congruence.
  apply get_in_values in Hnone.
  destruct (map_result_ok_in _ _ _ _ Hiter Hnone) as [y Hy]. discriminate Hy.
Qed.

(** *** After the end of a row *)

Lemma get_none_keys {V} (d : list (string * V)) (k : string) :
  ODict.get k d = None <-> ~ In k (ODict.keys d).
Proof.
  split.
  - intros Hnone Hin. apply in_keys_mem in Hin.
    apply mem_get in Hin as [v Hv]. congruence.
  - intros Hout. destruct (ODict.get k d) as [v|] eqn:Hget; [|reflexivity].
    destruct Hout. now apply (get_in_keys d k v).
Qed.

(** An update of the header lines leaves alone a field that the template
    does not have, whether or not the update raises. *)
Lemma update_header_lines_other (template : xdi_template) (doc_name : string)
    (doc : document) (k : string) (b : header_lines) :
  ~ In k (template_labels template) ->
  ODict.get k (_update_header_lines_from_doc template doc_name doc b).2
  = ODict.get k b.
Proof.
  intros Hout. unfold template_labels in Hout. rewrite !in_app_iff in Hout.
  assert (Htrans : forall b1 b2 b3 : header_lines,
             ODict.get k b2 = ODict.get k b1 -> ODict.get k b3 = ODict.get k b2 ->
             ODict.get k b3 = ODict.get k b1) by (intros; congruence).
  assert (Hp : preserves (fun b1 b2 : header_lines => ODict.get k b2 = ODict.get k b1)
                 (_update_header_lines_from_doc template doc_name doc)).
  { unfold _update_header_lines_from_doc.
    repeat (apply (preserves_bind _ Htrans); [| intros ?]);
      intros b0; apply fill_empty_header_lines_other; tauto. }
  apply Hp.
Qed.

Lemma field_kept_refl (template : xdi_template) (k : string) (s : Serializer) :
  field_kept template k s s.
Proof. intros Ht. now split. Qed.

Lemma field_kept_trans (template : xdi_template) (k : string)
    (s1 s2 s3 : Serializer) :
  field_kept template k s1 s2 -> field_kept template k s2 s3 ->
  field_kept template k s1 s3.
Proof.
  intros H12 H23 Ht. destruct (H12 Ht) as [Ht2 E12].
  destruct (H23 Ht2) as [Ht3 E23]. split; [exact Ht3 | congruence].
Qed.

(** A statement that reads the template, on a serializer made for
    [template]. *)
Lemma field_kept_template {A} (template : xdi_template) (k : string)
    (f : xdi_template -> stateful Serializer A) :
  preserves (field_kept template k) (f template) ->
  preserves (field_kept template k) (gets _xdi_file_template ≫= f).
Proof.
  intros Hf s Ht. rewrite bind_run. cbn [gets]. rewrite Ht. exact (Hf s Ht).
Qed.

Lemma on_header_line_buffer_field_kept (template : xdi_template)
    (doc_name : string) (doc : document) (k : string) :
  ~ In k (template_labels template) ->
  preserves (field_kept template k)
    (on_header_line_buffer (_update_header_lines_from_doc template doc_name doc)).
Proof.
  intros Hout s Ht. unfold on_header_line_buffer.
  cbn [fst snd set_header_line_buffer _xdi_file_template _header_line_buffer].
  split; [exact Ht | now apply update_header_lines_other].
Qed.

Lemma initialize_column_data_frame :
  preserves only_column_data _initialize_column_data_dict.
Proof.
  unfold _initialize_column_data_dict.
  repeat first
    [ apply (preserves_gets only_column_data only_column_data_refl)
    | apply (preserves_modify only_column_data); intros ?; reflexivity
    | apply (preserves_bind only_column_data only_column_data_trans); [| intros ?]
    | apply (preserves_for_each only_column_data only_column_data_refl
               only_column_data_trans); intros ? ].
Qed.

(** A run-start leaves alone a field that the template does not have. *)
Lemma start_field_kept (template : xdi_template) (k : string) (doc : document) :
  ~ In k (template_labels template) ->
  preserves (field_kept template k) (start doc).
Proof.
  intros Hout. unfold start.
  apply (preserves_bind _ (field_kept_trans template k)).
  - apply (preserves_weaken only_column_data); [| apply initialize_column_data_frame].
    intros s s' Hframe Ht. unfold only_column_data in Hframe. rewrite Hframe.
    cbn [set_column_data _xdi_file_template _header_line_buffer]. now split.
  - intros _. apply field_kept_template.
    apply (preserves_bind _ (field_kept_trans template k));
      [now apply on_header_line_buffer_field_kept | intros _].
    apply (preserves_bind _ (field_kept_trans template k));
      [apply (preserves_gets _ (field_kept_refl template k)) | intros file_prefix].
    apply (preserves_bind _ (field_kept_trans template k));
      [apply (preserves_lift _ (field_kept_refl template k)) | intros prefix].
    apply preserves_modify. intros s Ht. now split.
Qed.

(** So does a descriptor. *)
Lemma descriptor_field_kept (template : xdi_template) (k : string)
    (doc : document) :
  ~ In k (template_labels template) ->
  preserves (field_kept template k) (descriptor doc).
Proof.
  intros Hout. unfold descriptor.
  apply (preserves_bind _ (field_kept_trans template k));
    [apply (preserves_lift _ (field_kept_refl template k)) | intros uid].
  apply (preserves_bind _ (field_kept_trans template k));
    [apply (preserves_lift _ (field_kept_refl template k)) | intros key].
  apply (preserves_bind _ (field_kept_trans template k));
    [apply preserves_modify; intros s Ht; now split | intros _].
  apply field_kept_template. now apply on_header_line_buffer_field_kept.
Qed.

Lemma descriptor_same_event_buffer (doc : document) :
  preserves same_event_page_buffer (descriptor doc).
Proof.
  assert (Hrefl : forall s, same_event_page_buffer s s) by reflexivity.
  assert (Htrans : forall s1 s2 s3, same_event_page_buffer s1 s2 ->
             same_event_page_buffer s2 s3 -> same_event_page_buffer s1 s3)
    by (unfold same_event_page_buffer; congruence).
  unfold descriptor.
  repeat first
    [ apply (preserves_lift _ Hrefl) | apply (preserves_gets _ Hrefl)
    | apply (preserves_modify same_event_page_buffer); intros ?; reflexivity
    | apply (preserves_bind _ Htrans); [| intros ?]
    | match goal with
      | |- preserves _ (on_header_line_buffer _) => intros ?; reflexivity
      end ].
Qed.

(** An event-page of another stream than ["row_ends"], or of no known
    stream, leaves the event-page buffer as it is. *)
Lemma event_page_off_row_ends (now : string) (doc : document) (s : Serializer) :
  on_row_ends doc s = false ->
  same_event_page_buffer s (event_page now doc s).2.
Proof.
  unfold on_row_ends. intros Hoff.
  destruct (stream_name_of doc s) as [[name|e] s1] eqn:Hname.
  2:{ unfold event_page.
      change ((stream_name_of doc ≫= ?f) s) with
        (match stream_name_of doc s with
         | (Ok a, s') => f a s'
         | (Raise e, s') => (Raise e, s')
         end).
      pose proof (stream_name_of_pure doc s) as Hpure.
      rewrite Hname in *. cbn in *. now subst s1. }
  rewrite (event_page_on_stream now doc s name) by now rewrite Hname.
  cbn [fst] in Hoff. rewrite Hoff.
  destruct (is_stream name "energy_bins").
  - unfold _event_page_energy_bins.
    pose proof (update_data_columns_frame doc s) as Hframe.
    unfold only_column_data in Hframe. unfold same_event_page_buffer.
    rewrite Hframe. reflexivity.
  - destruct (is_stream name "primary"); [| reflexivity].
    destruct (getitem doc "seq_num") as [seq_num|e]; [| reflexivity].
    change ((lift (Ok seq_num) ≫= _) s)
      with (_event_page_primary now doc (set_scan_number (Some seq_num) s)).
    exact (event_page_primary_same_event_buffer now doc
             (set_scan_number (Some seq_num) s)).
Qed.

(** A document that is not a page of row ends leaves a blocked serializer
    blocked, whether or not its handler raises. *)
Lemma call_keeps_blocked (template : xdi_template) (k : string)
    (name : doc_kind) (now : string) (doc : document) (s : Serializer) :
  ~ In k (template_labels template) ->
  (name = EventPageDoc -> on_row_ends doc s = false) ->
  blocked_by_field template k s ->
  blocked_by_field template k (call name now doc s).2.
Proof.
  intros Hout Hoff (Ht & Hnone & ev & Hev & Hin).
  destruct name; cbn [call].
  - destruct (start_field_kept template k doc Hout s Ht) as [Ht' Hget].
    pose proof (start_same_event_buffer doc s) as He.
    unfold same_event_page_buffer in He.
    split; [exact Ht' | split; [congruence|]].
    exists ev. split; [congruence | exact Hin].
  - destruct (descriptor_field_kept template k doc Hout s Ht) as [Ht' Hget].
    pose proof (descriptor_same_event_buffer doc s) as He.
    unfold same_event_page_buffer in He.
    split; [exact Ht' | split; [congruence|]].
    exists ev. split; [congruence | exact Hin].
  - pose proof (event_page_same_headers now doc s) as (Hhb & _ & Ht').
    pose proof (event_page_off_row_ends now doc s (Hoff eq_refl)) as He.
    unfold same_event_page_buffer in He.
    split; [congruence | split; [congruence|]].
    exists ev. split; [congruence | exact Hin].
  - split; [exact Ht | split; [exact Hnone|]]. exists ev. now split.
Qed.

Lemma feed_keeps_blocked (template : xdi_template) (k : string) :
  ~ In k (template_labels template) ->
  forall docs s,
    no_row_ends_page docs s ->
    blocked_by_field template k s ->
    blocked_by_field template k (feed docs s).2.
Proof.
  intros Hout docs. unfold feed.
  induction docs as [|[[name now] doc] docs IH]; intros s Hno Hs; cbn [for_each].
  - exact Hs.
  - cbn [no_row_ends_page fst snd] in Hno. destruct Hno as [Hoff Hrest].
    rewrite bind_run. cbn [fst snd].
    pose proof (call_keeps_blocked template k name now doc s Hout Hoff Hs) as H1.
    destruct (call name now doc s) as [[[]|e] s1]; cbn [snd] in *;
      [apply IH; [exact Hrest | exact H1] | exact H1].
Qed.

(** With ["Scan.end_time"] among the optional headers of a template that
    has no field ["Scan_time.end"], the page that ends a row leaves the
    serializer unable to write: until a page of row ends begins the next
    row, whatever documents are handled in between, a primary page raises,
    whatever its data. *)
Theorem end_row_blocks_primary_page (now : string) (doc : document)
    (s s1 : Serializer) :
  (stream_name_of doc s).1 = Ok (PyStr "row_ends") ->
  length (_row_end_docs s) = 1%nat ->
  ODict.mem "Scan.end_time" (optional_headers (_xdi_file_template s)) = true ->
  ~ In "Scan_time.end" (template_labels (_xdi_file_template s)) ->
  ~ In "Scan_time.end" (ODict.keys (_header_line_buffer s)) ->
  event_page now doc s = (Ok tt, s1) ->
  forall docs : list (doc_kind * string * document),
    no_row_ends_page docs s1 ->
    forall now' page s2,
      (stream_name_of page (feed docs s1).2).1 = Ok (PyStr "primary") ->
      event_page now' page (feed docs s1).2 <> (Ok tt, s2).
Proof.
  intros Hname Hone Hmem Htpl Hout Hrun docs Hno now' page s2 Hprim Hpage.
  rewrite (event_page_on_stream now doc s _ Hname) in Hrun.
  change (is_stream (PyStr "row_ends") "row_ends") with true in Hrun.
  cbn iota in Hrun. rewrite bind_run in Hrun. cbn [gets] in Hrun.
  rewrite Hone in Hrun. cbn [Nat.eqb] in Hrun.
  apply bind_ok in Hrun as ([] & s0 & Hend & Hclear).
  cbn [modify] in Hclear. inversion Hclear; subst s1; clear Hclear.
  unfold _event_page_end_row, store_event_page_header in Hend.
  revert Hend. run_monad. rewrite Hmem.
  destruct (getitem doc "time") as [t|e]; [|discriminate].
  destruct (fromtimestamp_isoformat t) as [iso|e]; [|discriminate].
  destruct (_event_page_header_line_buffer s) as [ev|] eqn:Hev; [|discriminate].
  intros Hend. inversion Hend; subst s0; clear Hend.
  destruct (feed_keeps_blocked (_xdi_file_template s) "Scan_time.end" Htpl docs _ Hno)
    as (_ & Hnone & ev' & Hev' & Hin).
  { split; [reflexivity|]. split; [now apply get_none_keys|].
    exists (ODict.set "Scan_time.end" (Some iso) ev).
    split; [reflexivity|]. eapply get_in_keys. apply get_set_eq. }
  apply primary_event_page_run in Hpage as (seq_num & _ & Hpage); [|exact Hprim].
  revert Hpage.
  apply (primary_page_raises_on_foreign_field now' page _ s2 ev' "Scan_time.end").
  - exact Hev'.
  - exact Hin.
  - apply get_none_keys. exact Hnone.
Qed.
End WithBuiltins.

(** *** Worked examples, with the builtins of [Examples] *)

Import Examples.

(** A second run-start, naming another element, after the first. *)
Lemma header_line_first_writer_wins_witness :
  let s := (@start example_builtins run_start
              (fresh_serializer xdi_template_start_time)).2 in
  ODict.get "Element.symbol" (_header_line_buffer s)
  = Some (Some "# Element.symbol = K") /\
  ODict.get "Element.symbol"
    (_header_line_buffer (@call example_builtins StartDoc "12:30:00" run_start_again s).2)
  = Some (Some "# Element.symbol = K").
Proof.
  intros s.
  assert (Hfirst : ODict.get "Element.symbol" (_header_line_buffer s)
                   = Some (Some "# Element.symbol = K"))
    by (vm_compute; reflexivity).
  split; [exact Hfirst|].
  apply (@header_line_first_writer_wins example_builtins). exact Hfirst.
Defined.

(** A run is the pair of its result and its final state. *)
Lemma run_with_result {A St : Type} (p : result A * St) (r : result A) :
  p.1 = r -> p = (r, p.2).
Proof. intros <-. now destruct p. Qed.

Lemma three_columns_distinct :
  NoDup (map data_key (ODict.values (columns_section xdi_template_start_time))).
Proof.
  apply NoDup_ListNoDup. cbn.
  repeat (constructor;
          [cbn; intros Hin;
           repeat (destruct Hin as [Hin|Hin]; [discriminate Hin|]); exact Hin|]).
  constructor.
Defined.

(** A first page, a second page and a third page of row ends, after the
    descriptors: the third begins the next row. *)
Lemma row_ends_state_machine_witness :
  let first := @event_page example_builtins "12:00:03" (row_ends_page 110)
                 after_descriptors in
  let second := @event_page example_builtins "12:00:09" (row_ends_page 120) first.2 in
  let third := @event_page example_builtins "12:00:20" (row_ends_page 130) second.2 in
  (_row_end_docs first.2 = [row_ends_page 110] /\
   exists ev, _event_page_header_line_buffer first.2 = Some ev /\
              ODict.get "Scan.start_time" ev = Some (Some "T110")) /\
  (second.1 = Ok tt /\ _row_end_docs second.2 = []) /\
  (third.1 = Ok tt /\ _row_end_docs third.2 = [row_ends_page 130]) /\
  (_row_end_docs after_descriptors = [] \/
   length (_row_end_docs after_descriptors) = 1%nat).
Proof.
  intros first second third. split; [| split; [| split]].
  - destruct (@row_ends_state_machine example_builtins "12:00:03"
                (row_ends_page 110) after_descriptors)
      as ([_ [Hdocs Htime]] & _ & _); [reflexivity | reflexivity |].
    split; [exact Hdocs|].
    destruct (Htime (PyInt 110) "T110") as [_ Hev]; try reflexivity.
    exact Hev.
  - destruct (@row_ends_state_machine example_builtins "12:00:09"
                (row_ends_page 120) first.2)
      as (_ & [_ [Hend _]] & _); [reflexivity | reflexivity |].
    apply Hend. reflexivity.
  - destruct (@row_ends_state_machine example_builtins "12:00:09"
                (row_ends_page 120) first.2)
      as (_ & [_ [_ Hnext]] & _); [reflexivity | reflexivity |].
    destruct (Hnext second.2 "12:00:20" (row_ends_page 130)) as [_ Hdocs].
    + apply injective_projections; [vm_compute; reflexivity | reflexivity].
    + reflexivity.
    + split; [vm_compute; reflexivity | exact Hdocs].
  - destruct (@row_ends_state_machine example_builtins "12:00:03"
                (row_ends_page 110) after_descriptors)
      as (_ & _ & Hreach); [reflexivity|].
    apply (Hreach "{scan_title}-" (Some xdi_template_start_time) None
             (firstn 4 stream_before_primary)
             (fresh_serializer xdi_template_start_time)); reflexivity.
Defined.

(** Three pages of row ends in a row, after the descriptors: the third is
    handled without exception. *)
Lemma row_ends_third_page_counterexample :
  ~ @third_row_ends_page_fails example_builtins.
Proof.
  intros Hclaim.
  pose (first := @event_page example_builtins "12:00:03" (row_ends_page 110)
                   after_descriptors).
  pose (second := @event_page example_builtins "12:00:09" (row_ends_page 120)
                    first.2).
  destruct (Hclaim after_descriptors first.2 second.2
              "12:00:03" "12:00:09" "12:00:20"
              (row_ends_page 110) (row_ends_page 120) (row_ends_page 130))
    as [msg Hmsg]; try reflexivity.
  vm_compute in Hmsg. discriminate Hmsg.
Qed.



(** C8 on the code: with ["Scan.end_time"] among the optional headers,
    the second ["row_ends"] page leaves the end time of the row under the
    field ["Scan_time.end"] of the event-page buffer, and nothing under
    ["Scan.end_time"]; the header-line buffer has no field of that name, and
    the next primary page raises [KeyError] after the file has been opened
    and before anything is written to it. *)
Theorem scan_end_time_stored_under_other_field :
  let s := after_row xdi_template_end_time in
  let r := @event_page example_builtins "12:00:10" primary_page s in
  ODict.mem "Scan.end_time" (optional_headers (_xdi_file_template s)) = true /\
  (exists ev,
      _event_page_header_line_buffer s = Some ev /\
      ODict.get "Scan.end_time" ev = None /\
      ODict.get "Scan_time.end" ev = Some (Some "T120")) /\
  ODict.get "Scan.end_time" (_header_line_buffer s)
  = Some (Some "Scan.end_time = 100") /\
  r.1 = Raise (KeyError "Scan_time.end") /\
  files r.2 = [("cu-foil-1-12:00:10.xdi", [])].
Proof.
  intros s r. split; [reflexivity|]. split.
  - eexists. split; [vm_compute; reflexivity|].
    split; vm_compute; reflexivity.
  - split; [vm_compute; reflexivity|].
    split; vm_compute; reflexivity.
Qed.


Ltac not_in_list :=
  cbn; intros Hin;
  repeat (destruct Hin as [Hin|Hin]; [discriminate Hin|]); exact Hin.

(** The first row of the example, then a third page of row ends. *)
Lemma row_tracking_at_most_one_page_witness :
  __init__ "{scan_title}-" (Some xdi_template_start_time) None
  = Ok (fresh_serializer xdi_template_start_time) /\
  (length (_row_end_docs
             (@feed example_builtins
                (stream_before_primary
                 ++ [(EventPageDoc, "12:00:20", row_ends_page 130)])%list
                (fresh_serializer xdi_template_start_time)).2) <= 1)%nat.
Proof.
  assert (Hinit : __init__ "{scan_title}-" (Some xdi_template_start_time) None
                  = Ok (fresh_serializer xdi_template_start_time)) by reflexivity.
  split; [exact Hinit|].
  exact (@row_tracking_at_most_one_page example_builtins _ _ _ _ _ Hinit).
Defined.

(** The whole first row of the example. *)
Lemma column_order_after_first_start_witness :
  ODict.keys
    (_column_data
       (@feed example_builtins full_stream
          (fresh_serializer xdi_template_start_time)).2)
  = ["E_centers"; "I0"; "If"].
Proof.
  assert (Hord : column_order
                   (@feed example_builtins full_stream
                      (fresh_serializer xdi_template_start_time)).2).
  { apply (@column_order_after_first_start example_builtins "{scan_title}-"
             xdi_template_start_time None);
      [reflexivity | exact three_columns_distinct]. }
  destruct Hord as [Hcols Hkeys]. rewrite Hkeys, Hcols.
  vm_compute. reflexivity.
Defined.

(** The export of the first row of the example. *)
Lemma export_artifacts_complete_witness :
  exists artifacts,
    @export example_builtins full_stream "{scan_title}-"
      (Some xdi_template_start_time) None = Ok artifacts /\
    length artifacts = 1%nat /\
    Forall (@complete_file example_builtins
              (ODict.values (columns_section xdi_template_start_time)))
           artifacts.
Proof.
  destruct (@export example_builtins full_stream "{scan_title}-"
              (Some xdi_template_start_time) None) as [artifacts|e] eqn:Hrun.
  - exists artifacts. split; [reflexivity|]. split.
    + vm_compute in Hrun. inversion Hrun. reflexivity.
    + exact (@export_artifacts_complete example_builtins _ _ _ _ _ Hrun).
  - vm_compute in Hrun. discriminate Hrun.
Defined.

(** The primary page of the example, sent right after the descriptors. *)
Lemma primary_page_before_row_ends_witness :
  let r := @event_page example_builtins "12:00:02" primary_page after_descriptors in
  _event_page_header_line_buffer after_descriptors = None /\
  exists e,
    r.1 = Raise e /\
    (files r.2 = files after_descriptors \/
     e = AttributeError "_event_page_header_line_buffer" /\
     exists filename, files r.2 = (files after_descriptors ++ [(filename, [])])%list).
Proof.
  intros r. split; [reflexivity|].
  apply (@primary_page_before_row_ends example_builtins); reflexivity.
Defined.

(** The run-start of the example on a new serializer. *)
Lemma start_renders_unconditional_headers_witness :
  let s := fresh_serializer xdi_template_start_time in
  exists s',
    @start example_builtins run_start s = (Ok tt, s') /\
    ODict.get "Scan.start_time" (_header_line_buffer s')
    = Some (Some "Scan.start_time = 100").
Proof.
  intros s. destruct (@start example_builtins run_start s) as [r s'] eqn:Hrun.
  assert (Hr : r = Ok tt).
  { apply (f_equal fst) in Hrun. cbn [fst] in Hrun. rewrite <- Hrun.
    vm_compute. reflexivity. }
  subst r. exists s'. split; [reflexivity|].
  destruct (@start_renders_unconditional_headers example_builtins run_start s s' Hrun)
    as [_ Hopt].
  destruct (Hopt "Scan.start_time" {| optional_data := "{time}" |})
    as (value & Hvalue & Hline).
  - reflexivity.
  - intros l. vm_compute. discriminate.
  - not_in_list.
  - vm_compute in Hvalue. inversion Hvalue; subst value. exact Hline.
Defined.

(** The primary page of the example after the first row: the row's first
    page captured the time 110, the header buffer holds the line rendered
    from the run-start. *)
Lemma primary_page_keeps_rendered_lines_witness :
  let s := after_row xdi_template_start_time in
  let r := @event_page example_builtins "12:00:10" primary_page s in
  _event_page_header_line_buffer s = Some [("Scan.start_time", Some "T110")] /\
  r.1 = Ok tt /\
  exists filename lines rows,
    files r.2
    = (files s ++ [(filename, (@header_chunks lines (columns s) ++ rows)%list)])%list /\
    nth_error lines 5 = Some "Scan.start_time = 100".
Proof.
  intros s r. split; [vm_compute; reflexivity|].
  destruct r as [res s'] eqn:Hrun. subst r.
  assert (Hres : res = Ok tt).
  { apply (f_equal fst) in Hrun. cbn [fst] in Hrun. rewrite <- Hrun.
    vm_compute. reflexivity. }
  subst res. split; [reflexivity|].
  destruct (@primary_page_keeps_rendered_lines example_builtins "12:00:10"
              primary_page s s') as (filename & lines & rows & Hfiles & _ & Hnth);
    [reflexivity | exact Hrun |].
  exists filename, lines, rows. split; [exact Hfiles|].
  apply (Hnth 5%nat "Scan.start_time"). vm_compute. reflexivity.
Defined.

(** The export of the first row of the example: the start time in the
    file is the time of the run-start. *)
Lemma export_optional_header_from_run_start_witness :
  exists artifacts,
    @export example_builtins full_stream "{scan_title}-"
      (Some xdi_template_start_time) None = Ok artifacts /\
    length artifacts = 1%nat /\
    Forall (fun f : xdi_file => In "Scan.start_time = 100" f.2) artifacts.
Proof.
  destruct (@export example_builtins full_stream "{scan_title}-"
              (Some xdi_template_start_time) None) as [artifacts|e] eqn:Hrun.
  - exists artifacts. split; [reflexivity|]. split.
    + vm_compute in Hrun. inversion Hrun. reflexivity.
    + destruct (@export_optional_header_from_run_start example_builtins
                  "12:00:00" run_start later_documents "{scan_title}-"
                  xdi_template_start_time None artifacts "Scan.start_time"
                  {| optional_data := "{time}" |} Hrun)
        as (value & Hvalue & Hall).
      * reflexivity.
      * not_in_list.
      * vm_compute in Hvalue. inversion Hvalue; subst value. exact Hall.
  - vm_compute in Hrun. discriminate Hrun.
Defined.

(** A template with a header that only a run-stop may supply: the stream
    without its primary page is exported with no artifact, and with the
    primary page the export raises. *)
Lemma export_blocked_by_unsupplied_header_witness :
  supplied_by_no_handler xdi_template_stop_header "Scan.exit_status" /\
  @export example_builtins stream_before_primary "{scan_title}-"
    (Some xdi_template_stop_header) None = Ok [] /\
  @export example_builtins full_stream "{scan_title}-"
    (Some xdi_template_stop_header) None
  = Raise (TypeError "write() argument must be str, not None").
Proof.
  assert (Hk : supplied_by_no_handler xdi_template_stop_header "Scan.exit_status").
  { split; [cbn; right; left; reflexivity|]. split.
    - intros t [Heq|[Heq|[]]]; [discriminate Heq|].
      inversion Heq; subst t. eexists. split; [reflexivity|]. split; discriminate.
    - split; [not_in_list|]. split; discriminate. }
  split; [exact Hk|]. split; [| vm_compute; reflexivity].
  destruct (@export example_builtins stream_before_primary "{scan_title}-"
              (Some xdi_template_stop_header) None) as [artifacts|e] eqn:Hrun.
  - f_equal.
    exact (@export_blocked_by_unsupplied_header example_builtins _ _ _ _ _ _ Hk Hrun).
  - vm_compute in Hrun. discriminate Hrun.
Defined.

(** A page with a single number for I0, after the first row: the energy
    column keeps the bin centres, I0 becomes a tuple of the number. *)
Lemma update_data_columns_stores_witness :
  let s := after_row xdi_template_start_time in
  let r := _update_data_columns_from_doc scalar_page s in
  r.1 = Ok tt /\
  ODict.get "E_centers" (_column_data r.2)
  = Some (PySeq [PyInt 3551; PyInt 3552; PyInt 3553; PyInt 3554; PyInt 3555]) /\
  ODict.get "I0" (_column_data r.2) = Some (PySeq [PyInt 42]).
Proof.
  intros s r. destruct r as [res s'] eqn:Hrun. subst r.
  assert (Hres : res = Ok tt).
  { apply (f_equal fst) in Hrun. cbn [fst] in Hrun. rewrite <- Hrun.
    vm_compute. reflexivity. }
  subst res. split; [reflexivity|].
  destruct (update_data_columns_stores scalar_page
              (PyDict [("I0", PySeq [PyInt 42])]) s s' Hrun eq_refl)
    as [Hkeep Hstore].
  cbn [snd]. split.
  - rewrite (Hkeep "E_centers"); [vm_compute; reflexivity | vm_compute; discriminate].
  - assert (Hcols : columns s = [energy_column; i0_column; if_column])
      by (vm_compute; reflexivity).
    rewrite Hcols in Hstore.
    destruct (Hstore three_columns_distinct i0_column)
      as (values & event_data & Hsub & Hitem & Hget);
      [right; left; reflexivity | reflexivity | reflexivity |].
    vm_compute in Hsub. inversion Hsub; subst values.
    vm_compute in Hitem. inversion Hitem; subst event_data.
    exact Hget.
Defined.

(** A page of a stream with no descriptor, after the first row. *)
Lemma event_page_unknown_descriptor_witness :
  let s := (@feed example_builtins stream_before_primary
              (fresh_serializer xdi_template_start_time)).2 in
  @event_page example_builtins "12:00:30" stray_page s
  = (Raise (KeyError "d-other"), s).
Proof.
  intros s.
  apply (@event_page_unknown_descriptor example_builtins "{scan_title}-"
           (Some xdi_template_start_time) None).
  - reflexivity.
  - reflexivity.
  - intros now' d Hin. cbn in Hin.
    repeat (destruct Hin as [Hin|Hin];
            [inversion Hin; subst; vm_compute; discriminate|]).
    destruct Hin.
Defined.

(** The primary page of the example sent before the energy bins: the
    energy column still holds [None]. *)
Lemma primary_page_needs_every_column_witness :
  let s := (@feed example_builtins
              [ (EventPageDoc, "12:00:03", row_ends_page 110);
                (EventPageDoc, "12:00:09", row_ends_page 120) ]
              after_descriptors).2 in
  ODict.get "E_centers" (_column_data s) = Some PyNone /\
  forall s', @event_page example_builtins "12:00:10" primary_page s <> (Ok tt, s').
Proof.
  intros s. split; [vm_compute; reflexivity|]. intros s'.
  apply (@primary_page_needs_every_column example_builtins "12:00:10" primary_page
           (PyDict
              [ ("I0", PySeq [PySeq [PyInt 10; PyInt 20; PyInt 30]]);
                ("If", PySeq [PySeq [PyInt 7; PyInt 8; PyInt 9; PyInt 10; PyInt 11]]) ])
           s s' "E_centers").
  - reflexivity.
  - reflexivity.
  - vm_compute. reflexivity.
  - vm_compute. discriminate.
Defined.

(** The second page of row ends of the example, for the template with
    ["Scan.end_time"]; then a descriptor and a page of energy bins; then the
    primary page. *)
Lemma end_row_blocks_primary_page_witness :
  let r := @event_page example_builtins "12:00:09" (row_ends_page 120) after_row_begin in
  let docs := [ (DescriptorDoc, "12:00:09", descriptor_of "d-prim" "primary");
                (EventPageDoc, "12:00:09", energy_bins_page) ] in
  r.1 = Ok tt /\
  forall s2,
    @event_page example_builtins "12:00:10" primary_page
      (@feed example_builtins docs r.2).2 <> (Ok tt, s2).
Proof.
  intros r docs. split; [vm_compute; reflexivity|]. intros s2.
  apply (@end_row_blocks_primary_page example_builtins "12:00:09" (row_ends_page 120)
           after_row_begin r.2).
  - reflexivity.
  - reflexivity.
  - reflexivity.
  - vm_compute. intros Hin.
    repeat (destruct Hin as [Hin|Hin]; [discriminate Hin|]). exact Hin.
  - vm_compute. intros Hin.
    repeat (destruct Hin as [Hin|Hin]; [discriminate Hin|]). exact Hin.
  - apply run_with_result. vm_compute. reflexivity.
  - vm_compute. repeat split; intros Hk; first [discriminate Hk | reflexivity].
  - vm_compute. reflexivity.
Defined.
End SerializerFacts.
